(** * Clinical intake dialogue engine (api.py): a shallow embedding

    The slot-filling engine of [api.py] is embedded as executable Rocq
    definitions: the negation detector [check_negation], the keyword
    classifier of [predict_disease], the sub-group router
    [get_best_subgroup], the extraction cascade and question selection of
    [get_next_question], the report writer [generate_summary], the
    request handler [predict_disease], the command-line loop [main] and the
    prescription text [generate_patient_sentence].

    Modelling conventions.
    - A Python [str] is a Rocq [string]; each character stands for the code
      point with the same number, so the embedding covers utterances over
      U+0000..U+00FF.  [str.lower] and the classes [\d], [\s], [\w], [\b] of
      the [re] module are given with the values Python assigns on that range.
    - A Python [dict] is an insertion-ordered association list ([pydict]):
      assignment to a present key replaces the value in place, assignment to
      a new key appends.
    - [re.search] is a backtracking matcher over a small regular-expression
      syntax, scanning start positions from left to right and trying
      alternatives in the order they are written.
    - The record store (sqlite) is outside the engine: the result of the lock
      query is an input of a request, the statements it commits are outputs,
      and how a statement ends is an input.  A statement that was executed
      and whose commit raised stays pending on the connection: the next
      commit commits it, closing the connection discards it.
    - [random.choice] draws from an explicit stream of numbers.
    - The blocks of the extraction cascade, which all have one shape, are
      kept as tables of rules in source order and run by [apply_rule].
    - Reply texts are output only; the emoji of two fixed messages stands as
      its UTF-8 bytes. *)

From Stdlib Require Import Ascii String ZArith NArith Lia Bool.
From stdpp Require Import gmap strings list.

Local Open Scope Z_scope.

(** ** Characters and strings *)

Module Py.

Definition code (c : ascii) : N := N_of_ascii c.

Definition between (lo hi : N) (c : ascii) : bool :=
  ((lo <=? code c) && (code c <=? hi))%N.

(** [\d] on U+0000..U+00FF. *)
Definition is_digit (c : ascii) : bool := between 48 57 c.

(** [\s] on U+0000..U+00FF. *)
Definition is_space (c : ascii) : bool :=
  between 9 13 c || between 28 32 c || (code c =? 133)%N || (code c =? 160)%N.

(** [\w] on U+0000..U+00FF. *)
Definition is_word (c : ascii) : bool :=
  between 48 57 c || between 65 90 c || (code c =? 95)%N || between 97 122 c
  || (code c =? 170)%N || between 178 179 c || (code c =? 181)%N
  || between 185 186 c || between 188 190 c || between 192 214 c
  || between 216 246 c || between 248 255 c.

Definition lower_char (c : ascii) : ascii :=
  if between 65 90 c || between 192 214 c || between 216 222 c
  then ascii_of_N (code c + 32) else c.

(** [s.lower()] *)
Fixpoint lower (s : string) : string :=
  match s with
  | EmptyString => EmptyString
  | String c s' => String (lower_char c) (lower s')
  end.

Fixpoint drop (n : nat) (s : string) : string :=
  match n, s with
  | O, _ => s
  | S n', String _ s' => drop n' s'
  | S _, EmptyString => EmptyString
  end.

Fixpoint take (n : nat) (s : string) : string :=
  match n, s with
  | S n', String c s' => String c (take n' s')
  | _, _ => EmptyString
  end.

Definition len (s : string) : Z := Z.of_nat (String.length s).

(** One bound of a slice, as Python normalises it: a negative bound counts
    from the end, and the result is clamped to [0, len]. *)
Definition clamp (s : string) (i : Z) : Z :=
  let i := if i <? 0 then i + len s else i in
  Z.max 0 (Z.min i (len s)).

(** [s[lo:hi]] *)
Definition slice (s : string) (lo hi : Z) : string :=
  let lo := clamp s lo in
  let hi := clamp s hi in
  take (Z.to_nat (hi - lo)) (drop (Z.to_nat lo) s).

(** [w in s] for strings. *)
Fixpoint contains (w s : string) : bool :=
  String.prefix w s ||
  match s with
  | EmptyString => false
  | String _ s' => contains w s'
  end.

(** [any(k in s for k in ws)] *)
Definition any_in (ws : list string) (s : string) : bool :=
  existsb (fun w => contains w s) ws.

(** Truth value of an optional string: [None] and the empty string are
    false. *)
Definition truthy (o : option string) : bool :=
  match o with
  | Some (String _ _) => true
  | _ => false
  end.

End Py.

(** ** Regular expressions: the fragment of [re] the engine uses *)

Module Re.

Inductive regex : Type :=
| Lit (s : string)                 (* literal text *)
| Plus1 (p : ascii -> bool)        (* one or more characters of a class, greedy *)
| Star1 (p : ascii -> bool)        (* zero or more characters of a class, greedy *)
| WordB                            (* \b *)
| Seq (r1 r2 : regex)
| Alt (r1 r2 : regex).

(** A position in the subject: the character before it (if any) and the
    text from it on. *)
Definition cursor : Type := option ascii * string.

Definition next_char (s : string) : option ascii :=
  match s with
  | EmptyString => None
  | String c _ => Some c
  end.

Definition word_at (o : option ascii) : bool :=
  match o with
  | Some c => Py.is_word c
  | None => false
  end.

Definition at_boundary (c : cursor) : bool :=
  xorb (word_at c.1) (word_at (next_char c.2)).

Fixpoint eat_lit (l : string) (prev : option ascii) (s : string) : option cursor :=
  match l with
  | EmptyString => Some (prev, s)
  | String a l' =>
      match s with
      | String b s' => if Ascii.eqb a b then eat_lit l' (Some b) s' else None
      | EmptyString => None
      end
  end.

(** Greedy repetition of a character class, giving characters back one at a
    time when the continuation fails. *)
Fixpoint star_cls (p : ascii -> bool) (k : cursor -> option cursor)
    (prev : option ascii) (s : string) : option cursor :=
  match s with
  | String a s' =>
      if p a then
        match star_cls p k (Some a) s' with
        | Some r => Some r
        | None => k (prev, s)
        end
      else k (prev, s)
  | EmptyString => k (prev, s)
  end.

(** [run r k c]: match [r] at [c], then the continuation [k]; the result is
    the cursor where the whole match ends. *)
Fixpoint run (r : regex) (k : cursor -> option cursor) (c : cursor) : option cursor :=
  match r with
  | Lit l =>
      match eat_lit l c.1 c.2 with
      | Some c' => k c'
      | None => None
      end
  | Plus1 p =>
      match c.2 with
      | String a s' => if p a then star_cls p k (Some a) s' else None
      | EmptyString => None
      end
  | Star1 p => star_cls p k c.1 c.2
  | WordB => if at_boundary c then k c else None
  | Seq r1 r2 => run r1 (run r2 k) c
  | Alt r1 r2 =>
      match run r1 k c with
      | Some x => Some x
      | None => run r2 k c
      end
  end.

Definition match_at (r : regex) (c : cursor) : option cursor := run r Some c.

(** A match object: [m.start()] and [m.group(0)]. *)
Record match_obj : Type := Match { start : Z; group0 : string }.

Fixpoint search_from (r : regex) (pos : Z) (prev : option ascii) (s : string)
    : option match_obj :=
  match match_at r (prev, s) with
  | Some (_, rest) =>
      Some (Match pos (Py.take (String.length s - String.length rest)%nat s))
  | None =>
      match s with
      | String a s' => search_from r (pos + 1) (Some a) s'
      | EmptyString => None
      end
  end.

(** [re.search(r, text)] *)
Definition search (r : regex) (text : string) : option match_obj :=
  search_from r 0 None text.

Definition found (r : regex) (text : string) : bool :=
  match search r text with
  | Some _ => true
  | None => false
  end.

End Re.

Import Re.

Coercion Lit : string >-> regex.
Notation "r1 |:| r2" := (Alt r1 r2) (at level 65, right associativity).
Notation "r1 ;: r2" := (Seq r1 r2) (at level 60, right associativity).

Definition digits1 : regex := Plus1 Py.is_digit.   (* \d+ *)
Definition spaces0 : regex := Star1 Py.is_space.   (* \s* *)
Definition spaces1 : regex := Plus1 Py.is_space.   (* \s+ *)

(** ** 3. Helper functions *)

(** [r"\b(no|not|dont|without|denies|never)\b"] *)
Definition negation_re : regex :=
  WordB ;: ("no" |:| "not" |:| "dont" |:| "without" |:| "denies" |:| "never") ;: WordB.

(** [check_negation(text, index)] *)
Definition check_negation (text : string) (index : Z) : bool :=
  let preceding_text := Py.slice text (Z.max 0 (index - 20)) index in
  if found negation_re preceding_text then true else false.

(** ** Python dictionaries *)

Section Dict.
Context {V : Type}.

Definition pydict : Type := list (string * V).

(** [d.get(k)] *)
Fixpoint dict_get (k : string) (d : pydict) : option V :=
  match d with
  | [] => None
  | (k', v) :: d' => if String.eqb k k' then Some v else dict_get k d'
  end.

(** [d[k] = v] *)
Fixpoint dict_set (k : string) (v : V) (d : pydict) : pydict :=
  match d with
  | [] => [(k, v)]
  | (k', v') :: d' =>
      if String.eqb k k' then (k, v) :: d' else (k', v') :: dict_set k v d'
  end.

(** [k in d] *)
Definition dict_mem (k : string) (d : pydict) : bool :=
  match dict_get k d with
  | Some _ => true
  | None => false
  end.

(** The assignments [d[k1] = v1; d[k2] = v2; ...] in order. *)
Definition apply_writes (ws : list (string * V)) (d : pydict) : pydict :=
  fold_left (fun d w => dict_set w.1 w.2 d) ws d.

(** The value last assigned to [k] in a sequence of assignments. *)
Fixpoint last_write (k : string) (ws : list (string * V)) : option V :=
  match ws with
  | [] => None
  | w :: ws' =>
      match last_write k ws' with
      | Some v => Some v
      | None => if String.eqb w.1 k then Some w.2 else None
      end
  end.

End Dict.

Arguments pydict V : clear implicits.

(** The clipboard of a conversation: slot name to extracted text. *)
Abbreviation clipboard := (pydict string).

(** Sub-group to slot to candidate questions, per category. *)
Abbreviation question_bank := (pydict (pydict (pydict (list string)))).

(** ** 4. Logic configuration

    The module binds the name [SPECIALIST_QUESTIONS] three times (lines 143,
    152 and 246) and then assigns four more categories into the last binding;
    the definitions below follow the statements in source order. *)

Module Config.

(* api.py, line 143: [SPECIALIST_QUESTIONS = {...}] *)
Definition SPECIALIST_QUESTIONS_0 : question_bank :=
  [].

(* api.py, line 145 *)
Definition GASTRO_KEYWORDS : pydict (list string) :=
  [("STOMACH",
     ["vomit"; "nausea"; "puke"; "throw up"; "upper"; "ulcer"; "gastritis";
      "tummy"]);
   ("INTESTINES",
     ["diarrhea"; "constipation"; "poop"; "stool"; "bloat"; "gas"; "cramp";
      "lower"]);
   ("ESOPHAGUS",
     ["heartburn"; "acid"; "reflux"; "chest"; "burn"; "swallow"; "gerd"]);
   ("GENERAL",
     ["poison"; "food"; "ate"; "sushi"; "bad food"; "flu"])].

(* api.py, line 152: [SPECIALIST_QUESTIONS = {...}] *)
Definition SPECIALIST_QUESTIONS_1 : question_bank :=
  [("GASTROINTESTINAL",
     [("STOMACH",
        [("duration",
           ["How long have you had this stomach pain?";
            "When did the pain start?";
            "Has this been hurting for a while or did it just start?"]);
         ("vomiting",
           ["Have you experienced any vomiting or nausea?";
            "Have you thrown up at all?"; "Is there any nausea?"]);
         ("severity",
           ["Does the pain get worse after eating?";
            "On a scale of 1-10, how severe is it?";
            "Is the pain sharp or dull?"])]);
      ("INTESTINES",
        [("bowel",
           ["Have you noticed any changes in your bowel movements (diarrhea or constipation)?";
            "Is everything normal when you go to the bathroom?"]);
         ("bloating",
           ["Is there any bloating or gas?";
            "Do you feel unusually full or bloated?"]);
         ("cramps",
           ["On a scale of 1-10, how severe are the cramps?";
            "Are the cramps coming and going?"])]);
      ("ESOPHAGUS",
        [("swallowing",
           ["Do you have difficulty swallowing?";
            "Does it hurt when you swallow?"]);
         ("heartburn",
           ["Do you experience burning in the chest after meals?";
            "Does antacid relieve the burning sensation?"]);
         ("regurgitation",
           ["Do you feel any acid or food coming up into your throat?";
            "Do you have a sour taste in your mouth?"])]);
      ("GENERAL",
        [("food_history",
           ["Did you eat anything unusual or uncooked recently?";
            "Any recent travel or food exposures?"]);
         ("fever",
           ["Do you have fever or chills?";
            "Have you noticed any sweating or night fevers?"])]);
      ("DEFAULT",
        [("assessment",
           ["Where exactly is the pain located?";
            "How long have you felt this way?";
            "On a scale of 1-10, how severe is it?"])])])].

(* api.py, line 220 *)
Definition NEURO_KEYWORDS : pydict (list string) :=
  [("HEADACHE",
     ["headache"; "migraine"; "head"; "temple"; "throb"; "pounding";
      "forehead"; "skull"; "pressure"; "ache"]);
   ("DIZZINESS",
     ["dizzy"; "spin"; "spinning"; "lightheaded"; "woozy"; "balance";
      "steady"; "unsteady"; "vertigo"; "fall"]);
   ("VISION",
     ["vision"; "blur"; "blurry"; "double"; "see"; "sight"; "flash"; "spots";
      "blind"; "eye"]);
   ("CONSCIOUSNESS",
     ["faint"; "black out"; "blackout"; "passed out"; "unconscious";
      "seizure"; "fit"; "convulsion"; "wake up"]);
   ("GENERAL",
     ["numb"; "numbness"; "tingle"; "tingling"; "weak"; "weakness";
      "confused"; "confusion"; "slur"; "speak"; "stroke"; "face"])].

(* api.py, line 246: [SPECIALIST_QUESTIONS = {...}] *)
Definition SPECIALIST_QUESTIONS_2 : question_bank :=
  [("NEUROLOGICAL",
     [("HEADACHE",
        [("location",
           ["Where exactly is the pain? (Front, back, or just one side?)";
            "Is the pain all over your head or focused in one spot?"]);
         ("duration",
           ["How long have you had this headache?"; "When did the pain start?"]);
         ("associated_symptoms",
           ["Do you feel nauseous or sick to your stomach?";
            "Are you sensitive to bright lights or loud noises right now?"]);
         ("severity",
           ["On a scale of 1-10, how bad is the pain?";
            "Is it a throbbing pain, a tight band, or a sharp stabbing sensation?"])]);
      ("DIZZINESS",
        [("sensation",
           ["Does the room feel like it is spinning around you (vertigo), or do you just feel lightheaded?";
            "Do you feel like you might pass out, or are you just unsteady on your feet?"]);
         ("triggers",
           ["Does standing up quickly make it worse?";
            "Does moving your head or rolling over in bed trigger the dizziness?"]);
         ("ears",
           ["Do you hear any ringing or buzzing in your ears?";
            "Does your ear feel full or blocked?"])]);
      ("VISION",
        [("clarity",
           ["Is your vision blurry, or are you seeing double of everything?";
            "Have you lost vision in any part of your eye (like a curtain coming down)?"]);
         ("disturbances",
           ["Are you seeing flashing lights, zig-zag lines, or spots?";
            "Do bright lights hurt your eyes?"]);
         ("onset",
           ["Did this vision change happen suddenly or gradually?";
            "Is it affecting one eye or both eyes?"])]);
      ("CONSCIOUSNESS",
        [("event",
           ["Did you actually lose consciousness (black out) or just feel faint?";
            "Do you remember falling, or did you wake up on the floor?"]);
         ("warning",
           ["Did you feel anything before it happened, like nausea or sweating?";
            "Were you doing anything specific (like exercising or standing up) when it happened?"]);
         ("aftermath",
           ["Did you feel confused or extremely tired immediately after waking up?";
            "Did you bite your tongue or lose bladder control?"])]);
      ("GENERAL",
        [("weakness",
           ["Do you have any numbness or tingling in your face, arms, or legs?";
            "Is one side of your body weaker than the other?"]);
         ("cognition",
           ["Are you having trouble speaking or understanding words?";
            "Do you feel confused or disoriented?"]);
         ("history",
           ["Have you ever had a seizure or stroke before?";
            "Are you currently on any medication?"])]);
      ("DEFAULT",
        [("assessment",
           ["Can you describe the sensation you are feeling in more detail?";
            "When did you first notice this symptom?";
            "Is the symptom constant, or does it come and go?";
            "On a scale of 1-10, how much is this affecting your daily activities?"])])])].

(* api.py, line 341 *)
Definition RESPIRATORY_KEYWORDS : pydict (list string) :=
  [("BREATHING",
     ["breath"; "breathing"; "short of breath"; "gasp"; "wheeze"; "tight";
      "suffocate"; "air"; "pant"; "asthma"; "inhaler"]);
   ("COUGH",
     ["cough"; "hacking"; "phlegm"; "sputum"; "mucus"; "spit"; "blood";
      "dry cough"; "wet cough"; "bark"]);
   ("INFECTION",
     ["pneumonia"; "bronchitis"; "fever"; "chills"; "flu"; "cold";
      "chest infection"; "painful breath"]);
   ("GENERAL",
     ["chest"; "congestion"; "stuff"; "stuffed"; "allergy"; "sneeze";
      "runny nose"; "nose"; "sinus"])].

(* api.py, line 364: [SPECIALIST_QUESTIONS["RESPIRATORY"] = {...}] *)
Definition QUESTIONS_RESPIRATORY : pydict (pydict (list string)) :=
  [("BREATHING",
     [("onset",
        ["Did this shortness of breath start suddenly or has it been getting worse over time?";
         "Does it happen when you are resting, or only when you exert yourself (like walking)?"]);
      ("severity",
        ["On a scale of 1-10, how difficult is it to breathe right now?";
         "Do you feel like you can't get enough air into your lungs?"]);
      ("sounds",
        ["Do you hear any wheezing or whistling sounds when you breathe?";
         "Is your chest feeling tight or heavy?"])]);
   ("COUGH",
     [("type",
        ["Is your cough dry and tickly, or are you bringing up mucus (wet cough)?";
         "Does the cough happen more at night or during the day?"]);
      ("sputum",
        ["If you are coughing up mucus, what color is it (clear, yellow, green, or rusty)?";
         "Have you coughed up any blood or pink froth?"]);
      ("duration",
        ["How long have you had this cough?";
         "Is it getting worse or staying the same?"])]);
   ("INFECTION",
     [("systemic",
        ["Do you have a high fever or chills along with the breathing issues?";
         "Do you feel generally weak or achy?"]);
      ("pain",
        ["Does it hurt your chest when you take a deep breath (sharp stabbing pain)?";
         "Do your ribs hurt from coughing?"]);
      ("history",
        ["Have you been around anyone sick recently?";
         "Have you had a cold or flu that moved into your chest?"])]);
   ("GENERAL",
     [("symptoms",
        ["Do you have a runny or blocked nose?";
         "Are your eyes itchy or watery?"]);
      ("triggers",
        ["Do you notice these symptoms more around pets, dust, or pollen?";
         "Does the weather change make it worse?"]);
      ("congestion",
        ["Does your chest feel 'full' or congested?";
         "Are you having trouble clearing your throat?"])]);
   ("DEFAULT",
     [("assessment",
        ["Can you describe exactly what you are feeling in your chest?";
         "How long has this been bothering you?";
         "Does anything make it better (like sitting up) or worse (like lying down)?";
         "Have you ever had lung problems before?"])])].

(* api.py, line 438 *)
Definition ORTHO_KEYWORDS : pydict (list string) :=
  [("SPINE_BACK",
     ["back"; "spine"; "neck"; "lumbar"; "disc"; "sciatica"; "tailbone";
      "vertebrae"; "stiff neck"]);
   ("JOINTS",
     ["knee"; "hip"; "shoulder"; "elbow"; "joint"; "arthritis"; "socket";
      "rotator cuff"; "meniscus"]);
   ("EXTREMITIES",
     ["hand"; "wrist"; "finger"; "thumb"; "foot"; "ankle"; "toe"; "heel";
      "plantar"; "carpal"]);
   ("TRAUMA",
     ["break"; "broken"; "fracture"; "fall"; "fell"; "twist"; "sprain";
      "accident"; "hit"; "crash"; "pop"; "snap"]);
   ("GENERAL",
     ["muscle"; "ache"; "sore"; "stiffness"; "swelling"; "swell"; "bruise";
      "cramp"; "knot"])].

(* api.py, line 462: [SPECIALIST_QUESTIONS["ORTHOPEDIC"] = {...}] *)
Definition QUESTIONS_ORTHOPEDIC : pydict (pydict (list string)) :=
  [("SPINE_BACK",
     [("radiation",
        ["Does the pain shoot down your legs or arms?";
         "Do you feel any electric shock sensations traveling away from your back?"]);
      ("numbness",
        ["Do you have any numbness, especially in your groin or buttocks area?";
         "Are you having any trouble controlling your bladder or bowels?"]);
      ("triggers",
        ["Does it hurt more when you bend forward or lift things?";
         "Is the pain worse in the morning when you wake up?"])]);
   ("JOINTS",
     [("stiffness",
        ["Is the joint stiff in the morning? If so, how long does it take to loosen up?";
         "Does the joint feel 'locked' or stuck?"]);
      ("swelling",
        ["Is the area swollen, red, or hot to the touch?";
         "Can you see fluid buildup around the joint?"]);
      ("sounds",
        ["Do you hear a clicking, grinding, or popping sound when you move it?";
         "Does it feel like 'bone on bone'?"])]);
   ("TRAUMA",
     [("mechanism",
        ["How exactly did the injury happen (e.g., fell on outstretched hand, twisted knee)?";
         "Did you hear a loud 'pop' or 'snap' when it happened?"]);
      ("deformity",
        ["Does the limb look bent, crooked, or misshapen?";
         "Is there any bone sticking out or a deep open wound?"]);
      ("function",
        ["Can you put weight on it or move it at all?";
         "Are you able to walk, or is it too painful?"])]);
   ("EXTREMITIES",
     [("usage",
        ["Does the pain get worse with specific activities like typing or walking?";
         "Is the pain worse when you take your first steps in the morning?"]);
      ("sensation",
        ["Do you feel pins and needles or numbness in your fingers or toes?";
         "Does it feel like you are walking on a pebble?"])]);
   ("GENERAL",
     [("location",
        ["Where exactly is the pain located?";
         "Is it deep in the bone or more in the muscle?"]);
      ("impact",
        ["Is this stopping you from working or exercising?";
         "Does the pain wake you up at night?"])]);
   ("DEFAULT",
     [("assessment",
        ["How long have you had this pain?";
         "On a scale of 1-10, how severe is it?";
         "Did you do any heavy lifting or exercise recently?"])])].

(* api.py, line 542 *)
Definition DERMA_KEYWORDS : pydict (list string) :=
  [("RASH_ALLERGY",
     ["rash"; "hives"; "eczema"; "redness"; "bump"; "blister"; "spot";
      "pimple"; "acne"; "breakout"; "psoriasis"]);
   ("TRAUMA_BURN",
     ["cut"; "burn"; "bleed"; "wound"; "scrape"; "scald"; "fire"; "knife";
      "injury"; "tear"; "laceration"; "hot"]);
   ("BITES",
     ["bite"; "sting"; "spider"; "bug"; "mosquito"; "tick"; "bee"; "wasp";
      "insect"]);
   ("GENERAL",
     ["itch"; "dry"; "peel"; "flake"; "skin"; "scab"; "mole"; "lump"; "growth"])].

(* api.py, line 562: [SPECIALIST_QUESTIONS["DERMATOLOGICAL"] = {...}] *)
Definition QUESTIONS_DERMATOLOGICAL : pydict (pydict (list string)) :=
  [("RASH_ALLERGY",
     [("spread",
        ["Is the rash spreading to other parts of your body?";
         "Is it staying in one spot or moving?"]);
      ("triggers",
        ["Did you use any new soaps, lotions, or detergents recently?";
         "Have you eaten anything new or been out in the woods?"]);
      ("sensation",
        ["Does the rash burn, itch, or feel hot to the touch?"])]);
   ("TRAUMA_BURN",
     [("depth",
        ["How deep is the wound? Can you see fatty tissue or bone?";
         "For a burn, did the skin blister or turn white/black?"]);
      ("bleeding",
        ["Is it bleeding heavily? Does it stop if you press on it?";
         "Is there any pulsing blood?"]);
      ("infection_signs",
        ["Do you see any yellow pus or red streaks coming from the wound?";
         "Is the area swollen and painful?"])]);
   ("BITES",
     [("appearance",
        ["What does the bite look like? (e.g., Bullseye pattern, two puncture marks)";
         "Is the area around the bite turning black or purple?"]);
      ("systemic",
        ["Are you having any trouble breathing or swallowing?";
         "Do you feel dizzy or nauseous?"])]);
   ("GENERAL",
     [("duration",
        ["How long have you had this skin issue?";
         "Has it changed in size or color recently?"]);
      ("location",
        ["Where exactly on your body is the problem?";
         "Is it all over or just in one specific area?"])]);
   ("DEFAULT",
     [("assessment",
        ["Can you describe what the skin looks like right now?";
         "Is it causing you pain or just discomfort?";
         "Have you applied any creams or medications to it?"])])].

(* api.py, line 626 *)
Definition GENERAL_KEYWORDS : pydict (list string) :=
  [("SUMMER_HYDRATION",
     ["sun"; "heat"; "hot"; "sweat"; "dry"; "thirsty"; "water"; "urine";
      "pee"; "burn"; "faint"; "dizzy"; "dehydrated"]);
   ("MONSOON_VECTOR",
     ["mosquito"; "bite"; "shiver"; "chill"; "cold"; "shake"; "bone pain";
      "joint pain"; "eye pain"; "dengue"; "malaria"]);
   ("WINTER_VIRAL",
     ["flu"; "cold"; "sneeze"; "runny"; "nose"; "ache"; "body pain";
      "sore throat"; "cough"; "congestion"; "viral"]);
   ("CHRONIC_METABOLIC",
     ["tired"; "fatigue"; "weak"; "weight"; "loss"; "gain"; "hair"; "hungry";
      "thirst"; "sugar"; "thyroid"; "pale"; "sleep"]);
   ("FLU_SYMPTOMS",
     ["fever"; "chill"; "shiver"; "temperature"; "high temp"; "sweat"; "hot";
      "cold"; "body ache"; "muscle ache"; "sore body"; "weak"; "flu"; "viral"]);
   ("FATIGUE",
     ["tired"; "fatigue"; "exhausted"; "low energy"; "sleepy"; "draining";
      "lethargic"; "no energy"; "worn out"]);
   ("WEIGHT_APPETITE",
     ["weight loss"; "weight gain"; "lost weight"; "thin"; "heavy";
      "no appetite"; "hungry"; "not eating"; "eating too much"])].

(* api.py, line 658: [SPECIALIST_QUESTIONS["GENERAL_SYSTEMIC"] = {...}] *)
Definition QUESTIONS_GENERAL_SYSTEMIC : pydict (pydict (list string)) :=
  [("SUMMER_HYDRATION",
     [("intake",
        ["How much water have you been drinking today?";
         "Have you been out in the sun or working in the heat recently?"]);
      ("urine_output",
        ["is your urine dark yellow or does it burn when you pee?";
         "When was the last time you urinated?"]);
      ("mental_state",
        ["Do you feel confused or like you might pass out?";
         "Has the sweating stopped completely (dry skin)?"])]);
   ("MONSOON_VECTOR",
     [("fever_pattern",
        ["Does the fever come and go (like every other day), or is it constant?";
         "Do you have severe shivering (rigors) before the fever spikes?"]);
      ("pain_specifics",
        ["Do you have severe pain behind your eyes?";
         "Does it feel like your bones are breaking (severe body ache)?"]);
      ("bleeding_check",
        ["Have you noticed any bleeding from your gums or nose?";
         "Do you see any tiny red spots (rashes) on your skin?"])]);
   ("WINTER_VIRAL",
     [("respiratory_check",
        ["Do you have a runny nose or sore throat?";
         "Is there a cough accompanying the body aches?"]);
      ("severity",
        ["Do you feel like you've been 'hit by a truck' (sudden extreme fatigue)?";
         "Is the fever mild or very high?"])]);
   ("CHRONIC_METABOLIC",
     [("weight_energy",
        ["Have you noticed any unexplained weight loss or weight gain?";
         "Do you feel tired even after a full night's sleep?"]);
      ("classic_signs",
        ["Are you feeling thirsty or hungry all the time?";
         "Are you experiencing hair loss or dry skin?"]);
      ("timeline",
        ["How long have you been feeling this 'general' weakness?";
         "Has anyone in your family had thyroid or sugar issues?"])]);
   ("FLU_SYMPTOMS",
     [("temperature",
        ["Have you measured your temperature? If so, how high is it?";
         "Do you feel hot or feverish to the touch?"]);
      ("duration",
        ["How many days have you been feeling this way?";
         "Did these symptoms start suddenly or gradually?"]);
      ("other_symptoms",
        ["Do you have a cough, sore throat, or runny nose?";
         "Are you experiencing any other specific pains besides body aches?"])]);
   ("FATIGUE",
     [("sleep",
        ["How have you been sleeping lately? Is it restful?";
         "Are you sleeping more than usual?"]);
      ("impact",
        ["Is the tiredness affecting your daily work or activities?";
         "Do you feel tired even after waking up?"]);
      ("duration",
        ["How long have you been feeling this low energy?";
         "Has this been going on for weeks or just a few days?"])]);
   ("WEIGHT_APPETITE",
     [("amount",
        ["Have you noticed a significant change in your weight recently?";
         "Are you eating more or less than usual?"]);
      ("timeline",
        ["Over what period of time has this change happened?";
         "Did this change happen quickly?"])]);
   ("DEFAULT",
     [("assessment",
        ["Can you tell me your main symptom right now?";
         "Do you have a fever? If so, how high is it?";
         "Are you eating and drinking normally?"])])].

(** The value of [SPECIALIST_QUESTIONS] once the module is loaded: the
    binding of line 246 with the item assignments of lines 364, 462, 562 and
    658 applied in order. *)
Definition SPECIALIST_QUESTIONS : question_bank :=
  dict_set "GENERAL_SYSTEMIC" QUESTIONS_GENERAL_SYSTEMIC
    (dict_set "DERMATOLOGICAL" QUESTIONS_DERMATOLOGICAL
       (dict_set "ORTHOPEDIC" QUESTIONS_ORTHOPEDIC
          (dict_set "RESPIRATORY" QUESTIONS_RESPIRATORY SPECIALIST_QUESTIONS_2))).

End Config.

Import Config.

(** ** The sub-group router *)

Definition keyword_table (category : string) : pydict (list string) :=
  if String.eqb category "GASTROINTESTINAL" then GASTRO_KEYWORDS
  else if String.eqb category "NEUROLOGICAL" then NEURO_KEYWORDS
  else if String.eqb category "RESPIRATORY" then RESPIRATORY_KEYWORDS
  else if String.eqb category "ORTHOPEDIC" then ORTHO_KEYWORDS
  else if String.eqb category "DERMATOLOGICAL" then DERMA_KEYWORDS
  else if String.eqb category "GENERAL_SYSTEMIC" then GENERAL_KEYWORDS
  else [].

(** The loop over [target_dict.items()]: the first sub-group one of whose
    keywords occurs in the text. *)
Fixpoint first_subgroup (text : string) (items : pydict (list string)) : string :=
  match items with
  | [] => "DEFAULT"
  | (sub_group, keywords) :: rest =>
      if Py.any_in keywords text then sub_group else first_subgroup text rest
  end.

(** [get_best_subgroup(text, category)] *)
Definition get_best_subgroup (text category : string) : string :=
  let text := Py.lower text in
  let target_dict := keyword_table category in
  match target_dict with
  | [] => "DEFAULT"
  | _ => first_subgroup text target_dict
  end.

(** ** The dialogue engine: [get_next_question] *)

(** [SEVERITY_PATTERN] (line 23) *)
Definition SEVERITY_PATTERN : regex :=
  ("mild" |:| "moderate" |:| "severe" |:| "sharp" |:| "dull" |:| "excruciating" |:| "bad")
  |:| (digits1 ;: spaces0 ;: "/" ;: spaces0 ;: "10")
  |:| (("level" |:| "score" |:| "pain") ;: spaces1 ;: digits1).

(** [r"(\d+|one|two|three|few|several)\s*(day|week|month|hour|min)"] *)
Definition duration_re : regex :=
  (digits1 |:| "one" |:| "two" |:| "three" |:| "few" |:| "several")
  ;: spaces0 ;: ("day" |:| "week" |:| "month" |:| "hour" |:| "min").

(** [r"\b(no|nah|not|nope)\b"] and [r"\b(yes|yeah|yep|sure)\b"] *)
Definition no_re : regex := WordB ;: ("no" |:| "nah" |:| "not" |:| "nope") ;: WordB.
Definition yes_re : regex := WordB ;: ("yes" |:| "yeah" |:| "yep" |:| "sure") ;: WordB.

(** The yes/no handler (lines 839-865). *)
Definition resolve_context (last_asked_slot : option string)
    (user_text text_lower : string) (current_clipboard : clipboard) : clipboard :=
  match last_asked_slot with
  | Some slot =>
      if Py.truthy last_asked_slot then
        if found no_re text_lower then
          if String.eqb slot "severity" then
            dict_set "severity" "mild symptoms" current_clipboard
          else if String.eqb slot "triggers" then
            dict_set "triggers" "no known triggers" current_clipboard
          else if String.eqb slot "sensation" then
            dict_set "sensation" "no pain or burning" current_clipboard
          else if String.eqb slot "spread" then
            dict_set "spread" "no spread" current_clipboard
          else dict_set slot user_text current_clipboard
        else if found yes_re text_lower then
          dict_set slot user_text current_clipboard
        else current_clipboard
      else current_clipboard
  | None => current_clipboard
  end.

(** Duration and severity (lines 867-881): the matched text is stored as it
    is, without a negation test. *)
Definition capture (pattern : regex) (slot text_lower : string)
    (current_clipboard : clipboard) : clipboard :=
  match search pattern text_lower with
  | Some m => dict_set slot (group0 m) current_clipboard
  | None => current_clipboard
  end.

(** One block of a category's cascade.  Every block of lines 887-1256 has
    the shape
<<
    match = re.search(PATTERN, text_lower)
    if match:
        is_negated = check_negation(text_lower, match.start())
        prefix = "no " if is_negated else ""
        current_clipboard[SLOT] = prefix + match.group(0)
        if GUARD and not is_negated:
            current_clipboard["URGENCY_OVERRIDE"] = LEVEL
>>
    where the last two lines are present in the red-flag blocks only, and
    GUARD is a second [re.search] over [text_lower], the test
    ["bleed" in text_lower], or absent.  A block is recorded as its pattern,
    its slot and, for a red-flag block, its guard and level; the tables
    below list the blocks of each branch in source order. *)
Record rule : Type := Rule {
  pattern : regex;
  slot : string;
  flag : option ((string -> bool) * string)
}.

Definition fill (pattern : regex) (slot : string) : rule :=
  Rule pattern slot None.

Definition fill_flag (pattern : regex) (slot : string)
    (guard : string -> bool) (level : string) : rule :=
  Rule pattern slot (Some (guard, level)).

(** A red flag with no test besides [not is_negated]. *)
Definition always (text_lower : string) : bool := true.

Definition apply_rule (text_lower : string) (current_clipboard : clipboard)
    (r : rule) : clipboard :=
  match search (pattern r) text_lower with
  | Some m =>
      let is_negated := check_negation text_lower (start m) in
      let prefix := if is_negated then "no " else "" in
      let cb := dict_set (slot r) (prefix +:+ group0 m) current_clipboard in
      match flag r with
      | Some (guard, level) =>
          if guard text_lower && negb is_negated
          then dict_set "URGENCY_OVERRIDE" level cb
          else cb
      | None => cb
      end
  | None => current_clipboard
  end.

(** [GASTROINTESTINAL LOGIC] (lines 887-929) *)
Definition GASTROINTESTINAL_rules : list rule :=
  [ fill ("vomit" |:| "nausea" |:| "puke" |:| "throw up" |:| "queasy" |:| "dry heave") "vomiting";
    fill ("diarrhea" |:| "constipation" |:| "poop" |:| "stool" |:| "loose" |:| "runny") "bowel";
    fill ("bloat" |:| "gas" |:| "fart" |:| "fullness" |:| "air" |:| "burp") "bloating";
    fill ("ate" |:| "food" |:| "meal" |:| "restaurant" |:| "spicy" |:| "oily" |:| "sushi" |:| "chicken") "triggers";
    fill_flag ("blood" |:| "red" |:| "black" |:| "tar" |:| "dark stool" |:| "coffee") "stool_color"
      always "CRITICAL";
    fill ("water" |:| "drink" |:| "thirsty" |:| "dry mouth" |:| "pee" |:| "urine") "hydration" ].

(** [RESPIRATORY LOGIC] (lines 932-985) *)
Definition RESPIRATORY_rules : list rule :=
  [ fill ("sudden" |:| "slow" |:| "gradual" |:| "rest" |:| "walk" |:| "run" |:| "exercise" |:| "exert") "onset";
    fill ("wheeze" |:| "whistle" |:| "gasp" |:| "squeak" |:| "noisy" |:| "stridor") "sounds";
    fill ("dry" |:| "wet" |:| "hack" |:| "tickle" |:| "productive" |:| "bark") "type";
    fill_flag ("mucus" |:| "phlegm" |:| "sputum" |:| "spit" |:| "green" |:| "yellow" |:| "clear" |:| "blood" |:| "red" |:| "pink") "sputum"
      (found ("blood" |:| "red" |:| "pink")) "CRITICAL";
    fill ("fever" |:| "hot" |:| "temp" |:| "chill" |:| "shiver" |:| "sweat" |:| "ache" |:| "weak") "systemic";
    fill ("hurt" |:| "pain" |:| "stab" |:| "sharp" |:| "rib" |:| "burn") "pain";
    fill ("dust" |:| "pollen" |:| "cat" |:| "dog" |:| "pet" |:| "smoke" |:| "weather" |:| "season") "triggers";
    fill ("stuff" |:| "block" |:| "full" |:| "clog" |:| "drip") "congestion" ].

(** [NEUROLOGICAL LOGIC] (lines 988-1063) *)
Definition NEUROLOGICAL_rules : list rule :=
  [ fill ("front" |:| "back" |:| "side" |:| "temple" |:| "forehead" |:| "skull" |:| "left" |:| "right" |:| "spot" |:| "all over") "location";
    fill ("nausea" |:| "sick" |:| "vomit" |:| "puke" |:| "light" |:| "bright" |:| "sound" |:| "noise" |:| "loud" |:| "eye hurt") "associated_symptoms";
    fill ("spin" |:| "room" |:| "round" |:| "lightheaded" |:| "woozy" |:| "faint" |:| "unsteady" |:| "balance" |:| "fall") "sensation";
    fill ("stand" |:| "up" |:| "rise" |:| "bed" |:| "roll" |:| "turn" |:| "move head" |:| "lying") "triggers";
    fill ("ring" |:| "buzz" |:| "ear" |:| "full" |:| "pop" |:| "muffle" |:| "hear" |:| "tinnitus") "ears";
    fill ("blur" |:| "double" |:| "blind" |:| "curtain" |:| "dark" |:| "see" |:| "focus" |:| "fog") "clarity";
    fill ("flash" |:| "spot" |:| "zig" |:| "zag" |:| "line" |:| "star" |:| "halo" |:| "spark") "disturbances";
    fill ("sudden" |:| "instant" |:| "gradual" |:| "slow" |:| "woke up") "onset";
    fill ("black" |:| "faint" |:| "pass out" |:| "floor" |:| "wake" |:| "remember" |:| "conscious") "event";
    fill ("aura" |:| "smell" |:| "sweat" |:| "hot" |:| "nausea" |:| "dizzy before") "warning";
    fill ("confuse" |:| "tired" |:| "sleepy" |:| "bite" |:| "tongue" |:| "wet" |:| "urine" |:| "sore") "aftermath";
    fill ("numb" |:| "tingle" |:| "weak" |:| "pin" |:| "needle" |:| "feel" |:| "arm" |:| "leg" |:| "face" |:| "droop") "weakness";
    fill ("speak" |:| "slur" |:| "word" |:| "talk" |:| "understand" |:| "confuse" |:| "memory" |:| "disorient") "cognition";
    fill ("stroke" |:| "seizure" |:| "epilepsy" |:| "medication" |:| "drug" |:| "history" |:| "before") "history" ].

(** [ORTHOPEDIC LOGIC] (lines 1066-1116) *)
Definition ORTHOPEDIC_rules : list rule :=
  [ fill ("shoot" |:| "leg" |:| "arm" |:| "travel" |:| "down" |:| "radiate" |:| "electric" |:| "shock") "radiation";
    fill ("numb" |:| "groin" |:| "butt" |:| "bladder" |:| "bowel" |:| "toilet" |:| "control") "numbness";
    fill ("lock" |:| "stuck" |:| "click" |:| "grind" |:| "pop" |:| "noise" |:| "crunch") "sounds";
    fill ("swell" |:| "swollen" |:| "puff" |:| "red" |:| "hot" |:| "warm" |:| "fluid" |:| "balloon") "swelling";
    fill ("fall" |:| "fell" |:| "trip" |:| "hit" |:| "twist" |:| "land" |:| "crush" |:| "accident") "mechanism";
    fill ("walk" |:| "stand" |:| "weight" |:| "move" |:| "step" |:| "lift") "function";
    fill_flag ("bent" |:| "crooked" |:| "shape" |:| "bone" |:| "sticking" |:| "out" |:| "deformed" |:| "angle") "deformity"
      (found ("bone sticking" |:| "bone out" |:| "white" |:| "open wound")) "CRITICAL";
    fill ("type" |:| "computer" |:| "morning" |:| "first step" |:| "walk" |:| "run" |:| "shoe") "usage" ].

(** The three red-flag blocks of the DERMATOLOGICAL branch: bleeding checks
    (lines 1147-1156), infection signs (lines 1159-1168) and the systemic
    reaction after a bite (lines 1172-1181). *)
Definition derma_bleeding : rule :=
  fill_flag ("blood" |:| "bleed" |:| "gush" |:| "soak" |:| "pulsing" |:| "stop") "bleeding"
    (found ("gush" |:| "won't stop" |:| "pulsing" |:| "heavy")) "CRITICAL".

Definition derma_infection_signs : rule :=
  fill_flag ("pus" |:| "yellow" |:| "ooze" |:| "streak" |:| "line" |:| "hot" |:| "smell") "infection_signs"
    (found ("streak" |:| "line")) "HIGH".

Definition derma_systemic : rule :=
  fill_flag ("breath" |:| "throat" |:| "swallow" |:| "dizzy" |:| "faint" |:| "tongue" |:| "swell") "systemic"
    always "CRITICAL".

(** [DERMATOLOGICAL LOGIC] (lines 1119-1187) *)
Definition DERMATOLOGICAL_rules : list rule :=
  [ fill ("soap" |:| "lotion" |:| "food" |:| "plant" |:| "woods" |:| "detergent") "triggers";
    fill ("itch" |:| "burn" |:| "sting" |:| "pain" |:| "hot" |:| "fire") "sensation";
    fill ("spread" |:| "move" |:| "growing" |:| "bigger" |:| "body" |:| "all over") "spread";
    fill ("deep" |:| "bone" |:| "fat" |:| "white" |:| "charred" |:| "blister" |:| "open") "depth";
    derma_bleeding;
    derma_infection_signs;
    derma_systemic;
    fill ("face" |:| "arm" |:| "leg" |:| "back" |:| "hand" |:| "foot" |:| "stomach") "location" ].

(** [GENERAL_SYSTEMIC LOGIC], standard slot filling (lines 1190-1256) *)
Definition GENERAL_SYSTEMIC_rules : list rule :=
  [ fill ("sun" |:| "heat" |:| "work" |:| "outside" |:| "sweat" |:| "hot" |:| "dry" |:| "faint" |:| "dizzy") "intake";
    fill_flag ("urine" |:| "pee" |:| "bathroom" |:| "burn" |:| "yellow" |:| "dark") "urine_output"
      (found ("stopped sweating" |:| "no sweat" |:| "dry skin" |:| "confused")) "CRITICAL";
    fill ("fever" |:| "temperature" |:| "sick" |:| "ill" |:| "unwell" |:| "symptom") "assessment";
    fill ("shiver" |:| "chill" |:| "shake" |:| "cold" |:| "night") "fever_pattern";
    fill ("eye" |:| "bone" |:| "joint" |:| "break" |:| "muscle") "pain_specifics";
    fill_flag ("bleed" |:| "gum" |:| "nose" |:| "spot" |:| "rash" |:| "red") "bleeding_check"
      (Py.contains "bleed") "HIGH";
    fill ("nose" |:| "throat" |:| "sneeze" |:| "cough" |:| "chest" |:| "congestion") "respiratory_check";
    fill ("weight" |:| "thin" |:| "fat" |:| "loss" |:| "gain" |:| "sleep" |:| "tired") "weight_energy";
    fill ("thirsty" |:| "hungry" |:| "eat" |:| "drink" |:| "hair" |:| "skin") "classic_signs";
    fill ("family" |:| "mom" |:| "dad" |:| "genetic" |:| "sugar" |:| "thyroid") "timeline" ].

(** The [if category == ... elif ...] chain of lines 887-1190. *)
Definition category_rules (category : string) : list rule :=
  if String.eqb category "GASTROINTESTINAL" then GASTROINTESTINAL_rules
  else if String.eqb category "RESPIRATORY" then RESPIRATORY_rules
  else if String.eqb category "NEUROLOGICAL" then NEUROLOGICAL_rules
  else if String.eqb category "ORTHOPEDIC" then ORTHOPEDIC_rules
  else if String.eqb category "DERMATOLOGICAL" then DERMATOLOGICAL_rules
  else if String.eqb category "GENERAL_SYSTEMIC" then GENERAL_SYSTEMIC_rules
  else [].

(** The redirect checks at the end of the GENERAL_SYSTEMIC branch (lines
    1259-1277), in the order they are tried. *)
Definition redirect_checks : list (regex * string) :=
  [ ("stomach" |:| "vomit" |:| "puke" |:| "diarrhea" |:| "nausea" |:| "poop", "GASTROINTESTINAL");
    ("wheeze" |:| "short of breath" |:| "asthma" |:| "lung", "RESPIRATORY");
    ("seizure" |:| "blind" |:| "vision" |:| "double" |:| "slur", "NEUROLOGICAL");
    ("rash" |:| "hives" |:| "itch" |:| "skin" |:| "bump", "DERMATOLOGICAL") ].

Fixpoint first_redirect (checks : list (regex * string)) (text_lower : string)
    : option string :=
  match checks with
  | [] => None
  | (r, target) :: rest =>
      if found r text_lower then Some target else first_redirect rest text_lower
  end.

Definition detect_redirect (category text_lower : string) : option string :=
  if String.eqb category "GENERAL_SYSTEMIC"
  then first_redirect redirect_checks text_lower
  else None.

(** The part of [get_next_question] that updates the clipboard (lines
    833-1277), without the redirect stamp. *)
Definition fill_slots (category user_text : string)
    (current_clipboard : clipboard) (last_asked_slot : option string) : clipboard :=
  let text_lower := Py.lower user_text in
  let cb := resolve_context last_asked_slot user_text text_lower current_clipboard in
  let cb := capture duration_re "duration" text_lower cb in
  let cb := capture SEVERITY_PATTERN "severity" text_lower cb in
  fold_left (apply_rule text_lower) (category_rules category) cb.

(** [random.choice] over a stream of draws; an exhausted stream keeps
    drawing 0.  Every question list of the bank is non-empty, so the default
    of [nth] is never returned for it. *)
Definition rng : Type := list nat.

Definition random_choice (l : list string) (g : rng) : string * rng :=
  match g with
  | n :: g' => (nth (n mod length l) l "", g')
  | [] => (nth 0 l "", [])
  end.

(** The loop over [required_slots.items()] (lines 1283-1287): the first slot
    with no clipboard value. *)
Fixpoint first_missing (required_slots : pydict (list string))
    (current_clipboard : clipboard) : option (string * list string) :=
  match required_slots with
  | [] => None
  | (slot, question_list) :: rest =>
      match dict_get slot current_clipboard with
      | None => Some (slot, question_list)
      | Some _ => first_missing rest current_clipboard
      end
  end.

(** Question selection (lines 1280-1289) over a given bank. *)
Definition pick_next_question (bank : question_bank) (category sub_group : string)
    (current_clipboard : clipboard) (g : rng)
    : (option string * option string) * rng :=
  let required_slots :=
    default [] (dict_get sub_group (default [] (dict_get category bank))) in
  match first_missing required_slots current_clipboard with
  | Some (slot, question_list) =>
      let (q, g') := random_choice question_list g in
      ((Some q, Some slot), g')
  | None => ((None, None), g)
  end.

(** [get_next_question(category, sub_group, user_text, current_clipboard,
    last_asked_slot)]: the pair it returns, the clipboard as it leaves it and
    the rest of the random stream. *)
Definition get_next_question (category sub_group user_text : string)
    (current_clipboard : clipboard) (last_asked_slot : option string) (g : rng)
    : (option string * option string) * clipboard * rng :=
  let cb := fill_slots category user_text current_clipboard last_asked_slot in
  match detect_redirect category (Py.lower user_text) with
  | Some target =>
      ((None, Some "redirect"), dict_set "category_redirect" target cb, g)
  | None =>
      let (res, g') := pick_next_question SPECIALIST_QUESTIONS category sub_group cb g in
      (res, cb, g')
  end.

(** The clipboard and the returned pair of a call of [get_next_question]. *)
Definition gnq_clipboard (r : (option string * option string) * clipboard * rng)
    : clipboard := r.1.2.

Definition gnq_result (r : (option string * option string) * clipboard * rng)
    : option string * option string := r.1.1.

(** The call returned [None, "redirect"]. *)
Definition redirected (r : (option string * option string) * clipboard * rng) : bool :=
  bool_decide (gnq_result r = (None, Some "redirect")).

(** ** The report: [generate_summary] *)

(** [clipboard.get(k, fallback)] *)
Definition get_or (k fallback : string) (cb : clipboard) : string :=
  default fallback (dict_get k cb).

(** [clipboard[k]] for a key known to be present. *)
Definition item (k : string) (cb : clipboard) : string := get_or k "" cb.

Definition cat (pieces : list string) : string := String.concat "" pieces.

(** [summary += piece(clipboard[k])] under [if k in clipboard]. *)
Definition add_if_present (k before after : string) (cb : clipboard)
    (summary : string) : string :=
  if dict_mem k cb then cat [summary; before; item k cb; after] else summary.

Definition upper_char (c : ascii) : ascii :=
  if Py.between 97 122 c || Py.between 224 246 c || Py.between 248 254 c
  then ascii_of_N (Py.code c - 32) else c.

(** [k.replace("_", " ")] *)
Fixpoint underscores_to_spaces (s : string) : string :=
  match s with
  | EmptyString => EmptyString
  | String c s' =>
      String (if Ascii.eqb c "_" then " "%char else c) (underscores_to_spaces s')
  end.

(** [s.capitalize()]: the first character in title case, the rest in lower
    case.  The title case of U+00DF is the two letters Ss; that of U+00B5
    and of U+00FF lies outside U+0000..U+00FF, and for these two the
    character is left as it is. *)
Definition capitalize (s : string) : string :=
  match s with
  | EmptyString => EmptyString
  | String c s' =>
      if (Py.code c =? 223)%N then String "S" (String "s" (Py.lower s'))
      else String (upper_char c) (Py.lower s')
  end.

Definition metadata_keys : list string :=
  ["duration"; "severity"; "category_redirect"; "URGENCY_OVERRIDE"].

(** The list comprehension of the fallback template (lines 1385-1389). *)
Fixpoint symptoms_list (items : clipboard) : list string :=
  match items with
  | [] => []
  | (k, v) :: rest =>
      if existsb (String.eqb k) metadata_keys then symptoms_list rest
      else (if String.eqb v "Filled" then capitalize (underscores_to_spaces k) else v)
           :: symptoms_list rest
  end.

Definition join_or (sep fallback : string) (l : list string) : string :=
  match l with
  | [] => fallback
  | _ => String.concat sep l
  end.

(** [generate_summary(clipboard, final_category)] *)
Definition generate_summary (clipboard : clipboard) (final_category : string) : string :=
  let duration := get_or "duration" "unknown duration" clipboard in
  let severity := get_or "severity" "undetermined severity" clipboard in
  if String.eqb final_category "ORTHOPEDIC" then
    let location := get_or "location" "an extremity" clipboard in
    let mechanism := get_or "mechanism" "an injury" clipboard in
    let summary :=
      cat ["Patient presents with "; location; " injury following "; mechanism;
           ", reporting "; severity; " pain."] in
    let summary := add_if_present "deformity" " Noting " "." clipboard summary in
    add_if_present "function" " Functionality is " "." clipboard summary
  else if String.eqb final_category "GASTROINTESTINAL" then
    let symptoms :=
      omap (fun k => dict_get k clipboard)
           ["vomiting"; "bowel"; "bloating"; "stool_color"] in
    let clean_symptoms := filter (fun s => s <> "Filled") symptoms in
    let symptoms_text := join_or ", " "GI symptoms" clean_symptoms in
    let triggers := get_or "triggers" "unknown causes" clipboard in
    cat ["Patient reports "; symptoms_text; " triggered by "; triggers;
         ", persisting for "; duration; " with "; severity; "."]
  else if String.eqb final_category "RESPIRATORY" then
    let onset := get_or "onset" "onset" clipboard in
    let cough_type := get_or "type" "cough" clipboard in
    let sputum := get_or "sputum" "no sputum" clipboard in
    let summary :=
      cat ["Patient presents with "; onset;
           " respiratory symptoms, characterized by "; cough_type; "."] in
    let summary :=
      add_if_present "sounds" " Breath sounds described as " "." clipboard summary in
    if dict_mem "sputum" clipboard && negb (String.eqb (item "sputum" clipboard) "Filled")
    then cat [summary; " Sputum is "; sputum; "."]
    else summary
  else if String.eqb final_category "NEUROLOGICAL" then
    let location := get_or "location" "head/body" clipboard in
    let sensation := get_or "sensation" "neurological sensation" clipboard in
    let summary :=
      cat ["Patient reports "; sensation; " involving "; location; " for ";
           duration; "."] in
    let summary :=
      add_if_present "associated_symptoms" " Associated with " "." clipboard summary in
    add_if_present "event" " Reports consciousness event: " "." clipboard summary
  else if String.eqb final_category "DERMATOLOGICAL" then
    let location := get_or "location" "skin" clipboard in
    let triggers := get_or "triggers" "unknown triggers" clipboard in
    let summary :=
      if String.eqb triggers "no known triggers" then
        cat ["Patient presents with cutaneous symptoms on "; location;
             ". No triggers reported."]
      else
        cat ["Patient presents with cutaneous symptoms on "; location;
             " triggered by "; triggers; "."] in
    let summary :=
      add_if_present "sensation" " Reports sensation of " "." clipboard summary in
    let summary := add_if_present "spread" " Noting spread: " "." clipboard summary in
    add_if_present "infection_signs" " Possible infection signs: " "." clipboard summary
  else
    let symptoms_text := join_or ", " "general symptoms" (symptoms_list clipboard) in
    cat ["Patient reports "; symptoms_text; " for "; duration; " with "; severity; "."].

(** ** The request handler: [predict_disease] *)

(** One entry of [active_sessions]. *)
Record session : Type := Session {
  sess_clipboard : clipboard;
  sess_subgroup : string;
  sess_last_slot : option string;
  sess_category : string;
  sess_status : string
}.

(** What the record store answers to the lock query of lines 1439-1443. *)
Inductive lock_query : Type :=
| QueryFails (detail : string)
| NoOpenCase
| OpenCase (case_id : Z) (status : string).

(** How the UPDATE of a NEEDS_INFO case ends (lines 1492-1504): it is
    executed and committed; or [execute] raises, and nothing is pending; or
    [commit] raises, and the statement stays pending on the connection.
    The bare [except] swallows either exception. *)
Inductive update_result : Type :=
| UpdateCommitted
| UpdateExecuteRaises
| UpdateCommitRaises.

(** The record store as a request sees it: the answer to the lock query, how
    the UPDATE (line 1494) ends, and whether the INSERT and its commit
    (lines 1578-1582) go through ([Some detail] is the exception raised).
    [conn.close()] is taken not to raise. *)
Record store : Type := Store {
  existing_case : lock_query;
  update : update_result;
  insert_error : option string
}.

Definition update_ok (db : store) : bool :=
  match update db with
  | UpdateCommitted => true
  | _ => false
  end.

(** The statements a request commits. *)
Inductive db_write : Type :=
| UpdateConsultation (case_id : Z) (ai_summary status : string)
| InsertConsultation (user_id : Z)
    (ai_summary predicted_category urgency_score doctor_assigned status : string).

Inductive response : Type :=
| Reply (message : string) (locked : bool)
| ServerError (detail : string).

Record outcome : Type := Outcome {
  out_response : response;
  out_sessions : gmap Z session;
  out_writes : list db_write;
  out_rng : rng
}.

(** The keyword heuristic of lines 1463-1476. *)
Definition classify (text : string) : string :=
  let text_lower := Py.lower text in
  if Py.any_in ["cough"; "breath"; "chest"; "wheeze"; "lung"] text_lower
  then "RESPIRATORY"
  else if Py.any_in ["head"; "dizzy"; "migraine"; "seizure"; "vision"; "faint"] text_lower
  then "NEUROLOGICAL"
  else if Py.any_in ["skin"; "rash"; "itch"; "blister"; "burn"; "hives"] text_lower
  then "DERMATOLOGICAL"
  else if Py.any_in ["bone"; "fracture"; "knee"; "back"; "joint"; "swollen"] text_lower
  then "ORTHOPEDIC"
  else if Py.any_in ["stomach"; "vomit"; "puke"; "diarrhea"; "nausea"; "pain"] text_lower
  then "GASTROINTESTINAL"
  else "GENERAL_SYSTEMIC".

Definition new_session (category : string) : session :=
  Session [] "DEFAULT" None category "ACTIVE".

Definition specialist_map : pydict string :=
  [("GASTROINTESTINAL", "Gastroenterologist");
   ("NEUROLOGICAL", "Neurologist");
   ("RESPIRATORY", "Pulmonologist");
   ("ORTHOPEDIC", "Orthopedist");
   ("DERMATOLOGICAL", "Dermatologist");
   ("GENERAL_SYSTEMIC", "General Physician")].

(** What one turn of the logic engine leaves behind. *)
Record engine_state : Type := Engine {
  eng_category : string;
  eng_subgroup : string;
  eng_clipboard : clipboard;
  eng_next_q : option string;
  eng_slot : option string;
  eng_rng : rng
}.

(** Step A of the logic engine, the mini-router (lines 1517-1523): while the
    sub-group is DEFAULT the router is asked, and when it finds a sub-group
    the utterance is run through [get_next_question] once to pre-fill slots;
    the pair that call returns is dropped. *)
Definition mini_router (text current_category sub_group : string)
    (cb : clipboard) (g : rng) : string * clipboard * rng :=
  if String.eqb sub_group "DEFAULT" then
    let new_subgroup := get_best_subgroup text current_category in
    if negb (String.eqb new_subgroup "DEFAULT") then
      let r := get_next_question current_category new_subgroup text cb None g in
      (new_subgroup, gnq_clipboard r, r.2)
    else (sub_group, cb, g)
  else (sub_group, cb, g).

(** Section 3 of the handler, "RUN LOGIC ENGINE" (lines 1517-1548). *)
Definition run_logic_engine (text : string) (s : session) (g : rng) : engine_state :=
  let current_category := sess_category s in
  let last_slot := sess_last_slot s in
  (* A. Mini-Router *)
  let '(sub_group, clipboard, g) :=
    mini_router text current_category (sess_subgroup s) (sess_clipboard s) g in
  (* B. Get the Next Question *)
  let '((next_q, slot), clipboard, g) :=
    get_next_question current_category sub_group text clipboard last_slot g in
  (* C. Handle Redirects *)
  if bool_decide (slot = Some "redirect") then
    let new_cat := item "category_redirect" clipboard in
    let new_sub := get_best_subgroup text new_cat in
    let '(_, clipboard, g) := get_next_question new_cat new_sub text clipboard None g in
    let '((next_q, slot), clipboard, g) :=
      get_next_question new_cat new_sub "" clipboard None g in
    Engine new_cat new_sub clipboard next_q slot g
  else Engine current_category sub_group clipboard next_q slot g.

(** [existing_case and existing_case['status'] == status] *)
Definition has_status (existing : lock_query) (status : string) : bool :=
  match existing with
  | OpenCase _ st => String.eqb st status
  | _ => false
  end.

Definition case_id_of (existing : lock_query) : Z :=
  match existing with
  | OpenCase case_id _ => case_id
  | _ => 0
  end.

(** What is pending on the connection when the handler goes on after the
    NEEDS_INFO block: the UPDATE, when it was executed and its commit
    raised.  The next commit on the connection commits it; closing the
    connection without a commit discards it. *)
Definition pending_update (db : store) (text : string) : list db_write :=
  if has_status (existing_case db) "NEEDS_INFO" then
    match update db with
    | UpdateCommitRaises =>
        [UpdateConsultation (case_id_of (existing_case db))
                            (cat ["PATIENT REPLIED: "; text]) "PENDING"]
    | _ => []
    end
  else [].

(** Sections 3 and 4 of the handler: run the logic engine on the loaded
    session, then either ask the next question or close the case (lines
    1507-1596).  The session object is updated in place, so the changes of
    the engine stay in [active_sessions] also when the INSERT raises. *)
Definition run_turn (db : store) (user_id : Z) (text : string) (s : session)
    (active_sessions : gmap Z session) (g : rng) : outcome :=
  (* 3. RUN LOGIC ENGINE *)
  let e := run_logic_engine text s g in
  let s' := Session (eng_clipboard e) (eng_subgroup e) (sess_last_slot s)
                    (eng_category e) (sess_status s) in
  (* 4. DECIDE OUTPUT *)
  if Py.truthy (eng_next_q e) then
    let s'' := Session (eng_clipboard e) (eng_subgroup e) (eng_slot e)
                       (eng_category e) (sess_status s) in
    Outcome (Reply (default "" (eng_next_q e)) false)
            (<[user_id := s'']> active_sessions) [] (eng_rng e)
  else
    let summary := generate_summary (eng_clipboard e) (eng_category e) in
    let specialist := get_or (eng_category e) "General Physician" specialist_map in
    match insert_error db with
    | None =>
        Outcome
          (Reply (cat ["Diagnosis Complete. I have sent your report to the ";
                       specialist; "."]) true)
          (delete user_id active_sessions)
          (pending_update db text
           ++ [InsertConsultation user_id summary (eng_category e) "Normal"
                                  specialist "PENDING"])
          (eng_rng e)
    | Some detail =>
        Outcome (ServerError detail) (<[user_id := s']> active_sessions) []
                (eng_rng e)
    end.

(** [predict_disease(query)] for [query.user_id] and [query.text]. *)
Definition predict_disease (db : store) (user_id : Z) (text : string)
    (active_sessions : gmap Z session) (g : rng) : outcome :=
  (* 1. CHECK FOR EXISTING DATABASE LOCKS *)
  match existing_case db with
  | QueryFails detail => Outcome (ServerError detail) active_sessions [] g
  | existing =>
      if has_status existing "PENDING" then
        Outcome (Reply "🔒 Chat Locked. Waiting for Doctor Review." true)
                active_sessions [] g
      else
        (* 2. MANAGE SESSION *)
        let s := default (new_session (classify text)) (active_sessions !! user_id) in
        let active_sessions := <[user_id := s]> active_sessions in
        if has_status existing "NEEDS_INFO" && update_ok db then
          Outcome (Reply "✅ Reply sent to doctor! Please wait." true)
                  (delete user_id active_sessions)
                  [UpdateConsultation (case_id_of existing)
                                      (cat ["PATIENT REPLIED: "; text]) "PENDING"]
                  g
        else run_turn db user_id text s active_sessions g
  end.

Definition no_faults : store := Store NoOpenCase UpdateCommitted None.


(** ** Notions used in the statements *)

(** The assignments a call makes to the clipboard, in the order it makes
    them: they depend on the utterance, the category and the slot asked
    last, and not on the clipboard. *)
Definition context_writes (last_asked_slot : option string)
    (user_text text_lower : string) : list (string * string) :=
  match last_asked_slot with
  | Some slot =>
      if Py.truthy last_asked_slot then
        if found no_re text_lower then
          if String.eqb slot "severity" then [("severity", "mild symptoms")]
          else if String.eqb slot "triggers" then [("triggers", "no known triggers")]
          else if String.eqb slot "sensation" then [("sensation", "no pain or burning")]
          else if String.eqb slot "spread" then [("spread", "no spread")]
          else [(slot, user_text)]
        else if found yes_re text_lower then [(slot, user_text)]
        else []
      else []
  | None => []
  end.

Definition capture_writes (pattern : regex) (slot text_lower : string)
    : list (string * string) :=
  match search pattern text_lower with
  | Some m => [(slot, group0 m)]
  | None => []
  end.

(** The level a rule writes to URGENCY_OVERRIDE on an utterance, if it
    does. *)
Definition fires (text_lower : string) (r : rule) : option string :=
  match search (pattern r) text_lower, flag r with
  | Some m, Some (guard, level) =>
      if guard text_lower && negb (check_negation text_lower (start m))
      then Some level else None
  | _, _ => None
  end.

Definition rule_writes (text_lower : string) (r : rule) : list (string * string) :=
  match search (pattern r) text_lower with
  | Some m =>
      let prefix := if check_negation text_lower (start m) then "no " else "" in
      (slot r, prefix +:+ group0 m)
        :: match fires text_lower r with
           | Some level => [("URGENCY_OVERRIDE", level)]
           | None => []
           end
  | None => []
  end.

Definition cascade_writes (text_lower : string) (rules : list rule)
    : list (string * string) :=
  flat_map (rule_writes text_lower) rules.

Definition slot_writes (category user_text : string) (last_asked_slot : option string)
    : list (string * string) :=
  let text_lower := Py.lower user_text in
  context_writes last_asked_slot user_text text_lower
  ++ capture_writes duration_re "duration" text_lower
  ++ capture_writes SEVERITY_PATTERN "severity" text_lower
  ++ cascade_writes text_lower (category_rules category).

Definition redirect_writes (category user_text : string) : list (string * string) :=
  match detect_redirect category (Py.lower user_text) with
  | Some target => [("category_redirect", target)]
  | None => []
  end.

Definition call_writes (category user_text : string) (last_asked_slot : option string)
    : list (string * string) :=
  slot_writes category user_text last_asked_slot ++ redirect_writes category user_text.

(** The last character of [s], or [prev] when [s] is empty. *)
Fixpoint last_or (prev : option ascii) (s : string) : option ascii :=
  match s with
  | EmptyString => prev
  | String c s' => last_or (Some c) s'
  end.

(** The closed set of negation tokens of the detector. *)
Definition negation_tokens : list string :=
  ["no"; "not"; "dont"; "without"; "denies"; "never"].

(** [tok] occurs in [w] as a whole word: no word character stands right
    before or right after the occurrence (the ends of [w] count as
    non-word). *)
Definition whole_word_in (tok w : string) : Prop :=
  exists pre post,
    w = pre +:+ tok +:+ post
    /\ word_at (last_or None pre) = false
    /\ word_at (next_char post) = false.

(** The assignments of one turn of the logic engine: the pre-fill call when
    the router has just found a sub-group, the main call, and after a
    redirect the two calls for the new category. *)
Definition prefill_writes (text : string) (s : session) : list (string * string) :=
  if String.eqb (sess_subgroup s) "DEFAULT" then
    if negb (String.eqb (get_best_subgroup text (sess_category s)) "DEFAULT")
    then call_writes (sess_category s) text None
    else []
  else [].

Definition turn_writes (text : string) (s : session) : list (string * string) :=
  prefill_writes text s
  ++ call_writes (sess_category s) text (sess_last_slot s)
  ++ match detect_redirect (sess_category s) (Py.lower text) with
     | Some new_cat => call_writes new_cat text None ++ call_writes new_cat "" None
     | None => []
     end.

(** The slot names of a question bank. *)
Definition bank_slots (bank : question_bank) : list string :=
  flat_map (fun c => flat_map (fun sg => sg.2.*1) c.2) bank.




(** The positions of [text] at which one of the words [ws] starts. *)
Fixpoint mentions_from (ws : list string) (pos : Z) (text : string) : list Z :=
  (if existsb (fun w => String.prefix w text) ws then [pos] else [])
  ++ match text with
     | EmptyString => []
     | String _ text' => mentions_from ws (pos + 1) text'
     end.

Definition mentions (ws : list string) (text : string) : list Z :=
  mentions_from ws 0 text.

(** The question lists of a bank. *)
Definition bank_question_lists (bank : question_bank) : list (list string) :=
  flat_map (fun c => flat_map (fun sg => sg.2.*2) c.2) bank.

(** ** Further notions used in the statements *)

(** The six categories the handler can put in a session. *)
Definition categories : list string :=
  ["RESPIRATORY"; "NEUROLOGICAL"; "DERMATOLOGICAL"; "ORTHOPEDIC";
   "GASTROINTESTINAL"; "GENERAL_SYSTEMIC"].

(** The keywords of the classifier (lines 1464-1472), in the order they are
    tried. *)
Definition classifier_keywords : list string :=
  ["cough"; "breath"; "chest"; "wheeze"; "lung";
   "head"; "dizzy"; "migraine"; "seizure"; "vision"; "faint";
   "skin"; "rash"; "itch"; "blister"; "burn"; "hives";
   "bone"; "fracture"; "knee"; "back"; "joint"; "swollen";
   "stomach"; "vomit"; "puke"; "diarrhea"; "nausea"; "pain"].

(** [required_slots] of lines 1281: the slot list of a category and
    sub-group, empty when either is missing from the bank. *)
Definition required_slots (bank : question_bank) (category sub_group : string)
    : pydict (list string) :=
  default [] (dict_get sub_group (default [] (dict_get category bank))).

(** The words of a pattern that is an alternation of literals. *)
Fixpoint words (r : regex) : list string :=
  match r with
  | Lit s => [s]
  | Alt r1 r2 => words r1 ++ words r2
  | _ => []
  end.

Fixpoint plain (r : regex) : bool :=
  match r with
  | Lit _ => true
  | Alt r1 r2 => plain r1 && plain r2
  | _ => false
  end.

(** The sub-group after step A of the logic engine. *)
Definition routed_subgroup (text category sub_group : string) : string :=
  if String.eqb sub_group "DEFAULT" then get_best_subgroup text category
  else sub_group.

(** The keys other than slots that a call may assign. *)
Definition reserved_keys : list string :=
  ["duration"; "severity"; "URGENCY_OVERRIDE"; "category_redirect"].

(** The four categories a redirect can lead to. *)
Definition redirect_targets : list string :=
  ["GASTROINTESTINAL"; "RESPIRATORY"; "NEUROLOGICAL"; "DERMATOLOGICAL"].

(** The status a committed statement leaves its row with. *)
Definition write_status (w : db_write) : string :=
  match w with
  | UpdateConsultation _ _ status => status
  | InsertConsultation _ _ _ _ _ status => status
  end.

(** What holds of every entry of [active_sessions], whatever the requests
    were and whether or not a statement failed. *)
Definition session_wf (s : session) : Prop :=
  sess_category s ∈ categories
  /\ sess_subgroup s ∈ "DEFAULT" :: (keyword_table (sess_category s)).*1
  /\ sess_status s = "ACTIVE"
  /\ (forall sl, sess_last_slot s = Some sl -> sl ∈ bank_slots SPECIALIST_QUESTIONS)
  /\ (forall v, dict_get "URGENCY_OVERRIDE" (sess_clipboard s) = Some v ->
        v ∈ ["CRITICAL"; "HIGH"]).

(** The session stores any sequence of requests can produce from an empty
    [active_sessions]. *)
Inductive stored : gmap Z session -> Prop :=
| stored_start : stored ∅
| stored_request db user_id text sessions g :
    stored sessions ->
    stored (out_sessions (predict_disease db user_id text sessions g)).

(** ** The command-line loop: [main] *)

(** The four variables of the loop (lines 1693-1701). *)
Record cli_state : Type := Cli {
  cli_category : string;
  cli_subgroup : string;
  cli_clipboard : clipboard;
  cli_last_asked_slot : option string
}.

Definition cli_start : cli_state := Cli "GENERAL_SYSTEMIC" "DEFAULT" [] None.

(** What one pass of the loop shows the user: the question of a Bot line
    (the loop goes on), nothing (a redirect that finds nothing to ask: the
    loop goes on), the closing block with category, sub-group and report
    (the loop ends), or the farewell after an exit word (the loop ends).
    The [DEBUG] and alert lines are not part of the model. *)
Inductive cli_event : Type :=
| Ask (next_q : string)
| Silent
| Complete (category sub_group final_report : string)
| Bye.

Definition exit_words : list string := ["exit"; "quit"; "stop"].

(** One pass of the [while True] loop on a line read from the user (lines
    1704-1791). *)
Definition cli_turn (user_input : string) (st : cli_state) (g : rng)
    : cli_event * cli_state * rng :=
  if existsb (String.eqb (Py.lower user_input)) exit_words then (Bye, st, g)
  else
    let current_category := cli_category st in
    let last_asked_slot := cli_last_asked_slot st in
    (* the loyalty check *)
    let current_subgroup :=
      if String.eqb (cli_subgroup st) "DEFAULT" then
        let detected_subgroup := get_best_subgroup user_input current_category in
        if negb (String.eqb detected_subgroup "DEFAULT") then detected_subgroup
        else cli_subgroup st
      else cli_subgroup st in
    (* B. the secretary logic *)
    let '((next_q, slot), cb, g) :=
      get_next_question current_category current_subgroup user_input
                        (cli_clipboard st) last_asked_slot g in
    (* C. the silent switch *)
    if bool_decide (slot = Some "redirect") then
      let new_category := item "category_redirect" cb in
      let current_category := new_category in
      let current_subgroup := get_best_subgroup user_input current_category in
      let '(_, cb, g) :=
        get_next_question current_category current_subgroup user_input cb None g in
      let '((next_q, next_slot), cb, g) :=
        get_next_question current_category current_subgroup "" cb None g in
      if Py.truthy next_q then
        (Ask (default "" next_q),
         Cli current_category current_subgroup cb next_slot, g)
      else
        (Silent, Cli current_category current_subgroup cb last_asked_slot, g)
    else
      (* D. standard output *)
      if Py.truthy next_q then
        (Ask (default "" next_q), Cli current_category current_subgroup cb slot, g)
      else
        (Complete current_category current_subgroup
                  (generate_summary cb current_category),
         Cli current_category current_subgroup cb last_asked_slot, g).

(** The loop over the lines of standard input; the end of the input raises
    [EOFError], which ends the loop. *)
Fixpoint main_loop (inputs : list string) (st : cli_state) (g : rng)
    : list cli_event :=
  match inputs with
  | [] => []
  | user_input :: rest =>
      let '(ev, st', g') := cli_turn user_input st g in
      ev :: match ev with
            | Ask _ | Silent => main_loop rest st' g'
            | Complete _ _ _ | Bye => []
            end
  end.

(** [main()] on the lines the user types. *)
Definition main (inputs : list string) (g : rng) : list cli_event :=
  main_loop inputs cli_start g.

(** The session of the request handler that holds the loop's variables. *)
Definition session_of (st : cli_state) : session :=
  Session (cli_clipboard st) (cli_subgroup st) (cli_last_asked_slot st)
          (cli_category st) "ACTIVE".

(** The assignments of one pass of the loop. *)
Definition cli_writes (text : string) (st : cli_state) : list (string * string) :=
  call_writes (cli_category st) text (cli_last_asked_slot st)
  ++ match detect_redirect (cli_category st) (Py.lower text) with
     | Some new_cat => call_writes new_cat text None ++ call_writes new_cat "" None
     | None => []
     end.

(** ** The prescription text: [generate_patient_sentence] *)

Module Rx.

(** [MedicineItem] (lines 86-90). *)
Record MedicineItem : Type := Medicine {
  name : string;
  timing : string;
  instruction : string;
  duration : string
}.

Definition freq_map : pydict string :=
  [("Morning", "once a day (morning)");
   ("Night", "once a day (night)");
   ("Morning-Night", "2 times a day");
   ("Morning-Afternoon-Night", "3 times a day");
   ("Once", "once a day");
   ("Twice", "twice a day")].

(** [s.lstrip()], [s.rstrip()] and [s.strip()] on U+0000..U+00FF. *)
Fixpoint lstrip (s : string) : string :=
  match s with
  | EmptyString => EmptyString
  | String c s' => if Py.is_space c then lstrip s' else s
  end.

Fixpoint rstrip (s : string) : string :=
  match s with
  | EmptyString => EmptyString
  | String c s' =>
      match rstrip s' with
      | EmptyString => if Py.is_space c then EmptyString else String c EmptyString
      | r => String c r
      end
  end.

Definition strip (s : string) : string := rstrip (lstrip s).

(** [x if x else ""] *)
Definition or_empty (x : string) : string :=
  if Py.truthy (Some x) then x else "".

(** The line built for one item (lines 130-136). *)
Definition line (m : MedicineItem) : string :=
  let frequency := get_or (timing m) (timing m) freq_map in
  let instruction := or_empty (instruction m) in
  let duration := or_empty (duration m) in
  strip (cat ["Take "; name m; " "; frequency; " "; instruction; " for ";
              duration; "."]).

Definition newline : string := String (ascii_of_N 10) EmptyString.

(** [generate_patient_sentence(meds)] *)
Definition generate_patient_sentence (meds : list MedicineItem) : string :=
  String.concat newline (map line meds).

End Rx.

(** The variables of the loop of [main] after it has read [inputs], when it
    is still running. *)
Fixpoint cli_run (inputs : list string) (st : cli_state) (g : rng)
    : option (cli_state * rng) :=
  match inputs with
  | [] => Some (st, g)
  | user_input :: rest =>
      let '(ev, st', g') := cli_turn user_input st g in
      match ev with
      | Ask _ | Silent => cli_run rest st' g'
      | Complete _ _ _ | Bye => None
      end
  end.

(** The rules a turn of the logic engine runs on the utterance, in the order
    of their last run: the cascade of the session's category and, after a
    redirect, the cascade of the new category. *)
Definition turn_rules (text : string) (s : session) : list rule :=
  category_rules (sess_category s)
  ++ match detect_redirect (sess_category s) (Py.lower text) with
     | Some new_cat => category_rules new_cat
     | None => []
     end.
(** * Properties *)

(** ** Dictionaries and sequences of assignments *)

Section DictFacts.
Context {V : Type}.
Implicit Types (d : pydict V) (k : string) (v : V) (ws : list (string * V)).

Lemma dict_get_set_eq k v d : dict_get k (dict_set k v d) = Some v.
Proof.
  induction d as [|[k' v'] d IH]; simpl.
  - by rewrite String.eqb_refl.
  - destruct (String.eqb k k') eqn:E; simpl; rewrite ?String.eqb_refl, ?E; done.
Qed.

Lemma dict_get_set_ne k k' v d :
  k <> k' -> dict_get k' (dict_set k v d) = dict_get k' d.
Proof.
  intros Hne. induction d as [|[k0 v0] d IH]; simpl.
  - apply String.eqb_neq in Hne. rewrite String.eqb_sym. by rewrite Hne.
  - destruct (String.eqb k k0) eqn:E; simpl.
    + apply String.eqb_eq in E. subst k0.
      assert (String.eqb k' k = false) as -> by (apply String.eqb_neq; congruence).
      done.
    + by rewrite IH.
Qed.

Lemma apply_writes_app (ws1 ws2 : list (string * V)) d :
  apply_writes (ws1 ++ ws2) d = apply_writes ws2 (apply_writes ws1 d).
Proof. apply fold_left_app. Qed.

Lemma last_write_app k (ws1 ws2 : list (string * V)) :
  last_write k (ws1 ++ ws2) =
  match last_write k ws2 with
  | Some v => Some v
  | None => last_write k ws1
  end.
Proof.
  induction ws1 as [|w ws1 IH]; simpl.
  - by destruct (last_write k ws2).
  - rewrite IH. by destruct (last_write k ws2).
Qed.

Lemma last_write_None k ws :
  last_write k ws = None <-> k ∉ ws.*1.
Proof.
  induction ws as [|[k' v'] ws IH]; simpl.
  - split; [intros _; apply not_elem_of_nil | done].
  - rewrite not_elem_of_cons, <- IH.
    destruct (last_write k ws); [intuition congruence|].
    destruct (String.eqb_spec k' k); intuition congruence.
Qed.

Lemma dict_get_apply_writes k ws d :
  dict_get k (apply_writes ws d) =
  match last_write k ws with
  | Some v => Some v
  | None => dict_get k d
  end.
Proof.
  revert d. induction ws as [|[k' v'] ws IH]; intros d; [done|].
  change (apply_writes ((k', v') :: ws) d) with (apply_writes ws (dict_set k' v' d)).
  rewrite IH. simpl. destruct (last_write k ws); [done|].
  destruct (String.eqb_spec k' k) as [->|Hne].
  - apply dict_get_set_eq.
  - by apply dict_get_set_ne.
Qed.



Lemma apply_writes_cons k v rest ws :
  apply_writes ws ((k, v) :: rest) =
  (k, default v (last_write k ws))
    :: apply_writes (filter (fun w => w.1 <> k) ws) rest.
Proof.
  revert v rest. induction ws as [|[k' v'] ws IH]; intros v rest; [done|].
  change (apply_writes ((k', v') :: ws) ((k, v) :: rest))
    with (apply_writes ws (dict_set k' v' ((k, v) :: rest))).
  simpl. destruct (String.eqb_spec k' k) as [->|Hne].
  - rewrite IH. rewrite filter_cons_False by (simpl; tauto).
    by destruct (last_write k ws).
  - rewrite IH. rewrite filter_cons_True by done.
    by destruct (last_write k ws).
Qed.

(** Running a sequence of assignments twice is the same as running it once. *)
Lemma apply_writes_idemp ws d :
  apply_writes ws (apply_writes ws d) = apply_writes ws d.
Proof.
  remember (length ws + length d)%nat as n eqn:Hn.
  assert (length ws + length d <= n)%nat as Hle by lia. clear Hn.
  revert ws d Hle. induction n as [n IH] using lt_wf_ind. intros ws d Hle.
  assert (forall k v rest ws',
    (length ws' + length rest < n)%nat ->
    apply_writes ws' ((k, v) :: apply_writes (filter (fun w => w.1 <> k) ws') rest)
    = (k, default v (last_write k ws'))
        :: apply_writes (filter (fun w => w.1 <> k) ws') rest) as Hstep.
  { intros k v rest ws' Hlt. rewrite apply_writes_cons. f_equal.
    eapply (IH (length (filter (fun w => w.1 <> k) ws') + length rest)%nat); [|done].
    pose proof (length_filter (fun w : string * V => w.1 <> k) ws'). lia. }
  destruct d as [|[k v] rest].
  - destruct ws as [|[k v] ws0]; [done|].
    change (apply_writes ((k, v) :: ws0) []) with (apply_writes ws0 [(k, v)]).
    rewrite apply_writes_cons.
    change (apply_writes ((k, v) :: ws0) ?x) with (apply_writes ws0 (dict_set k v x)).
    simpl dict_set. rewrite String.eqb_refl.
    apply (Hstep k v [] ws0). simpl in *; lia.
  - rewrite apply_writes_cons, Hstep by (simpl in *; lia).
    by destruct (last_write k ws).
Qed.

End DictFacts.

(** ** Each call is a sequence of assignments *)

Lemma resolve_context_writes last user_text text_lower cb :
  resolve_context last user_text text_lower cb
  = apply_writes (context_writes last user_text text_lower) cb.
Proof.
  unfold resolve_context, context_writes.
  destruct last as [slot|]; [|done].
  repeat (match goal with |- context [if ?b then _ else _] => destruct b end;
          try done).
Qed.

Lemma capture_writes_ok pattern slot text_lower cb :
  capture pattern slot text_lower cb
  = apply_writes (capture_writes pattern slot text_lower) cb.
Proof. unfold capture, capture_writes. by destruct (search _ _). Qed.

Lemma apply_rule_writes text_lower cb r :
  apply_rule text_lower cb r = apply_writes (rule_writes text_lower r) cb.
Proof.
  unfold apply_rule, rule_writes, fires.
  destruct (search _ _) as [m|]; [|done].
  destruct (flag r) as [[guard level]|]; [|done].
  by destruct (guard text_lower && negb (check_negation text_lower (start m))).
Qed.

Lemma cascade_writes_ok text_lower rules cb :
  fold_left (apply_rule text_lower) rules cb
  = apply_writes (cascade_writes text_lower rules) cb.
Proof.
  revert cb. induction rules as [|r rules IH]; intros cb; [done|].
  simpl. unfold cascade_writes in *. simpl.
  by rewrite apply_writes_app, IH, apply_rule_writes.
Qed.

Lemma fill_slots_writes category user_text cb last :
  fill_slots category user_text cb last
  = apply_writes (slot_writes category user_text last) cb.
Proof.
  unfold fill_slots, slot_writes.
  rewrite !apply_writes_app, cascade_writes_ok, !capture_writes_ok.
  by rewrite resolve_context_writes.
Qed.

Lemma gnq_clipboard_writes category sub_group user_text cb last g :
  gnq_clipboard (get_next_question category sub_group user_text cb last g)
  = apply_writes (call_writes category user_text last) cb.
Proof.
  unfold get_next_question, call_writes, redirect_writes, gnq_clipboard.
  rewrite apply_writes_app, fill_slots_writes.
  destruct (detect_redirect _ _); [done|].
  by destruct (pick_next_question _ _ _ _ _).
Qed.

Lemma pick_next_question_result bank category sub_group cb g :
  let r := (pick_next_question bank category sub_group cb g).1 in
  r = (None, None) \/
  exists q slot, r = (Some q, Some slot) /\ dict_get slot cb = None.
Proof.
  unfold pick_next_question.
  generalize (default [] (dict_get sub_group (default [] (dict_get category bank)))).
  intros slots. induction slots as [|[slot qs] slots IH]; simpl; [by left|].
  destruct (dict_get slot cb) eqn:E; [exact IH|].
  right. destruct (random_choice qs g). simpl. eauto.
Qed.

Lemma redirected_iff category sub_group user_text cb last g :
  redirected (get_next_question category sub_group user_text cb last g) = true
  <-> is_Some (detect_redirect category (Py.lower user_text)).
Proof.
  unfold redirected. rewrite bool_decide_eq_true.
  unfold get_next_question, gnq_result.
  destruct (detect_redirect _ _) as [t|]; simpl.
  - split; eauto.
  - pose proof (pick_next_question_result SPECIALIST_QUESTIONS category sub_group
                  (fill_slots category user_text cb last) g) as H.
    destruct (pick_next_question _ _ _ _ _) as [r g']. simpl in *. split.
    + intros ->. destruct H as [H|(q & s & H & _)]; discriminate.
    + intros [? ?]. discriminate.
Qed.

(** ** Idempotent re-extraction *)

(** C7. Running [get_next_question] a second time on the same utterance
    (same category, sub-group and last asked slot) against the clipboard the
    first run produced leaves exactly that clipboard, and the second run
    signals a redirect exactly when the first one did. *)
Theorem extraction_idempotent category sub_group user_text cb asked g g' :
  let first := get_next_question category sub_group user_text cb asked g in
  let second :=
    get_next_question category sub_group user_text (gnq_clipboard first) asked g' in
  gnq_clipboard second = gnq_clipboard first
  /\ redirected second = redirected first.
Proof.
  intros first second. subst first second. split.
  - rewrite !gnq_clipboard_writes. apply apply_writes_idemp.
  - apply eq_true_iff_eq. by rewrite !redirected_iff.
Qed.

(** ** The matcher *)

Lemma append_nil (b : string) : "" +:+ b = b.
Proof. reflexivity. Qed.

Lemma append_cons x (a b : string) : String x a +:+ b = String x (a +:+ b).
Proof. reflexivity. Qed.

Ltac str_simpl := rewrite ?append_nil, ?append_cons; simpl.

Lemma append_assoc (a b c : string) : (a +:+ b) +:+ c = a +:+ b +:+ c.
Proof. induction a as [|x a IH]; str_simpl; [done|by f_equal]. Qed.

Lemma length_append (a b : string) :
  String.length (a +:+ b) = (String.length a + String.length b)%nat.
Proof. induction a as [|x a IH]; str_simpl; [done|by f_equal]. Qed.

Lemma drop_append (a b : string) : Py.drop (String.length a) (a +:+ b) = b.
Proof. induction a as [|x a IH]; str_simpl; [by destruct b|done]. Qed.

Lemma take_append (a b : string) : Py.take (String.length a) (a +:+ b) = a.
Proof. induction a as [|x a IH]; str_simpl; [by destruct b|by f_equal]. Qed.

Lemma append_inv_l (l a b : string) : l +:+ a = l +:+ b -> a = b.
Proof.
  induction l as [|x l IH]; str_simpl; [done|]. intros [=]. auto.
Qed.

Lemma eat_lit_spec l prev s c' :
  eat_lit l prev s = Some c'
  <-> exists rest, s = l +:+ rest /\ c' = (last_or prev l, rest).
Proof.
  revert prev s. induction l as [|a l IH]; intros prev s; simpl.
  - split; [intros [= <-]; eauto | intros (rest & -> & ->); done].
  - destruct s as [|b s]; [split; [done | intros (? & [=] & _)]|].
    destruct (Ascii.eqb_spec a b) as [->|Hne].
    + rewrite IH. split; intros (rest & H1 & H2); exists rest;
        rewrite ?append_cons in *; split; congruence.
    + split; [done | intros (? & [=] & _); congruence].
Qed.

Lemma run_Lit l k c :
  is_Some (run (Lit l) k c)
  <-> exists rest, c.2 = l +:+ rest /\ is_Some (k (last_or c.1 l, rest)).
Proof.
  simpl. destruct (eat_lit l c.1 c.2) as [c'|] eqn:E.
  - apply eat_lit_spec in E as (rest & E1 & ->). split; [eauto|].
    intros (rest' & E2 & H). rewrite E1 in E2.
    by apply append_inv_l in E2 as <-.
  - split; [intros [? ?]; done|]. intros (rest & E1 & _).
    assert (eat_lit l c.1 c.2 = Some (last_or c.1 l, rest)) as E'
      by (apply eat_lit_spec; eauto).
    congruence.
Qed.

Lemma run_Alt r1 r2 k c :
  is_Some (run (r1 |:| r2) k c) <-> is_Some (run r1 k c) \/ is_Some (run r2 k c).
Proof.
  simpl. destruct (run r1 k c) as [x|]; split; eauto.
  intros [[? ?]|H]; [done|exact H].
Qed.

Lemma run_WordB k c :
  is_Some (run WordB k c) <-> at_boundary c = true /\ is_Some (k c).
Proof.
  simpl. destruct (at_boundary c); split; try tauto.
  - intros [? ?]; done.
  - intros [? _]; done.
Qed.

Lemma search_from_is_Some r pos prev s :
  is_Some (search_from r pos prev s)
  <-> exists pre post, s = pre +:+ post /\ is_Some (match_at r (last_or prev pre, post)).
Proof.
  revert pos prev. induction s as [|a s IH]; intros pos prev; simpl.
  - destruct (match_at r (prev, "")) as [[p rest]|] eqn:E.
    + split; [|eauto]. intros _. exists "", "". rewrite append_nil. simpl.
      rewrite E. eauto.
    + split; [intros [? ?]; done|]. intros (pre & post & H1 & H2).
      destruct pre; [|done]. rewrite append_nil in H1. simpl in *. subst post.
      rewrite E in H2. by destruct H2.
  - destruct (match_at r (prev, String a s)) as [[p rest]|] eqn:E.
    + split; [|eauto]. intros _. exists "", (String a s). rewrite append_nil.
      simpl. rewrite E. eauto.
    + rewrite IH. split.
      * intros (pre & post & -> & H). exists (String a pre), post. eauto.
      * intros (pre & post & H1 & H2). destruct pre as [|b pre].
        -- rewrite append_nil in H1. simpl in *. subst post. rewrite E in H2.
           by destruct H2.
        -- rewrite append_cons in H1. injection H1 as -> ->. eauto.
Qed.

Lemma found_iff r text :
  found r text = true
  <-> exists pre post, text = pre +:+ post
        /\ is_Some (match_at r (last_or None pre, post)).
Proof.
  unfold found, search. rewrite <- search_from_is_Some with (pos := 0).
  destruct (search_from r 0 None text); split; eauto; try done.
Qed.

(** ** The negation detector *)

Lemma lit_then_boundary tok c :
  is_Some (run (Lit tok) (run WordB Some) c)
  <-> exists rest, c.2 = tok +:+ rest /\ at_boundary (last_or c.1 tok, rest) = true.
Proof.
  rewrite run_Lit. split; intros (rest & H1 & H2); exists rest; (split; [done|]).
  - by apply run_WordB in H2 as [? _].
  - apply run_WordB. eauto.
Qed.

Lemma boundary_before_word p a s :
  Py.is_word a = true ->
  at_boundary (p, String a s) = true <-> word_at p = false.
Proof.
  intros Ha. unfold at_boundary. simpl. rewrite Ha.
  destruct (word_at p); simpl; split; congruence.
Qed.

Lemma boundary_after_word a rest :
  Py.is_word a = true ->
  at_boundary (Some a, rest) = true <-> word_at (next_char rest) = false.
Proof.
  intros Ha. unfold at_boundary. simpl. rewrite Ha.
  destruct (word_at (next_char rest)); simpl; split; congruence.
Qed.

(** Case analysis over the members of a token list. *)
Ltac tokens_cases Hin :=
  repeat (apply elem_of_cons in Hin as [->|Hin]);
  [..|by apply elem_of_nil in Hin].

Lemma negation_match p post :
  is_Some (match_at negation_re (p, post))
  <-> word_at p = false
      /\ exists tok rest, tok ∈ negation_tokens /\ post = tok +:+ rest
           /\ word_at (next_char rest) = false.
Proof.
  unfold match_at, negation_re.
  change (run (WordB ;: ?x ;: WordB) Some ?c) with (run WordB (run x (run WordB Some)) c).
  rewrite run_WordB, !run_Alt, !lit_then_boundary. simpl fst; simpl snd.
  split.
  - intros [Hb Htok].
    assert (exists tok rest, tok ∈ negation_tokens /\ post = tok +:+ rest
              /\ at_boundary (last_or p tok, rest) = true) as (tok & rest & Hin & -> & Hb').
    { unfold negation_tokens.
      repeat (destruct Htok as [(rest & ? & ?)|Htok];
              [eexists _, rest; split; [|done]; set_solver|]).
      destruct Htok as (rest & ? & ?). eexists _, rest; split; [|done]; set_solver. }
    clear Htok. pose proof Hin as Hin'. unfold negation_tokens in Hin.
    tokens_cases Hin; rewrite append_cons in Hb;
      apply boundary_before_word in Hb; try reflexivity;
      simpl last_or in Hb'; apply boundary_after_word in Hb'; try reflexivity;
      eauto 10.
  - intros (Hp & tok & rest & Hin & -> & Hrest). unfold negation_tokens in Hin.
    tokens_cases Hin;
      (split; [rewrite append_cons; by apply boundary_before_word|]);
      repeat first
        [ by (exists rest; split; [reflexivity|];
              simpl last_or; apply boundary_after_word)
        | by left; exists rest; split; [reflexivity|];
              simpl last_or; apply boundary_after_word
        | right ].
Qed.

Lemma found_negation_iff w :
  found negation_re w = true
  <-> exists tok, tok ∈ negation_tokens /\ whole_word_in tok w.
Proof.
  rewrite found_iff. unfold whole_word_in. split.
  - intros (pre & post & -> & H). apply negation_match in H as (Hp & tok & rest & ? & -> & ?).
    exists tok. split; [done|]. by exists pre, rest.
  - intros (tok & Hin & pre & post & -> & Hp & Hpost).
    exists pre, (tok +:+ post). split; [done|]. apply negation_match. eauto 10.
Qed.

(** The window the detector reads: when the match position splits the text
    into [before +:+ window] and [after], with [window] of 20 characters, or
    of fewer with nothing before it, the slice is [window]. *)
Lemma slice_window before window after :
  String.length window = 20%nat
  \/ (before = "" /\ (String.length window <= 20)%nat) ->
  Py.slice (before +:+ window +:+ after)
           (Z.max 0 (Py.len (before +:+ window) - 20))
           (Py.len (before +:+ window)) = window.
Proof.
  intros H. unfold Py.slice, Py.clamp, Py.len. rewrite !length_append.
  pose proof (drop_append before (window +:+ after)) as Hd.
  pose proof (take_append window after) as Ht.
  remember (String.length before) as lb eqn:Hlb in *.
  remember (String.length window) as lw eqn:Hlw in *.
  remember (String.length after) as la eqn:Hla in *.
  assert (lw = 20%nat \/ (lb = 0%nat /\ (lw <= 20)%nat)) as Hcase.
  { destruct H as [H|[-> H]]; [by left|right]. by subst lb. }
  clear H Hlb Hlw Hla.
  assert (Z.max 0 (Z.of_nat (lb + lw) - 20) = Z.of_nat lb) as -> by lia.
  assert ((Z.of_nat lb <? 0) = false) as -> by (apply Z.ltb_ge; lia).
  assert ((Z.of_nat (lb + lw) <? 0) = false) as -> by (apply Z.ltb_ge; lia).
  replace (Z.to_nat (Z.max 0 (Z.min (Z.of_nat lb) (Z.of_nat (lb + (lw + la))))))
    with lb by lia.
  replace (Z.to_nat (Z.max 0 (Z.min (Z.of_nat (lb + lw)) (Z.of_nat (lb + (lw + la))))
                     - Z.max 0 (Z.min (Z.of_nat lb) (Z.of_nat (lb + (lw + la))))))
    with lw by lia.
  by rewrite Hd, Ht.
Qed.

(** C6. The negation detector answers true exactly when one of the six
    tokens no, not, dont, without, denies, never stands as a whole word in
    the window before the match position: the 20 characters right before it,
    or the whole shorter prefix when fewer than 20 characters precede it.
    The detector is a total function of the text and the position. *)
Theorem check_negation_spec before window after :
  String.length window = 20%nat
  \/ (before = "" /\ (String.length window <= 20)%nat) ->
  check_negation (before +:+ window +:+ after) (Py.len (before +:+ window)) = true
  <-> exists tok, tok ∈ negation_tokens /\ whole_word_in tok window.
Proof.
  intros H. unfold check_negation. rewrite slice_window by done.
  rewrite <- found_negation_iff. by destruct (found negation_re window).
Qed.

Lemma check_negation_spec_witness :
  (String.length "no " = 20%nat
   \/ ("" = "" /\ (String.length "no " <= 20)%nat))
  /\ (check_negation ("" +:+ "no " +:+ "vomiting today") (Py.len ("" +:+ "no ")) = true
      <-> exists tok, tok ∈ negation_tokens /\ whole_word_in tok "no ")
  /\ check_negation "no vomiting today" 3 = true.
Proof.
  split; [|split].
  - right. split; [reflexivity | simpl; lia].
  - apply (check_negation_spec "" "no " "vomiting today").
    right. split; [reflexivity | simpl; lia].
  - vm_compute. reflexivity.
Defined.

(** ** One call and one turn *)

Lemma first_missing_elem slots cb slot qs :
  first_missing slots cb = Some (slot, qs) ->
  (slot, qs) ∈ slots /\ dict_get slot cb = None.
Proof.
  induction slots as [|[s q] slots IH]; simpl; [done|].
  destruct (dict_get s cb) eqn:E.
  - intros H. destruct (IH H). split; [apply elem_of_cons; by right|done].
  - intros [= -> ->]. split; [apply elem_of_cons; by left|done].
Qed.

Lemma dict_get_elem {V} k (v : V) (d : pydict V) :
  dict_get k d = Some v -> (k, v) ∈ d.
Proof.
  induction d as [|[k' v'] d IH]; simpl; [done|].
  destruct (String.eqb_spec k k') as [->|Hne].
  - intros [= ->]. apply elem_of_cons. by left.
  - intros H. apply elem_of_cons. right. auto.
Qed.

Lemma pick_slot_in_bank bank category sub_group cb g q slot :
  (pick_next_question bank category sub_group cb g).1 = (Some q, Some slot) ->
  slot ∈ bank_slots bank.
Proof.
  unfold pick_next_question, bank_slots.
  destruct (dict_get category bank) as [c|] eqn:Ec; simpl; [|done].
  destruct (dict_get sub_group c) as [sl|] eqn:Es; simpl; [|done].
  destruct (first_missing sl cb) as [[slot' qs]|] eqn:Ef; [|done].
  destruct (random_choice qs g). simpl. intros [= _ ->].
  apply first_missing_elem in Ef as [Hin _].
  apply dict_get_elem in Ec, Es.
  apply list_elem_of_In, in_flat_map. exists (category, c).
  split; [by apply list_elem_of_In|].
  apply in_flat_map. exists (sub_group, sl). split; [by apply list_elem_of_In|].
  simpl. apply list_elem_of_In, list_elem_of_fmap. by exists (slot, qs).
Qed.

(** [random.choice] never meets an empty list. *)
Lemma bank_lists_nonempty :
  Forall (fun qs => qs <> []) (bank_question_lists SPECIALIST_QUESTIONS).
Proof. vm_compute. repeat constructor; discriminate. Qed.

Lemma no_redirect_slot : "redirect" ∉ bank_slots SPECIALIST_QUESTIONS.
Proof. rewrite list_elem_of_In. vm_compute. intuition discriminate. Qed.

Lemma gnq_spec category sub_group text cb last g :
  let r := get_next_question category sub_group text cb last g in
  match detect_redirect category (Py.lower text) with
  | Some target =>
      gnq_result r = (None, Some "redirect")
      /\ dict_get "category_redirect" (gnq_clipboard r) = Some target
  | None =>
      gnq_result r = (None, None)
      \/ exists q slot, gnq_result r = (Some q, Some slot)
           /\ dict_get slot (gnq_clipboard r) = None /\ slot <> "redirect"
  end.
Proof.
  unfold get_next_question, gnq_result, gnq_clipboard.
  destruct (detect_redirect _ _) as [target|]; simpl.
  - split; [done|apply dict_get_set_eq].
  - pose proof (pick_next_question_result SPECIALIST_QUESTIONS category sub_group
                  (fill_slots category text cb last) g) as H.
    pose proof (pick_slot_in_bank SPECIALIST_QUESTIONS category sub_group
                  (fill_slots category text cb last) g) as Hb.
    destruct (pick_next_question _ _ _ _ _) as [r g']. simpl in *.
    destruct H as [H|(q & slot & -> & H)]; [by left|right].
    exists q, slot. split_and!; [done..|].
    intros ->. by apply no_redirect_slot, (Hb q).
Qed.

Lemma detect_redirect_target category t target :
  detect_redirect category t = Some target ->
  forall t', detect_redirect target t' = None.
Proof.
  unfold detect_redirect at 1. destruct (String.eqb category _); [|done].
  unfold redirect_checks, first_redirect.
  repeat (destruct (found _ t); [by intros [= <-]|]). done.
Qed.

Ltac gnq_destruct :=
  match goal with
  | |- context [get_next_question ?c ?sg ?t ?cb ?l ?g] =>
      let Hw := fresh "Hw" in
      let Hs := fresh "Hs" in
      pose proof (gnq_clipboard_writes c sg t cb l g) as Hw;
      pose proof (gnq_spec c sg t cb l g) as Hs;
      destruct (get_next_question c sg t cb l g) as [[[? ?] ?] ?];
      unfold gnq_clipboard, gnq_result in Hw, Hs; cbn [fst snd] in Hw, Hs
  end.

(** One turn of the logic engine: its clipboard is the session's clipboard
    after the turn's assignments, its category is the redirect target when
    the main call signals a redirect, and what it hands back is either
    "nothing left to ask" or a question for a slot the clipboard lacks. *)
Lemma engine_spec text s g :
  let e := run_logic_engine text s g in
  eng_clipboard e = apply_writes (turn_writes text s) (sess_clipboard s)
  /\ eng_category e
     = default (sess_category s) (detect_redirect (sess_category s) (Py.lower text))
  /\ ((eng_next_q e = None /\ eng_slot e = None)
      \/ exists q slot, eng_next_q e = Some q /\ eng_slot e = Some slot
           /\ dict_get slot (eng_clipboard e) = None).
Proof.
  unfold run_logic_engine, turn_writes, prefill_writes.
  destruct s as [cb sub last category status]. cbn [sess_clipboard sess_subgroup
    sess_last_slot sess_category sess_status].
  assert (exists sub0 cb0 g0,
    mini_router text category sub cb g = (sub0, cb0, g0)
    /\ cb0 = apply_writes
               (if String.eqb sub "DEFAULT" then
                  if negb (String.eqb (get_best_subgroup text category) "DEFAULT")
                  then call_writes category text None else []
                else []) cb) as (sub0 & cb0 & g0 & -> & Hcb0).
  { unfold mini_router. destruct (String.eqb sub "DEFAULT"); [|by eauto 10].
    cbv zeta. destruct (negb _); [|by eauto 10].
    rewrite gnq_clipboard_writes. eauto 10. }
  rewrite !apply_writes_app, <- Hcb0. clear Hcb0.
  gnq_destruct. rewrite <- Hw. clear Hw.
  destruct (detect_redirect category (Py.lower text)) as [target|] eqn:Ed.
  - destruct Hs as [[= -> ->] Hget]. rewrite bool_decide_eq_true_2 by done.
    unfold item, get_or. rewrite Hget. simpl default. rewrite apply_writes_app.
    gnq_destruct. rewrite <- Hw. clear Hw Hs.
    gnq_destruct. rewrite <- Hw. clear Hw.
    rewrite (detect_redirect_target _ _ _ Ed) in Hs. simpl.
    split_and!; [done..|].
    destruct Hs as [[= -> ->]|(q & slot & [= -> ->] & H & _)]; [by left|right; eauto].
  - simpl.
    destruct Hs as [[= -> ->]|(q & slot & [= -> ->] & H & Hne)].
    + rewrite bool_decide_eq_false_2 by done. simpl. split_and!; [done..|by left].
    + rewrite bool_decide_eq_false_2 by congruence. simpl.
      split_and!; [done..|right; eauto].
Qed.

(** ** Stored sessions *)




(** ** Which keys a call assigns *)

Ltac case_eqb :=
  match goal with
  | |- context [String.eqb ?a ?b] => destruct (String.eqb_spec a b) as [->|?]
  end.

Lemma elem_of_context_writes last user_text t k v :
  (k, v) ∈ context_writes last user_text t -> last = Some k.
Proof.
  unfold context_writes. destruct last as [slot|]; [|by intros ?%elem_of_nil].
  destruct (Py.truthy _); [|by intros ?%elem_of_nil].
  destruct (found no_re t).
  - repeat (case_eqb; [by intros [= <- _]%list_elem_of_singleton|]).
    by intros [= <- _]%list_elem_of_singleton.
  - destruct (found yes_re t); [|by intros ?%elem_of_nil].
    by intros [= <- _]%list_elem_of_singleton.
Qed.

Lemma elem_of_capture_writes p slot t k v :
  (k, v) ∈ capture_writes p slot t -> k = slot /\ is_Some (search p t).
Proof.
  unfold capture_writes. destruct (search p t); [|by intros ?%elem_of_nil].
  intros [= -> _]%list_elem_of_singleton. eauto.
Qed.

Lemma elem_of_rule_writes t r k v :
  (k, v) ∈ rule_writes t r ->
  k = slot r \/ (k = "URGENCY_OVERRIDE" /\ fires t r = Some v).
Proof.
  unfold rule_writes. destruct (search (pattern r) t); [|by intros ?%elem_of_nil].
  intros [[= -> _]|H]%elem_of_cons; [by left|right].
  destruct (fires t r); [|by apply elem_of_nil in H].
  by apply list_elem_of_singleton in H as [= -> ->].
Qed.

Lemma elem_of_cascade_writes t rules k v :
  (k, v) ∈ cascade_writes t rules ->
  exists r, r ∈ rules
    /\ (k = slot r \/ (k = "URGENCY_OVERRIDE" /\ fires t r = Some v)).
Proof.
  unfold cascade_writes. induction rules as [|r rules IH]; simpl.
  - by intros ?%elem_of_nil.
  - intros [H|H]%elem_of_app.
    + exists r. split; [apply elem_of_cons; by left|by apply elem_of_rule_writes].
    + destruct (IH H) as (r' & ? & ?). exists r'. split; [|done].
      apply elem_of_cons. by right.
Qed.

Lemma elem_of_call_writes category text last k v :
  (k, v) ∈ call_writes category text last ->
  last = Some k
  \/ (k = "duration" /\ is_Some (search duration_re (Py.lower text)))
  \/ (k = "severity" /\ is_Some (search SEVERITY_PATTERN (Py.lower text)))
  \/ (exists r, r ∈ category_rules category
        /\ (k = slot r
            \/ (k = "URGENCY_OVERRIDE" /\ fires (Py.lower text) r = Some v)))
  \/ (k = "category_redirect"
      /\ detect_redirect category (Py.lower text) = Some v).
Proof.
  unfold call_writes, slot_writes, redirect_writes.
  rewrite !elem_of_app. intros [[H|[H|[H|H]]]|H].
  - left. by eapply elem_of_context_writes.
  - right; left. by eapply elem_of_capture_writes.
  - right; right; left. by eapply elem_of_capture_writes.
  - right; right; right; left. by apply elem_of_cascade_writes.
  - right; right; right; right.
    destruct (detect_redirect _ _); [|by apply elem_of_nil in H].
    by apply list_elem_of_singleton in H as [= -> ->].
Qed.

(** What the rule tables contain: no rule fills a reserved key or the
    duration slot, and every red flag is CRITICAL or HIGH. *)
Lemma category_rules_facts category r :
  r ∈ category_rules category ->
  slot r <> "URGENCY_OVERRIDE" /\ slot r <> "duration"
  /\ slot r <> "category_redirect"
  /\ forall guard level, flag r = Some (guard, level) ->
       level = "CRITICAL"
       \/ (level = "HIGH"
           /\ (category = "DERMATOLOGICAL" \/ category = "GENERAL_SYSTEMIC")).
Proof.
  unfold category_rules.
  repeat case_eqb;
    try (by intros ?%elem_of_nil);
    intros Hin;
    repeat (apply elem_of_cons in Hin as [->|Hin]);
    try (by apply elem_of_nil in Hin);
    (split_and!; [discriminate..|]);
    intros guard level; simpl; intros [= <- <-] || intro; try discriminate; eauto.
Qed.

Lemma fires_fill t p s : fires t (fill p s) = None.
Proof. unfold fires. simpl. by destruct (search p t). Qed.

(** The level the cascade leaves in URGENCY_OVERRIDE is the one of the last
    rule that raised its flag. *)
Lemma last_write_cascade t rules :
  Forall (fun r => slot r <> "URGENCY_OVERRIDE") rules ->
  last_write "URGENCY_OVERRIDE" (cascade_writes t rules) = last (omap (fires t) rules).
Proof.
  unfold cascade_writes. induction 1 as [|r rules Hr _ IH]; [done|].
  simpl. rewrite last_write_app, IH.
  assert (last_write "URGENCY_OVERRIDE" (rule_writes t r) = fires t r) as ->.
  { unfold rule_writes. destruct (search (pattern r) t) eqn:E.
    - simpl. destruct (fires t r); simpl; [done|].
      destruct (String.eqb_spec (slot r) "URGENCY_OVERRIDE"); [congruence|done].
    - unfold fires. by rewrite E. }
  destruct (fires t r) as [l|]; simpl; rewrite ?last_cons; by destruct (last _).
Qed.

Lemma category_rules_slots category :
  Forall (fun r => slot r <> "URGENCY_OVERRIDE") (category_rules category).
Proof. apply Forall_forall. intros r Hr. by apply category_rules_facts in Hr as [? _]. Qed.

Lemma urgency_after_call category sub_group text cb asked g level :
  last (omap (fires (Py.lower text)) (category_rules category)) = Some level ->
  dict_get "URGENCY_OVERRIDE"
    (gnq_clipboard (get_next_question category sub_group text cb asked g))
  = Some level.
Proof.
  intros H. rewrite gnq_clipboard_writes, dict_get_apply_writes.
  unfold call_writes, slot_writes. rewrite !last_write_app.
  assert (last_write "URGENCY_OVERRIDE" (redirect_writes category text) = None) as ->.
  { unfold redirect_writes. by destruct (detect_redirect _ _). }
  by rewrite last_write_cascade, H by apply category_rules_slots.
Qed.

Lemma last_write_Some_elem {V} k (v : V) (ws : list (string * V)) :
  last_write k ws = Some v -> (k, v) ∈ ws.
Proof.
  induction ws as [|[k' v'] ws IH]; simpl; [done|].
  destruct (last_write k ws).
  - intros [= ->]. apply elem_of_cons. right. by apply IH.
  - destruct (String.eqb_spec k' k) as [->|?]; [|done].
    intros [= ->]. apply elem_of_cons. by left.
Qed.

Lemma fires_flag t r level :
  fires t r = Some level -> exists guard, flag r = Some (guard, level).
Proof.
  unfold fires. destruct (search _ _); [|done].
  destruct (flag r) as [[guard l]|]; [|done].
  destruct (_ && _); [|done]. intros [= ->]. eauto.
Qed.

Lemma elem_of_turn_writes text s k v :
  (k, v) ∈ turn_writes text s ->
  exists c t l,
    (k, v) ∈ call_writes c t l
    /\ (l = None \/ l = sess_last_slot s)
    /\ (c = sess_category s
        \/ detect_redirect (sess_category s) (Py.lower text) = Some c)
    /\ (t = text \/ t = "").
Proof.
  unfold turn_writes, prefill_writes. rewrite !elem_of_app. intros [H|[H|H]].
  - destruct (String.eqb _ _); [|by apply elem_of_nil in H].
    destruct (negb _); [|by apply elem_of_nil in H].
    exists (sess_category s), text, None. eauto 10.
  - exists (sess_category s), text, (sess_last_slot s). eauto 10.
  - destruct (detect_redirect _ _) as [c|] eqn:E; [|by apply elem_of_nil in H].
    apply elem_of_app in H as [H|H].
    + exists c, text, None. eauto 10.
    + exists c, "", None. eauto 10.
Qed.

Lemma last_write_call category text asked level :
  last (omap (fires (Py.lower text)) (category_rules category)) = Some level ->
  last_write "URGENCY_OVERRIDE" (call_writes category text asked) = Some level.
Proof.
  intros H. unfold call_writes, slot_writes. rewrite !last_write_app.
  assert (last_write "URGENCY_OVERRIDE" (redirect_writes category text) = None) as ->.
  { unfold redirect_writes. by destruct (detect_redirect _ _). }
  by rewrite last_write_cascade, H by apply category_rules_slots.
Qed.

(** ** Urgency within a turn *)

Lemma omap_cons_Some {A B} (f : A -> option B) x y l :
  f x = Some y -> omap f (x :: l) = y :: omap f l.
Proof. intros H. change (omap f (x :: l)) with
  (match f x with Some y => y :: omap f l | None => omap f l end). by rewrite H. Qed.

Lemma omap_cons_None {A B} (f : A -> option B) x l :
  f x = None -> omap f (x :: l) = omap f l.
Proof. intros H. change (omap f (x :: l)) with
  (match f x with Some y => y :: omap f l | None => omap f l end). by rewrite H. Qed.

(** Last write wins in a turn of a DERMATOLOGICAL session: an utterance on
    which the bleeding rule raises CRITICAL and the infection-signs rule
    raises HIGH, with none of the systemic terms in it, ends the turn with
    URGENCY_OVERRIDE = HIGH. *)
Lemma derma_turn_ends_high text s g :
  sess_category s = "DERMATOLOGICAL" ->
  fires (Py.lower text) derma_bleeding = Some "CRITICAL" ->
  fires (Py.lower text) derma_infection_signs = Some "HIGH" ->
  search (pattern derma_systemic) (Py.lower text) = None ->
  dict_get "URGENCY_OVERRIDE" (eng_clipboard (run_logic_engine text s g)) = Some "HIGH".
Proof.
  intros Hcat H1 H2 H3.
  destruct (engine_spec text s g) as (-> & _ & _).
  rewrite dict_get_apply_writes. unfold turn_writes. rewrite Hcat.
  change (detect_redirect "DERMATOLOGICAL" (Py.lower text)) with (@None string).
  rewrite app_nil_r, last_write_app.
  rewrite (last_write_call "DERMATOLOGICAL" text (sess_last_slot s) "HIGH"); [done|].
  change (category_rules "DERMATOLOGICAL") with DERMATOLOGICAL_rules.
  unfold DERMATOLOGICAL_rules. simpl omap. rewrite !fires_fill, H1, H2.
  assert (fires (Py.lower text) derma_systemic = None) as ->; [|done].
  unfold fires. by rewrite H3.
Qed.

(** ** Urgency across turns *)

Lemma detect_redirect_general category t target :
  detect_redirect category t = Some target -> category = "GENERAL_SYSTEMIC".
Proof.
  unfold detect_redirect. by destruct (String.eqb_spec category "GENERAL_SYSTEMIC").
Qed.

(** The assignments of a turn to URGENCY_OVERRIDE come from red-flag rules
    only, when the slot asked last is not that key; a HIGH can only be
    written in a session that started the turn in DERMATOLOGICAL or
    GENERAL_SYSTEMIC. *)
Lemma turn_urgency_writes text s v :
  sess_last_slot s <> Some "URGENCY_OVERRIDE" ->
  ("URGENCY_OVERRIDE", v) ∈ turn_writes text s ->
  v = "CRITICAL"
  \/ (v = "HIGH"
      /\ (sess_category s = "DERMATOLOGICAL" \/ sess_category s = "GENERAL_SYSTEMIC")).
Proof.
  intros Hlast (c & t & l & Hin & Hl & Hc & _)%elem_of_turn_writes.
  apply elem_of_call_writes in Hin
    as [->|[[[=] _]|[[[=] _]|[(r & Hr & Hk)|[[=] _]]]]].
  - destruct Hl as [[=]|Hl]. congruence.
  - pose proof (category_rules_facts c r Hr) as (Hs & _ & _ & Hlev).
    destruct Hk as [Hk|[_ Hf]]; [congruence|].
    apply fires_flag in Hf as [guard Hf].
    destruct (Hlev guard v Hf) as [?|[-> Hcat]]; [by left|right].
    split; [done|]. destruct Hc as [->|Hd]; [done|].
    right. by eapply detect_redirect_general.
Qed.

(** ** Redirects keep the facts gathered so far *)


(** ** The GASTROINTESTINAL question bank *)

Lemma gastro_no_question sub_group text cb asked g :
  get_next_question "GASTROINTESTINAL" sub_group text cb asked g
  = ((None, None), fill_slots "GASTROINTESTINAL" text cb asked, g).
Proof. reflexivity. Qed.

Lemma gastro_engine_completes text s g :
  sess_category s = "GASTROINTESTINAL" ->
  eng_next_q (run_logic_engine text s g) = None
  /\ eng_category (run_logic_engine text s g) = "GASTROINTESTINAL".
Proof.
  intros Hcat. unfold run_logic_engine, mini_router. rewrite Hcat.
  destruct (String.eqb _ _); [destruct (negb _)|]; by rewrite !gastro_no_question.
Qed.

(** C10. The bank the module ends up with has no GASTROINTESTINAL entry;
    hence for that category [get_next_question] returns [None, None] for
    every sub-group, utterance and clipboard, and a fresh conversation that
    is classified GASTROINTESTINAL is closed by its first request: the
    answer is never a question, and when the INSERT goes through it is the
    completion message, the case is created and the session is gone. *)
Theorem gastro_completes_on_first_turn db user_id text sessions g :
  sessions !! user_id = None ->
  classify text = "GASTROINTESTINAL" ->
  existing_case db = NoOpenCase ->
  let o := predict_disease db user_id text sessions g in
  dict_get "GASTROINTESTINAL" SPECIALIST_QUESTIONS = None
  /\ (forall sub_group utterance cb asked g',
        gnq_result (get_next_question "GASTROINTESTINAL" sub_group utterance cb asked g')
        = (None, None))
  /\ (forall q, out_response o <> Reply q false)
  /\ (insert_error db = None ->
      out_response o
      = Reply "Diagnosis Complete. I have sent your report to the Gastroenterologist." true
      /\ out_sessions o !! user_id = None
      /\ exists summary,
           out_writes o
           = [InsertConsultation user_id summary "GASTROINTESTINAL" "Normal"
                                 "Gastroenterologist" "PENDING"]).
Proof.
  intros Hfresh Hclass Hcase o. subst o.
  split; [reflexivity|]. split; [reflexivity|].
  unfold predict_disease. rewrite Hcase, Hfresh. simpl has_status. cbv iota.
  simpl default. rewrite Hclass. unfold run_turn, pending_update. rewrite Hcase.
  simpl has_status. cbv iota.
  destruct (gastro_engine_completes text (new_session "GASTROINTESTINAL") g eq_refl)
    as [Hq Hc].
  rewrite Hq, Hc. simpl Py.truthy. cbv iota. split.
  - intros q. by destruct (insert_error db).
  - intros ->. simpl. split_and!; [done|apply lookup_delete_eq|eauto].
Qed.

Lemma gastro_completes_on_first_turn_witness :
  let text := "I have severe stomach pain and vomiting for 2 days" in
  let o := predict_disease no_faults 7 text ∅ [] in
  ((∅ : gmap Z session) !! 7 = None
   /\ classify text = "GASTROINTESTINAL"
   /\ existing_case no_faults = NoOpenCase)
  /\ dict_get "GASTROINTESTINAL" SPECIALIST_QUESTIONS = None
  /\ (forall sub_group utterance cb asked g',
        gnq_result (get_next_question "GASTROINTESTINAL" sub_group utterance cb asked g')
        = (None, None))
  /\ (forall q, out_response o <> Reply q false)
  /\ (insert_error no_faults = None ->
      out_response o
      = Reply "Diagnosis Complete. I have sent your report to the Gastroenterologist." true
      /\ out_sessions o !! 7 = None
      /\ exists summary,
           out_writes o
           = [InsertConsultation 7 summary "GASTROINTESTINAL" "Normal"
                                 "Gastroenterologist" "PENDING"]).
Proof.
  intros text o. split.
  - split_and!; [reflexivity | vm_compute; reflexivity | reflexivity].
  - apply (gastro_completes_on_first_turn no_faults 7 text ∅ []);
      [reflexivity | vm_compute; reflexivity | reflexivity].
Defined.

(** ** Urgency and the record store *)

Lemma pending_update_cases db text :
  pending_update db text = []
  \/ pending_update db text
     = [UpdateConsultation (case_id_of (existing_case db))
                           (cat ["PATIENT REPLIED: "; text]) "PENDING"].
Proof.
  unfold pending_update. destruct (has_status _ _); [|by left].
  destruct (update db); auto.
Qed.

(** Whatever the clipboard holds, a case is created with urgency "Normal". *)
Lemma insert_urgency_is_normal db user_id text sessions g u sm c urg sp st :
  InsertConsultation u sm c urg sp st
    ∈ out_writes (predict_disease db user_id text sessions g) ->
  urg = "Normal".
Proof.
  unfold predict_disease, run_turn.
  destruct (pending_update_cases db text) as [-> | ->];
    destruct (existing_case db); simpl; try (by intros ?%elem_of_nil);
    repeat match goal with
    | |- context [if ?b then _ else _] => destruct b; simpl
    | |- context [match insert_error db with _ => _ end] =>
        destruct (insert_error db); simpl
    end;
    try (by intros ?%elem_of_nil);
    intros H; repeat (apply elem_of_cons in H as [H|H]);
    try (by apply elem_of_nil in H); by inversion H.
Qed.

(** C2 on a fresh RESPIRATORY conversation: the turn fills all three COUGH
    slots and raises URGENCY_OVERRIDE = CRITICAL (blood in the sputum); the
    case is created and the session closed, but the urgency handed to the
    record store is "Normal". *)
Theorem critical_case_stored_as_normal :
  let text := "I have a dry cough with blood for 2 days" in
  let e := run_logic_engine text (new_session (classify text)) [] in
  let o := predict_disease no_faults 7 text ∅ [] in
  dict_get "URGENCY_OVERRIDE" (eng_clipboard e) = Some "CRITICAL"
  /\ out_writes o
     = [InsertConsultation 7
          (generate_summary (eng_clipboard e) "RESPIRATORY")
          "RESPIRATORY" "Normal" "Pulmonologist" "PENDING"]
  /\ out_response o
     = Reply "Diagnosis Complete. I have sent your report to the Pulmonologist." true
  /\ out_sessions o !! 7 = None.
Proof. vm_compute. repeat split; reflexivity. Qed.

(** ** The hemoptysis flag *)

(** C5 on its own example: the only mention of blood, red or pink is at
    position 31 and is negated, the sputum rule matches "clear" at position
    12, which is not, and the turn raises URGENCY_OVERRIDE = CRITICAL. *)
Theorem hemoptysis_flag_despite_negation :
  let text := "coughing up clear mucus but no blood" in
  let r := get_next_question "RESPIRATORY" "COUGH" text [] None [] in
  mentions ["blood"; "red"; "pink"] (Py.lower text) = [31]
  /\ check_negation (Py.lower text) 31 = true
  /\ check_negation (Py.lower text) 12 = false
  /\ gnq_clipboard r = [("sputum", "clear"); ("URGENCY_OVERRIDE", "CRITICAL")].
Proof. vm_compute. repeat split; reflexivity. Qed.

(** ** The yes/no handler *)

Lemma call_writes_context category text asked :
  call_writes category text asked
  = context_writes asked text (Py.lower text) ++ call_writes category text None.
Proof. unfold call_writes, slot_writes. simpl. by rewrite <- !app_assoc. Qed.

(** C8, as the code has it.  When a slot was asked last turn, a negation
    writes the canned value for severity, triggers, sensation and spread and
    the utterance itself for any other slot, and an affirmation without a
    negation word writes the utterance; duration, severity and the category
    cascade still run on the same utterance afterwards, so the value is the
    one in the clipboard at the end of the call when none of them assigns
    the asked slot. *)
Theorem context_resolution category sub_group user_text cb slot g :
  slot <> "" ->
  slot ∉ (call_writes category user_text None).*1 ->
  let t := Py.lower user_text in
  let cb' :=
    gnq_clipboard (get_next_question category sub_group user_text cb (Some slot) g) in
  (found no_re t = true ->
     (slot = "severity" -> dict_get slot cb' = Some "mild symptoms")
     /\ (slot = "triggers" -> dict_get slot cb' = Some "no known triggers")
     /\ (slot = "sensation" -> dict_get slot cb' = Some "no pain or burning")
     /\ (slot = "spread" -> dict_get slot cb' = Some "no spread")
     /\ (slot ∉ ["severity"; "triggers"; "sensation"; "spread"] ->
         dict_get slot cb' = Some user_text))
  /\ (found no_re t = false -> found yes_re t = true ->
      dict_get slot cb' = Some user_text).
Proof.
  intros Hslot Hfree t cb'. subst t cb'.
  rewrite gnq_clipboard_writes, dict_get_apply_writes, call_writes_context,
    last_write_app.
  apply last_write_None in Hfree. rewrite Hfree. clear Hfree.
  unfold context_writes.
  assert (Py.truthy (Some slot) = true) as -> by by destruct slot.
  split.
  - intros ->. split_and!.
    + intros ->. reflexivity.
    + intros ->. reflexivity.
    + intros ->. reflexivity.
    + intros ->. reflexivity.
    + intros Hnot.
      repeat (case_eqb; [exfalso; apply Hnot; set_solver|]).
      simpl. by rewrite String.eqb_refl.
  - intros -> ->. simpl. by rewrite String.eqb_refl.
Qed.

Lemma context_resolution_witness :
  let text := "no, it doesn't hurt when I swallow" in
  let cb' :=
    gnq_clipboard
      (get_next_question "GASTROINTESTINAL" "ESOPHAGUS" text [] (Some "swallowing") []) in
  ("swallowing" <> ""
   /\ "swallowing" ∉ (call_writes "GASTROINTESTINAL" text None).*1)
  /\ (found no_re (Py.lower text) = true ->
        ("swallowing" = "severity" -> dict_get "swallowing" cb' = Some "mild symptoms")
        /\ ("swallowing" = "triggers" -> dict_get "swallowing" cb' = Some "no known triggers")
        /\ ("swallowing" = "sensation" -> dict_get "swallowing" cb' = Some "no pain or burning")
        /\ ("swallowing" = "spread" -> dict_get "swallowing" cb' = Some "no spread")
        /\ ("swallowing" ∉ ["severity"; "triggers"; "sensation"; "spread"] ->
            dict_get "swallowing" cb' = Some text))
  /\ (found no_re (Py.lower text) = false -> found yes_re (Py.lower text) = true ->
      dict_get "swallowing" cb' = Some text).
Proof.
  intros text cb'.
  assert ("swallowing" ∉ (call_writes "GASTROINTESTINAL" text None).*1) as Hfree.
  { vm_compute. intros H. by apply elem_of_nil in H. }
  split; [split; [discriminate | exact Hfree]|].
  apply (context_resolution "GASTROINTESTINAL" "ESOPHAGUS" text [] "swallowing" []);
    [discriminate | exact Hfree].
Defined.

(** C8, as stated, fails: the cascade still runs after the handler.  Asked
    for sensation, "no it does not itch" ends as "no itch", not the canned
    "no pain or burning"; asked for severity, "no it is not bad" ends as
    "bad", not "mild symptoms". *)
Lemma context_value_overwritten :
  dict_get "sensation"
    (gnq_clipboard (get_next_question "DERMATOLOGICAL" "RASH_ALLERGY"
                      "no it does not itch" [] (Some "sensation") []))
  = Some "no itch"
  /\ dict_get "severity"
       (gnq_clipboard (get_next_question "GENERAL_SYSTEMIC" "WINTER_VIRAL"
                         "no it is not bad" [] (Some "severity") []))
     = Some "bad".
Proof. vm_compute. split; reflexivity. Qed.

(** ** Negation in the cascade: the two examples of the specification *)

Example no_vomiting_today :
  gnq_clipboard (get_next_question "GASTROINTESTINAL" "STOMACH" "no vomiting today" [] None [])
  = [("vomiting", "no vomit")].
Proof. vm_compute. reflexivity. Qed.

Example vomiting_since_morning :
  gnq_clipboard
    (get_next_question "GASTROINTESTINAL" "STOMACH" "vomiting since morning" [] None [])
  = [("vomiting", "vomit")].
Proof. vm_compute. reflexivity. Qed.

(** * Further properties of the engine *)

(** ** Substrings and literal patterns *)

Lemma prefix_spec (w s : string) :
  String.prefix w s = true <-> exists rest, s = w +:+ rest.
Proof.
  revert w. induction s as [|b s IH]; intros [|a w]; simpl.
  - split; [by exists "" | done].
  - split; [done | intros (? & [=])].
  - split; [intros _; by exists (String b s) | done].
  - destruct (Ascii.ascii_dec a b) as [->|Hne].
    + rewrite IH. split; intros (rest & H); exists rest.
      * by rewrite append_cons, H.
      * rewrite append_cons in H. by injection H.
    + split; [done|]. intros (rest & H). rewrite append_cons in H. congruence.
Qed.

Lemma contains_nil w : Py.contains w "" = String.prefix w "".
Proof. unfold Py.contains. apply orb_false_r. Qed.

Lemma contains_cons w a s :
  Py.contains w (String a s) = String.prefix w (String a s) || Py.contains w s.
Proof. reflexivity. Qed.

Lemma contains_spec (w s : string) :
  Py.contains w s = true <-> exists pre post, s = pre +:+ w +:+ post.
Proof.
  induction s as [|a s IH].
  - rewrite contains_nil, prefix_spec. split.
    + intros (rest & H). by exists "", rest.
    + intros (pre & post & H). destruct pre; [by exists post|done].
  - rewrite contains_cons, orb_true_iff, prefix_spec, IH. split.
    + intros [(rest & H)|(pre & post & H)].
      * by exists "", rest.
      * exists (String a pre), post. by rewrite append_cons, H.
    + intros (pre & post & H). destruct pre as [|b pre].
      * left. by exists post.
      * right. rewrite append_cons in H. injection H as -> ->. eauto.
Qed.

Lemma found_Lit w t : found (Lit w) t = Py.contains w t.
Proof.
  apply eq_true_iff_eq. rewrite found_iff, contains_spec. split.
  - intros (pre & post & -> & H). apply run_Lit in H as (rest & H & _).
    simpl in H. subst post. eauto.
  - intros (pre & post & ->). exists pre, (w +:+ post). split; [done|].
    apply run_Lit. exists post. simpl. eauto.
Qed.

Lemma found_Alt r1 r2 t : found (r1 |:| r2) t = found r1 t || found r2 t.
Proof.
  apply eq_true_iff_eq. rewrite orb_true_iff, !found_iff. split.
  - intros (pre & post & -> & H). apply run_Alt in H as [H|H]; [left|right]; eauto.
  - intros [(pre & post & -> & H)|(pre & post & -> & H)];
      exists pre, post; (split; [done|]); apply run_Alt; eauto.
Qed.

(** A search for an alternation of literals succeeds exactly when one of
    its words occurs in the text. *)
Lemma found_plain r t : plain r = true -> found r t = Py.any_in (words r) t.
Proof.
  unfold Py.any_in. induction r as [w| | | |r1 IH1 r2 IH2|r1 IH1 r2 IH2];
    simpl; try done.
  - intros _. by rewrite found_Lit, orb_false_r.
  - intros [H1 H2]%andb_prop. by rewrite found_Alt, existsb_app, IH1, IH2.
Qed.

Lemma lower_char_idemp c : Py.lower_char (Py.lower_char c) = Py.lower_char c.
Proof. destruct c as [[] [] [] [] [] [] [] []]; reflexivity. Qed.

Lemma lower_idemp s : Py.lower (Py.lower s) = Py.lower s.
Proof. induction s as [|c s IH]; simpl; [done|]. by rewrite lower_char_idemp, IH. Qed.

(** ** The sub-group router and the classifier *)

Lemma first_subgroup_spec t (tbl : pydict (list string)) :
  "DEFAULT" ∉ tbl.*1 ->
  (first_subgroup t tbl = "DEFAULT" /\ Forall (fun e => Py.any_in e.2 t = false) tbl)
  \/ exists pre sg kws post,
       tbl = pre ++ (sg, kws) :: post
       /\ first_subgroup t tbl = sg /\ sg <> "DEFAULT"
       /\ Py.any_in kws t = true
       /\ Forall (fun e => Py.any_in e.2 t = false) pre.
Proof.
  induction tbl as [|[sg kws] tbl IH]; intros Hno; simpl.
  - left. split; [done|constructor].
  - rewrite fmap_cons in Hno. apply not_elem_of_cons in Hno as [Hsg Hno].
    destruct (Py.any_in kws t) eqn:E.
    + right. exists [], sg, kws, tbl. simpl. split_and!; try done; constructor.
    + destruct (IH Hno) as [[H1 H2]|(pre & sg' & kws' & post & -> & H1 & H2 & H3 & H4)].
      * left. split; [done|]. by constructor.
      * right. exists ((sg, kws) :: pre), sg', kws', post.
        split_and!; try done; by constructor.
Qed.

Lemma keyword_table_no_default category :
  "DEFAULT" ∉ (keyword_table category).*1.
Proof.
  unfold keyword_table. repeat case_eqb; vm_compute;
    intros H; repeat (apply elem_of_cons in H as [[=]|H]); by apply elem_of_nil in H.
Qed.

Lemma get_best_subgroup_first text category :
  get_best_subgroup text category
  = first_subgroup (Py.lower text) (keyword_table category).
Proof. unfold get_best_subgroup. by destruct (keyword_table category). Qed.

(** X1. The router answers with the first sub-group of the category's
    keyword table, in table order, one of whose keywords occurs in the
    lower-cased text; it answers DEFAULT exactly when no keyword of the
    table occurs (in particular for a category that has no table). *)
Theorem router_first_match text category :
  let t := Py.lower text in
  let tbl := keyword_table category in
  (get_best_subgroup text category = "DEFAULT"
   /\ Forall (fun e => Py.any_in e.2 t = false) tbl)
  \/ exists pre sg kws post,
       tbl = pre ++ (sg, kws) :: post
       /\ get_best_subgroup text category = sg /\ sg <> "DEFAULT"
       /\ Py.any_in kws t = true
       /\ Forall (fun e => Py.any_in e.2 t = false) pre.
Proof.
  intros t tbl. subst t tbl. rewrite get_best_subgroup_first.
  apply first_subgroup_spec, keyword_table_no_default.
Qed.

Lemma get_best_subgroup_range text category :
  get_best_subgroup text category ∈ "DEFAULT" :: (keyword_table category).*1.
Proof.
  rewrite get_best_subgroup_first.
  destruct (first_subgroup_spec (Py.lower text) (keyword_table category)
              (keyword_table_no_default category))
    as [[-> _]|(pre & sg & kws & post & -> & -> & _)].
  - apply elem_of_cons. by left.
  - apply elem_of_cons. right. rewrite fmap_app, fmap_cons.
    apply elem_of_app. right. apply elem_of_cons. by left.
Qed.

(** X2. Letter case never matters to the classifier or to the router, and
    with no question pending it does not matter to [get_next_question]
    either (the yes/no handler is the only place that keeps the utterance
    as typed). *)
Theorem case_insensitive text category sub_group cb g :
  classify (Py.lower text) = classify text
  /\ get_best_subgroup (Py.lower text) category = get_best_subgroup text category
  /\ get_next_question category sub_group (Py.lower text) cb None g
     = get_next_question category sub_group text cb None g.
Proof.
  split_and!.
  - unfold classify. by rewrite lower_idemp.
  - unfold get_best_subgroup. by rewrite lower_idemp.
  - unfold get_next_question, fill_slots, resolve_context. by rewrite lower_idemp.
Qed.

Lemma any_in_app l1 l2 t : Py.any_in (l1 ++ l2) t = Py.any_in l1 t || Py.any_in l2 t.
Proof. apply existsb_app. Qed.

Lemma classify_cases text :
  let t := Py.lower text in
  (classify text = "GENERAL_SYSTEMIC" /\ Py.any_in classifier_keywords t = false)
  \/ (classify text <> "GENERAL_SYSTEMIC" /\ classify text ∈ categories
      /\ Py.any_in classifier_keywords t = true).
Proof.
  intros t. subst t. unfold classify.
  change classifier_keywords with
    (["cough"; "breath"; "chest"; "wheeze"; "lung"]
     ++ ["head"; "dizzy"; "migraine"; "seizure"; "vision"; "faint"]
     ++ ["skin"; "rash"; "itch"; "blister"; "burn"; "hives"]
     ++ ["bone"; "fracture"; "knee"; "back"; "joint"; "swollen"]
     ++ ["stomach"; "vomit"; "puke"; "diarrhea"; "nausea"; "pain"]).
  rewrite !any_in_app.
  repeat (match goal with
          | |- context [if Py.any_in ?l ?t then _ else _] =>
              destruct (Py.any_in l t)
          end;
          [right; split_and!; [discriminate| |by rewrite ?orb_true_r];
           unfold categories; set_solver|]).
  by left.
Qed.

(** X3. The classifier answers GENERAL_SYSTEMIC exactly when none of its 29
    keywords occurs in the lower-cased text, and one of the five other
    categories otherwise. *)
Theorem classify_general_iff text :
  (classify text = "GENERAL_SYSTEMIC"
   <-> Py.any_in classifier_keywords (Py.lower text) = false)
  /\ classify text ∈ categories.
Proof.
  destruct (classify_cases text) as [[H1 H2]|(H1 & H2 & H3)].
  - split; [by split|]. rewrite H1. unfold categories. set_solver.
  - split; [|done]. split; [done|congruence].
Qed.

Lemma contains_trans a b t :
  Py.contains a b = true -> Py.contains b t = true -> Py.contains a t = true.
Proof.
  rewrite !contains_spec. intros (p1 & q1 & ->) (p2 & q2 & ->).
  exists (p2 +:+ p1), (q1 +:+ q2). by rewrite !append_assoc.
Qed.

Lemma contains_none a b t :
  Py.contains a b = true -> Py.contains a t = false -> Py.contains b t = false.
Proof.
  intros Hab Ha. destruct (Py.contains b t) eqn:E; [|done].
  by rewrite (contains_trans a b t Hab E) in Ha.
Qed.

(** X4. On the first utterance of a conversation the classifier has
    priority over the redirect checks: when it answers GENERAL_SYSTEMIC, none
    of its keywords is in the text, so a redirect in that same turn can only
    come from the few redirect words the classifier does not know: poop
    (GASTROINTESTINAL), asthma (RESPIRATORY), blind, double, slur
    (NEUROLOGICAL) and bump (DERMATOLOGICAL). *)
Theorem first_turn_redirect_words text target :
  classify text = "GENERAL_SYSTEMIC" ->
  detect_redirect "GENERAL_SYSTEMIC" (Py.lower text) = Some target ->
  let t := Py.lower text in
  (target = "GASTROINTESTINAL" /\ Py.contains "poop" t = true)
  \/ (target = "RESPIRATORY" /\ Py.contains "asthma" t = true)
  \/ (target = "NEUROLOGICAL" /\ Py.any_in ["blind"; "double"; "slur"] t = true)
  \/ (target = "DERMATOLOGICAL" /\ Py.contains "bump" t = true).
Proof.
  intros Hc Hd t. subst t.
  destruct (classify_cases text) as [[_ Hk]|[Hne _]]; [|done].
  unfold Py.any_in, classifier_keywords in Hk. simpl existsb in Hk.
  repeat (apply orb_false_elim in Hk as [? Hk]).
  assert (Py.contains "short of breath" (Py.lower text) = false) as Hsb
    by (by apply (contains_none "breath")).
  unfold detect_redirect in Hd. simpl String.eqb in Hd. cbv iota in Hd.
  unfold redirect_checks, first_redirect in Hd.
  rewrite !found_plain in Hd by reflexivity.
  unfold Py.any_in in *. simpl words in Hd. simpl existsb in Hd.
  repeat match goal with
         | H : Py.contains ?w _ = false |- _ => rewrite H in Hd; clear H
         end.
  simpl in Hd.
  repeat match type of Hd with
         | context [Py.contains ?w ?t] =>
             let E := fresh "E" in destruct (Py.contains w t) eqn:E; simpl in Hd
         end;
    try discriminate; injection Hd as <-; unfold Py.any_in; simpl;
    repeat match goal with
           | H : Py.contains _ _ = _ |- _ => rewrite H; clear H
           end;
    simpl; auto 10.
Qed.

Lemma first_turn_redirect_words_witness :
  let text := "I think I have asthma" in
  (classify text = "GENERAL_SYSTEMIC"
   /\ detect_redirect "GENERAL_SYSTEMIC" (Py.lower text) = Some "RESPIRATORY")
  /\ (("RESPIRATORY" = "GASTROINTESTINAL" /\ Py.contains "poop" (Py.lower text) = true)
      \/ ("RESPIRATORY" = "RESPIRATORY" /\ Py.contains "asthma" (Py.lower text) = true)
      \/ ("RESPIRATORY" = "NEUROLOGICAL"
          /\ Py.any_in ["blind"; "double"; "slur"] (Py.lower text) = true)
      \/ ("RESPIRATORY" = "DERMATOLOGICAL" /\ Py.contains "bump" (Py.lower text) = true)).
Proof.
  intros text. split.
  - split; vm_compute; reflexivity.
  - apply (first_turn_redirect_words text "RESPIRATORY"); vm_compute; reflexivity.
Defined.

(** ** Question selection *)

Lemma pick_spec bank category sub_group cb g :
  (pick_next_question bank category sub_group cb g).1
  = match first_missing (required_slots bank category sub_group) cb with
    | Some (slot, qs) => (Some (random_choice qs g).1, Some slot)
    | None => (None, None)
    end.
Proof.
  unfold pick_next_question, required_slots.
  destruct (first_missing _ _) as [[slot qs]|]; [|done].
  by destruct (random_choice qs g).
Qed.

Lemma first_missing_spec slots cb :
  (first_missing slots cb = None
   /\ forall e, e ∈ slots -> is_Some (dict_get e.1 cb))
  \/ exists pre slot qs post,
       slots = pre ++ (slot, qs) :: post
       /\ first_missing slots cb = Some (slot, qs)
       /\ dict_get slot cb = None
       /\ forall e, e ∈ pre -> is_Some (dict_get e.1 cb).
Proof.
  induction slots as [|[slot qs] slots IH]; simpl.
  - left. split; [done|]. by intros e ?%elem_of_nil.
  - destruct (dict_get slot cb) as [v|] eqn:E.
    + destruct IH as [[H1 H2]|(pre & sl & q & post & -> & H1 & H2 & H3)].
      * left. split; [done|]. intros e [->|?]%elem_of_cons; [simpl; eauto|auto].
      * right. exists ((slot, qs) :: pre), sl, q, post. split_and!; try done.
        intros e [->|?]%elem_of_cons; [simpl; eauto|auto].
    + right. exists [], slot, qs, slots. split_and!; try done.
      by intros e ?%elem_of_nil.
Qed.

Lemma random_choice_elem qs g : qs <> [] -> (random_choice qs g).1 ∈ qs.
Proof.
  intros Hne. assert (0 < length qs)%nat by (destruct qs; [done|simpl; lia]).
  unfold random_choice. destruct g as [|n g]; simpl;
    apply list_elem_of_In, nth_In; [lia|].
  apply Nat.mod_upper_bound. lia.
Qed.

Lemma required_slots_nonempty_lists category sub_group slot qs :
  (slot, qs) ∈ required_slots SPECIALIST_QUESTIONS category sub_group -> qs <> [].
Proof.
  unfold required_slots. intros Hin.
  destruct (dict_get category SPECIALIST_QUESTIONS) as [c|] eqn:Ec; simpl in Hin;
    [|by apply elem_of_nil in Hin].
  destruct (dict_get sub_group c) as [sl|] eqn:Es; simpl in Hin;
    [|by apply elem_of_nil in Hin].
  apply dict_get_elem in Ec, Es.
  pose proof bank_lists_nonempty as Hall. rewrite Forall_forall in Hall.
  apply Hall. unfold bank_question_lists.
  apply list_elem_of_In, in_flat_map. exists (category, c).
  split; [by apply list_elem_of_In|].
  apply in_flat_map. exists (sub_group, sl). split; [by apply list_elem_of_In|].
  simpl. apply list_elem_of_In, list_elem_of_fmap. by exists (slot, qs).
Qed.

Lemma gnq_no_redirect category sub_group text cb asked g :
  detect_redirect category (Py.lower text) = None ->
  gnq_result (get_next_question category sub_group text cb asked g)
  = (pick_next_question SPECIALIST_QUESTIONS category sub_group
       (gnq_clipboard (get_next_question category sub_group text cb asked g)) g).1.
Proof.
  intros H. unfold get_next_question, gnq_result, gnq_clipboard. rewrite H.
  destruct (pick_next_question SPECIALIST_QUESTIONS category sub_group
              (fill_slots category text cb asked) g) as [res g'] eqn:E.
  simpl. by rewrite E.
Qed.

(** X5. Question selection is sound.  When a call does not redirect, either
    it returns [None, None] and every slot of the (category, sub-group)
    list has a value in the clipboard it leaves, or it returns a question
    for the first slot of that list, in bank order, that has no value, and
    the question is one of the candidates listed for that slot. *)
Theorem question_selection_sound category sub_group text cb asked g :
  detect_redirect category (Py.lower text) = None ->
  let r := get_next_question category sub_group text cb asked g in
  let req := required_slots SPECIALIST_QUESTIONS category sub_group in
  (gnq_result r = (None, None)
   /\ forall e, e ∈ req -> is_Some (dict_get e.1 (gnq_clipboard r)))
  \/ exists pre slot qs post q,
       req = pre ++ (slot, qs) :: post
       /\ gnq_result r = (Some q, Some slot)
       /\ q ∈ qs
       /\ dict_get slot (gnq_clipboard r) = None
       /\ forall e, e ∈ pre -> is_Some (dict_get e.1 (gnq_clipboard r)).
Proof.
  intros Hd r req. subst r req. rewrite gnq_no_redirect, pick_spec by done.
  destruct (first_missing_spec
              (required_slots SPECIALIST_QUESTIONS category sub_group)
              (gnq_clipboard (get_next_question category sub_group text cb asked g)))
    as [[-> H]|(pre & slot & qs & post & Hreq & -> & H1 & H2)].
  - by left.
  - right. exists pre, slot, qs, post, (random_choice qs g).1.
    split_and!; try done. apply random_choice_elem.
    apply (required_slots_nonempty_lists category sub_group slot).
    rewrite Hreq. apply elem_of_app. right. apply elem_of_cons. by left.
Qed.

Lemma question_selection_sound_witness :
  let text := "I have a bad cough" in
  let r := get_next_question "RESPIRATORY" "COUGH" text [] None [2%nat] in
  let req := required_slots SPECIALIST_QUESTIONS "RESPIRATORY" "COUGH" in
  detect_redirect "RESPIRATORY" (Py.lower text) = None
  /\ ((gnq_result r = (None, None)
       /\ forall e, e ∈ req -> is_Some (dict_get e.1 (gnq_clipboard r)))
      \/ exists pre slot qs post q,
           req = pre ++ (slot, qs) :: post
           /\ gnq_result r = (Some q, Some slot)
           /\ q ∈ qs
           /\ dict_get slot (gnq_clipboard r) = None
           /\ forall e, e ∈ pre -> is_Some (dict_get e.1 (gnq_clipboard r))).
Proof.
  intros text r req. split; [reflexivity|].
  apply (question_selection_sound "RESPIRATORY" "COUGH" text [] None [2%nat]).
  reflexivity.
Defined.

(** ** One turn of the engine, in full *)

Ltac gnq_destruct_full :=
  match goal with
  | |- context [get_next_question ?c ?sg ?t ?cb ?l ?g] =>
      let Hw := fresh "Hw" in
      let Hs := fresh "Hs" in
      let Hp := fresh "Hp" in
      pose proof (gnq_clipboard_writes c sg t cb l g) as Hw;
      pose proof (gnq_spec c sg t cb l g) as Hs;
      pose proof (gnq_no_redirect c sg t cb l g) as Hp;
      destruct (get_next_question c sg t cb l g) as [[[? ?] ?] ?];
      unfold gnq_clipboard, gnq_result in Hw, Hs, Hp; cbn [fst snd] in Hw, Hs, Hp
  end.

Lemma mini_router_spec text category sub cb g :
  exists g0,
    mini_router text category sub cb g
    = (routed_subgroup text category sub,
       apply_writes
         (if String.eqb sub "DEFAULT" then
            if negb (String.eqb (get_best_subgroup text category) "DEFAULT")
            then call_writes category text None else []
          else []) cb,
       g0).
Proof.
  unfold mini_router, routed_subgroup.
  destruct (String.eqb_spec sub "DEFAULT") as [->|?]; [|by eauto].
  cbv zeta. destruct (String.eqb_spec (get_best_subgroup text category) "DEFAULT")
    as [->|?]; simpl; [by eauto|].
  rewrite gnq_clipboard_writes. eauto.
Qed.

Lemma engine_spec_full text s g :
  let e := run_logic_engine text s g in
  let redirect := detect_redirect (sess_category s) (Py.lower text) in
  eng_clipboard e = apply_writes (turn_writes text s) (sess_clipboard s)
  /\ eng_category e = default (sess_category s) redirect
  /\ eng_subgroup e
     = match redirect with
       | Some c => get_best_subgroup text c
       | None => routed_subgroup text (sess_category s) (sess_subgroup s)
       end
  /\ exists g',
       (eng_next_q e, eng_slot e)
       = (pick_next_question SPECIALIST_QUESTIONS (eng_category e) (eng_subgroup e)
            (eng_clipboard e) g').1.
Proof.
  unfold run_logic_engine, turn_writes, prefill_writes.
  destruct s as [cb sub last category status]. cbn [sess_clipboard sess_subgroup
    sess_last_slot sess_category sess_status].
  destruct (mini_router_spec text category sub cb g) as [g0 ->].
  rewrite !apply_writes_app.
  gnq_destruct_full. rewrite <- Hw. clear Hw.
  destruct (detect_redirect category (Py.lower text)) as [target|] eqn:Ed.
  - destruct Hs as [[= -> ->] Hget]. rewrite bool_decide_eq_true_2 by done.
    unfold item, get_or. rewrite Hget. simpl default. clear Hp.
    rewrite apply_writes_app.
    gnq_destruct_full. rewrite <- Hw. clear Hw Hs Hp.
    gnq_destruct_full. rewrite <- Hw. clear Hw Hs.
    specialize (Hp (detect_redirect_target _ _ _ Ed _)). simpl.
    split_and!; [done..|]. eexists. exact Hp.
  - specialize (Hp eq_refl). simpl.
    destruct Hs as [[= -> ->]|(q & slot & [= -> ->] & H & Hne)].
    + rewrite bool_decide_eq_false_2 by done. simpl. split_and!; [done..|].
      eexists. exact Hp.
    + rewrite bool_decide_eq_false_2 by congruence. simpl.
      split_and!; [done..|]. eexists. exact Hp.
Qed.

(** ** What a call does to the clipboard *)

Lemma context_writes_yes_no asked user_text t k v :
  (k, v) ∈ context_writes asked user_text t ->
  asked = Some k /\ (found no_re t || found yes_re t) = true.
Proof.
  intros H. split; [by eapply elem_of_context_writes|].
  unfold context_writes in H. destruct asked as [slot|]; [|by apply elem_of_nil in H].
  destruct (Py.truthy _); [|by apply elem_of_nil in H].
  destruct (found no_re t); [done|].
  destruct (found yes_re t); [done|by apply elem_of_nil in H].
Qed.

Lemma call_writes_key category text asked k v :
  (k, v) ∈ call_writes category text asked ->
  (asked = Some k /\ (found no_re (Py.lower text) || found yes_re (Py.lower text)) = true)
  \/ k ∈ reserved_keys
  \/ k ∈ (slot <$> category_rules category).
Proof.
  rewrite call_writes_context. intros [H|H]%elem_of_app.
  - left. by eapply context_writes_yes_no.
  - right. apply elem_of_call_writes in H.
    destruct H as [Hnone|[[-> _]|[[-> _]|[(r & Hr & Hk)|[-> _]]]]];
      try discriminate Hnone;
      unfold reserved_keys; try (left; set_solver).
    destruct Hk as [->|[-> _]]; [right|left; set_solver].
    apply list_elem_of_fmap. eauto.
Qed.

(** X6. A call of [get_next_question] never removes a fact, and it leaves a
    key's value as it was unless the key is the slot asked last and the
    utterance has a yes/no word, or one of duration, severity,
    URGENCY_OVERRIDE, category_redirect, or a slot of the category's rule
    table; a changed key has a value afterwards. *)
Theorem call_keeps_facts category sub_group text cb asked g k :
  let cb' := gnq_clipboard (get_next_question category sub_group text cb asked g) in
  dict_get k cb' = dict_get k cb
  \/ (is_Some (dict_get k cb')
      /\ ((asked = Some k
           /\ (found no_re (Py.lower text) || found yes_re (Py.lower text)) = true)
          \/ k ∈ reserved_keys
          \/ k ∈ (slot <$> category_rules category))).
Proof.
  intros cb'. subst cb'. rewrite gnq_clipboard_writes, dict_get_apply_writes.
  destruct (last_write _ _) as [v|] eqn:E; [right|by left].
  split; [eauto|]. apply last_write_Some_elem in E. by eapply call_writes_key.
Qed.





(** ** The handler, request by request *)

Lemma engine_question text s g :
  let e := run_logic_engine text s g in
  match first_missing
          (required_slots SPECIALIST_QUESTIONS (eng_category e) (eng_subgroup e))
          (eng_clipboard e) with
  | Some (sl, qs) =>
      eng_slot e = Some sl /\ exists q, eng_next_q e = Some q /\ q ∈ qs
  | None => eng_next_q e = None /\ eng_slot e = None
  end.
Proof.
  intros e. destruct (engine_spec_full text s g) as (_ & _ & _ & g' & Hq).
  fold e in Hq. rewrite pick_spec in Hq.
  destruct (first_missing _ _) as [[sl qs]|] eqn:E.
  - injection Hq as Hn Hs. split; [done|]. eexists. split; [done|].
    apply random_choice_elem.
    eapply required_slots_nonempty_lists, first_missing_elem, E.
  - by injection Hq.
Qed.

Lemma run_turn_question db user_id text s sessions g m :
  let out := run_turn db user_id text s sessions g in
  out_response out = Reply m false ->
  out_writes out = []
  /\ exists s' sl qs,
       out_sessions out !! user_id = Some s'
       /\ sess_last_slot s' = Some sl
       /\ first_missing
            (required_slots SPECIALIST_QUESTIONS (sess_category s') (sess_subgroup s'))
            (sess_clipboard s') = Some (sl, qs)
       /\ dict_get sl (sess_clipboard s') = None
       /\ m ∈ qs.
Proof.
  unfold run_turn. pose proof (engine_question text s g) as He. cbv zeta in He.
  destruct (Py.truthy _) eqn:Et; simpl.
  - intros [= <-]. split; [done|].
    destruct (first_missing _ _) as [[sl qs]|] eqn:E.
    + destruct He as (Hs & q & Hq & Hin). rewrite lookup_insert_eq.
      eexists _, sl, qs. split; [done|]. simpl. rewrite Hq. simpl.
      split_and!; try done. by apply first_missing_elem in E as [_ ?].
    + destruct He as [Hn _]. by rewrite Hn in Et.
  - by destruct (insert_error db).
Qed.

(** X8. When the handler answers with a question (an unlocked reply), it
    has committed nothing, and the session it stores for the user records
    the slot asked: that slot is the first one of the stored category and
    sub-group's list without a value in the stored clipboard, and the
    message is one of the questions the bank lists for it. *)
Theorem question_reply_slot_open db user_id text sessions g m :
  let out := predict_disease db user_id text sessions g in
  out_response out = Reply m false ->
  out_writes out = []
  /\ exists s' sl qs,
       out_sessions out !! user_id = Some s'
       /\ sess_last_slot s' = Some sl
       /\ first_missing
            (required_slots SPECIALIST_QUESTIONS (sess_category s') (sess_subgroup s'))
            (sess_clipboard s') = Some (sl, qs)
       /\ dict_get sl (sess_clipboard s') = None
       /\ m ∈ qs.
Proof.
  unfold predict_disease.
  destruct (existing_case db) as [detail| |case_id status]; simpl; [done|..].
  - apply run_turn_question.
  - destruct (String.eqb status "PENDING"); [done|].
    destruct (String.eqb status "NEEDS_INFO" && update_ok db); [done|].
    apply run_turn_question.
Qed.

Lemma question_reply_slot_open_witness :
  let out := predict_disease no_faults 1 "I have a bad cough" ∅ [0%nat] in
  let m := "Is your cough dry and tickly, or are you bringing up mucus (wet cough)?" in
  out_response out = Reply m false
  /\ out_writes out = []
  /\ exists s' sl qs,
       out_sessions out !! 1%Z = Some s'
       /\ sess_last_slot s' = Some sl
       /\ first_missing
            (required_slots SPECIALIST_QUESTIONS (sess_category s') (sess_subgroup s'))
            (sess_clipboard s') = Some (sl, qs)
       /\ dict_get sl (sess_clipboard s') = None
       /\ m ∈ qs.
Proof.
  intros out m. split; [reflexivity|].
  apply (question_reply_slot_open no_faults 1 "I have a bad cough" ∅ [0%nat] m).
  reflexivity.
Defined.

Lemma detect_redirect_in_targets category t target :
  detect_redirect category t = Some target -> target ∈ redirect_targets.
Proof.
  unfold detect_redirect. destruct (String.eqb _ _); [|done].
  unfold first_redirect, redirect_checks, redirect_targets.
  repeat (destruct (found _ _); [intros [= <-]; set_solver|]). done.
Qed.

(** X9. Where a turn of the logic engine leaves the routing state.  Either
    the category is the session's and the sub-group is the session's when
    that is not DEFAULT (a sub-group once found is kept) and the router's
    answer when it is; or the session was in GENERAL_SYSTEMIC, the category
    is now one of the four redirect targets and the sub-group is the
    router's answer for the new category. *)
Theorem turn_routing text s g :
  let e := run_logic_engine text s g in
  (eng_category e = sess_category s
   /\ eng_subgroup e = routed_subgroup text (sess_category s) (sess_subgroup s))
  \/ (sess_category s = "GENERAL_SYSTEMIC"
      /\ eng_category e ∈ redirect_targets
      /\ eng_subgroup e = get_best_subgroup text (eng_category e)).
Proof.
  intros e. destruct (engine_spec_full text s g) as (_ & Hc & Hs & _).
  fold e in Hc, Hs. rewrite Hc, Hs.
  destruct (detect_redirect _ _) as [target|] eqn:Ed; simpl; [right|by left].
  split; [by eapply detect_redirect_general|]. split; [|done].
  by eapply detect_redirect_in_targets.
Qed.

(** X10. A request touches no other user's session. *)
Theorem other_sessions_untouched db user_id text sessions g u :
  u <> user_id ->
  out_sessions (predict_disease db user_id text sessions g) !! u = sessions !! u.
Proof.
  intros Hne.
  assert (forall s,
    out_sessions (run_turn db user_id text s (<[user_id := s]> sessions) g) !! u
    = sessions !! u) as Hturn.
  { intros s. unfold run_turn.
    destruct (Py.truthy _); [|destruct (insert_error db)]; simpl;
      by rewrite ?lookup_delete_ne, ?lookup_insert_ne. }
  unfold predict_disease.
  destruct (existing_case db) as [detail| |case_id status]; simpl; [done|..].
  - apply Hturn.
  - destruct (String.eqb status "PENDING"); [done|].
    destruct (String.eqb status "NEEDS_INFO" && update_ok db); simpl.
    + by rewrite lookup_delete_ne, lookup_insert_ne.
    + apply Hturn.
Qed.

Lemma other_sessions_untouched_witness :
  let sessions := out_sessions (predict_disease no_faults 2 "my knee hurts" ∅ []) in
  2%Z <> 1%Z
  /\ sessions !! 2%Z = Some (Session [] "JOINTS" (Some "stiffness")
                               "ORTHOPEDIC" "ACTIVE")
  /\ out_sessions (predict_disease no_faults 1 "I have a bad cough" sessions [])
       !! 2%Z = sessions !! 2%Z.
Proof.
  intros sessions. split; [done|]. split; [reflexivity|].
  apply (other_sessions_untouched no_faults 1 "I have a bad cough" sessions [] 2). done.
Defined.

(** X11. Whenever a request commits anything, every row it writes is left
    PENDING, the reply is locked, and the user's session is gone from
    [active_sessions] while all others are as they were.  It commits a
    single statement, except when the UPDATE of a NEEDS_INFO case was
    executed and its commit raised: the statement is still pending on the
    connection, and the commit of the INSERT that closes the case commits
    both, the UPDATE first. *)
Theorem commit_closes_session db user_id text sessions g w :
  let out := predict_disease db user_id text sessions g in
  w ∈ out_writes out ->
  write_status w = "PENDING"
  /\ out_sessions out = delete user_id sessions
  /\ (exists m, out_response out = Reply m true)
  /\ (out_writes out = [w]
      \/ exists case_id summary category specialist,
           existing_case db = OpenCase case_id "NEEDS_INFO"
           /\ update db = UpdateCommitRaises
           /\ out_writes out
              = [UpdateConsultation case_id (cat ["PATIENT REPLIED: "; text]) "PENDING";
                 InsertConsultation user_id summary category "Normal" specialist
                                    "PENDING"]).
Proof.
  assert (forall s, delete user_id (<[user_id := s]> sessions) = delete user_id sessions)
    as Hdel by (intros; apply delete_insert_eq).
  unfold predict_disease, run_turn, pending_update, update_ok.
  destruct (existing_case db) as [detail| |case_id status]; simpl;
    [by intros ?%elem_of_nil|..].
  - destruct (Py.truthy _); simpl; [by intros ?%elem_of_nil|].
    destruct (insert_error db); simpl; [by intros ?%elem_of_nil|].
    intros ->%list_elem_of_singleton. rewrite Hdel. eauto 10.
  - destruct (String.eqb status "PENDING"); simpl; [by intros ?%elem_of_nil|].
    destruct (String.eqb_spec status "NEEDS_INFO") as [->|?]; simpl.
    + destruct (update db); simpl.
      * intros ->%list_elem_of_singleton. rewrite Hdel. eauto 10.
      * destruct (Py.truthy _); simpl; [by intros ?%elem_of_nil|].
        destruct (insert_error db); simpl; [by intros ?%elem_of_nil|].
        intros ->%list_elem_of_singleton. rewrite Hdel. eauto 10.
      * destruct (Py.truthy _); simpl; [by intros ?%elem_of_nil|].
        destruct (insert_error db); simpl; [by intros ?%elem_of_nil|].
        rewrite Hdel. intros Hw.
        assert (write_status w = "PENDING") as Hst.
        { apply elem_of_cons in Hw as [->|Hw]; [done|].
          by apply list_elem_of_singleton in Hw as ->. }
        split_and!; [done|done|eauto|]. right. eauto 10.
    + destruct (Py.truthy _); simpl; [by intros ?%elem_of_nil|].
      destruct (insert_error db); simpl; [by intros ?%elem_of_nil|].
      intros ->%list_elem_of_singleton. rewrite Hdel. eauto 10.
Qed.

Lemma commit_closes_session_witness :
  let db := Store (OpenCase 7 "NEEDS_INFO") UpdateCommitRaises None in
  let text := "my stomach hurts since monday" in
  let out := predict_disease db 1 text ∅ [] in
  let w := UpdateConsultation 7 "PATIENT REPLIED: my stomach hurts since monday"
                              "PENDING" in
  w ∈ out_writes out
  /\ write_status w = "PENDING"
  /\ out_sessions out = delete 1%Z ∅
  /\ (exists m, out_response out = Reply m true)
  /\ (out_writes out = [w]
      \/ exists case_id summary category specialist,
           existing_case db = OpenCase case_id "NEEDS_INFO"
           /\ update db = UpdateCommitRaises
           /\ out_writes out
              = [UpdateConsultation case_id (cat ["PATIENT REPLIED: "; text]) "PENDING";
                 InsertConsultation 1 summary category "Normal" specialist
                                    "PENDING"]).
Proof.
  intros db text out w.
  assert (w ∈ out_writes out) as Hin by (apply list_elem_of_In; left; reflexivity).
  split; [exact Hin|].
  exact (commit_closes_session db 1 text ∅ [] w Hin).
Defined.

(** ** What the report reads *)

Lemma symptoms_list_set k v cb :
  k ∈ metadata_keys -> symptoms_list (dict_set k v cb) = symptoms_list cb.
Proof.
  intros Hk.
  assert (existsb (String.eqb k) metadata_keys = true) as Hm.
  { apply existsb_exists. exists k. split; [by apply list_elem_of_In|].
    apply String.eqb_refl. }
  induction cb as [|[k' v'] cb IH]; cbn [dict_set symptoms_list].
  - by rewrite Hm.
  - destruct (String.eqb_spec k k') as [<-|Hne]; cbn [symptoms_list].
    + by rewrite Hm.
    + by rewrite IH.
Qed.

Lemma generate_summary_ext cb1 cb2 category :
  (forall k, k ∉ ["URGENCY_OVERRIDE"; "category_redirect"] ->
     dict_get k cb1 = dict_get k cb2) ->
  symptoms_list cb1 = symptoms_list cb2 ->
  generate_summary cb1 category = generate_summary cb2 category.
Proof.
  intros H Hs.
  unfold generate_summary, add_if_present, item, get_or, dict_mem. rewrite Hs.
  simpl omap.
  repeat match goal with
         | |- context [dict_get ?k cb1] =>
             rewrite (H k)
               by (rewrite !not_elem_of_cons; split_and!;
                   [discriminate..|apply not_elem_of_nil])
         end.
  reflexivity.
Qed.

(** X12. The report never reads the urgency flag or the redirect stamp:
    assigning either key in the clipboard, to any value, leaves the summary
    of every category as it was. *)
Theorem summary_ignores_flags cb category v :
  generate_summary (dict_set "URGENCY_OVERRIDE" v cb) category
  = generate_summary cb category
  /\ generate_summary (dict_set "category_redirect" v cb) category
     = generate_summary cb category.
Proof.
  split; apply generate_summary_ext;
    try (apply symptoms_list_set; unfold metadata_keys; set_solver);
    intros k Hk; apply dict_get_set_ne; intros <-; apply Hk; set_solver.
Qed.

(** ** The bank and the router *)

(** X13. For every category but GASTROINTESTINAL, whatever sub-group the
    router answers (DEFAULT included) has a list of questions in the bank as
    the program leaves it; for GASTROINTESTINAL the list is empty whatever
    the router answers. *)
Theorem bank_covers_router text category :
  category ∈ categories ->
  required_slots SPECIALIST_QUESTIONS category (get_best_subgroup text category) = []
  <-> category = "GASTROINTESTINAL".
Proof.
  intros Hc. pose proof (get_best_subgroup_range text category) as Hr.
  revert Hr. generalize (get_best_subgroup text category). intros sub Hr.
  unfold categories in Hc.
  repeat (apply elem_of_cons in Hc as [->|Hc]); [..|by apply elem_of_nil in Hc];
    apply list_elem_of_In in Hr; vm_compute in Hr;
    repeat (destruct Hr as [<-|Hr]); try done;
    (split; intros H;
     first [discriminate H | reflexivity
           | (vm_compute in H; discriminate H) | (vm_compute; reflexivity)]).
Qed.

Lemma bank_covers_router_witness :
  "NEUROLOGICAL" ∈ categories
  /\ (required_slots SPECIALIST_QUESTIONS "NEUROLOGICAL"
        (get_best_subgroup "I fainted yesterday" "NEUROLOGICAL") = []
      <-> "NEUROLOGICAL" = "GASTROINTESTINAL").
Proof.
  assert ("NEUROLOGICAL" ∈ categories) as H by (unfold categories; set_solver).
  split; [exact H|]. exact (bank_covers_router "I fainted yesterday" "NEUROLOGICAL" H).
Defined.

(** ** Stored sessions, whatever the requests *)

Lemma urgency_not_a_slot : "URGENCY_OVERRIDE" ∉ bank_slots SPECIALIST_QUESTIONS.
Proof. rewrite list_elem_of_In. vm_compute. intuition discriminate. Qed.

Lemma redirect_targets_categories c : c ∈ redirect_targets -> c ∈ categories.
Proof. unfold redirect_targets, categories. set_solver. Qed.

Lemma session_wf_new text : session_wf (new_session (classify text)).
Proof.
  unfold session_wf, new_session. simpl. split_and!; try done.
  - destruct (classify_cases text) as [[-> _]|(_ & H & _)]; [|done].
    unfold categories. set_solver.
  - apply elem_of_cons. by left.
Qed.

Lemma engine_wf text s g asked :
  session_wf s ->
  let e := run_logic_engine text s g in
  asked = sess_last_slot s \/ asked = eng_slot e ->
  session_wf (Session (eng_clipboard e) (eng_subgroup e) asked (eng_category e)
                      (sess_status s)).
Proof.
  intros (Hcat & Hsub & Hst & Hlast & Hurg) e Hasked.
  destruct (engine_spec_full text s g) as (Hcb & Hc & Hs & g' & Hq).
  fold e in Hcb, Hc, Hs, Hq. unfold session_wf.
  cbn [sess_clipboard sess_subgroup sess_last_slot sess_category sess_status].
  rewrite Hc, Hs. split_and!.
  - destruct (detect_redirect _ _) as [target|] eqn:Ed; simpl; [|done].
    by eapply redirect_targets_categories, detect_redirect_in_targets.
  - destruct (detect_redirect _ _) as [target|] eqn:Ed; simpl.
    + apply get_best_subgroup_range.
    + unfold routed_subgroup. destruct (String.eqb _ _); [|done].
      apply get_best_subgroup_range.
  - done.
  - intros sl Hsl. destruct Hasked as [->| ->]; [by apply Hlast|].
    rewrite Hsl in Hq.
    pose proof (pick_next_question_result SPECIALIST_QUESTIONS (eng_category e)
                  (eng_subgroup e) (eng_clipboard e) g') as Hr.
    cbv zeta in Hr. destruct Hr as [Hr|(q & sl' & Hr & _)].
    + rewrite Hr in Hq. discriminate.
    + eapply pick_slot_in_bank. rewrite Hr in Hq. injection Hq as _ ->. exact Hr.
  - intros v. rewrite Hcb, dict_get_apply_writes.
    destruct (last_write _ _) as [v'|] eqn:El; [|apply Hurg].
    intros [= ->]. apply last_write_Some_elem, turn_urgency_writes in El.
    + destruct El as [->|[-> _]]; set_solver.
    + intros Hl. by apply urgency_not_a_slot, Hlast.
Qed.

Lemma run_turn_wf db user_id text s sessions g :
  session_wf s ->
  (forall u s0, sessions !! u = Some s0 -> session_wf s0) ->
  forall u s0,
    out_sessions (run_turn db user_id text s sessions g) !! u = Some s0 ->
    session_wf s0.
Proof.
  intros Hs Hok u s0. unfold run_turn.
  destruct (Py.truthy _); [|destruct (insert_error db)]; simpl;
    (destruct (decide (u = user_id)) as [->|Hne];
     [rewrite ?lookup_insert_eq, ?lookup_delete_eq
     |rewrite ?lookup_insert_ne, ?lookup_delete_ne by done; apply Hok]);
    try done; intros [= <-]; apply engine_wf; auto.
Qed.

Lemma predict_disease_wf db user_id text sessions g :
  (forall u s0, sessions !! u = Some s0 -> session_wf s0) ->
  forall u s0,
    out_sessions (predict_disease db user_id text sessions g) !! u = Some s0 ->
    session_wf s0.
Proof.
  intros Hok. unfold predict_disease.
  assert (session_wf (default (new_session (classify text)) (sessions !! user_id)))
    as Hs.
  { destruct (sessions !! user_id) as [s1|] eqn:E; simpl; [by eapply Hok|].
    apply session_wf_new. }
  assert (forall u s0,
    <[user_id := default (new_session (classify text)) (sessions !! user_id)]>
      sessions !! u = Some s0 -> session_wf s0) as Hok'.
  { intros u s0. destruct (decide (u = user_id)) as [->|Hne].
    - rewrite lookup_insert_eq. by intros [= <-].
    - rewrite lookup_insert_ne by done. apply Hok. }
  destruct (existing_case db) as [detail| |case_id status] eqn:Ee; simpl; [done|..].
  - by apply run_turn_wf.
  - destruct (String.eqb status "PENDING"); [done|].
    destruct (String.eqb status "NEEDS_INFO" && update_ok db).
    + simpl. intros u s0. destruct (decide (u = user_id)) as [->|Hne].
      * by rewrite lookup_delete_eq.
      * rewrite lookup_delete_ne by done. apply Hok'.
    + by apply run_turn_wf.
Qed.

(** X14. An invariant of [active_sessions] under any sequence of requests,
    failed statements included: every stored session has one of the six
    categories, a sub-group that is DEFAULT or a key of its category's
    keyword table, the status ACTIVE, a last slot (if any) that is a slot
    of the bank, and an urgency flag (if any) that is CRITICAL or HIGH. *)
Theorem stored_sessions_wf sessions u s :
  stored sessions -> sessions !! u = Some s -> session_wf s.
Proof.
  intros H. revert u s. induction H as [|db user_id text sessions g _ IH].
  - intros u s. by rewrite lookup_empty.
  - by apply predict_disease_wf.
Qed.

Lemma stored_sessions_wf_witness :
  let db := Store NoOpenCase UpdateCommitted (Some "disk full") in
  let sessions := out_sessions (predict_disease db 1 "my stomach hurts" ∅ []) in
  let s := Session [] "DEFAULT" None "GASTROINTESTINAL" "ACTIVE" in
  stored sessions /\ sessions !! 1%Z = Some s /\ session_wf s.
Proof.
  intros db sessions s.
  assert (stored sessions) as Hst by apply stored_request, stored_start.
  assert (sessions !! 1%Z = Some s) as Hl by reflexivity.
  split; [exact Hst|]. split; [exact Hl|].
  exact (stored_sessions_wf sessions 1 s Hst Hl).
Defined.

(** ** The command-line loop and the request handler *)

Lemma first_missing_ext slots cb1 cb2 :
  (forall k, dict_get k cb1 = dict_get k cb2) ->
  first_missing slots cb1 = first_missing slots cb2.
Proof.
  intros H. induction slots as [|[sl qs] slots IH]; simpl; [done|].
  by rewrite H, IH.
Qed.

Lemma required_slots_bank_lists category sub_group slot qs :
  (slot, qs) ∈ required_slots SPECIALIST_QUESTIONS category sub_group ->
  In qs (bank_question_lists SPECIALIST_QUESTIONS).
Proof.
  unfold required_slots. intros Hin.
  destruct (dict_get category SPECIALIST_QUESTIONS) as [c|] eqn:Ec; simpl in Hin;
    [|by apply elem_of_nil in Hin].
  destruct (dict_get sub_group c) as [sl|] eqn:Es; simpl in Hin;
    [|by apply elem_of_nil in Hin].
  apply dict_get_elem in Ec, Es. unfold bank_question_lists.
  apply in_flat_map. exists (category, c).
  split; [by apply list_elem_of_In|].
  apply in_flat_map. exists (sub_group, sl). split; [by apply list_elem_of_In|].
  simpl. apply list_elem_of_In, list_elem_of_fmap. by exists (slot, qs).
Qed.

(** No question of the bank is the empty string, so [if next_q:] tells a
    question from [None]. *)
Lemma question_truthy category sub_group slot qs q :
  (slot, qs) ∈ required_slots SPECIALIST_QUESTIONS category sub_group ->
  q ∈ qs -> Py.truthy (Some q) = true.
Proof.
  intros Hin Hq. apply required_slots_bank_lists in Hin.
  assert (forallb (forallb (fun q => Py.truthy (Some q)))
            (bank_question_lists SPECIALIST_QUESTIONS) = true) as Hall
    by (vm_compute; reflexivity).
  rewrite forallb_forall in Hall. specialize (Hall qs Hin).
  rewrite forallb_forall in Hall. apply Hall. by apply list_elem_of_In.
Qed.

Lemma loyalty_check_routed text category sub :
  (if String.eqb sub "DEFAULT" then
     if negb (String.eqb (get_best_subgroup text category) "DEFAULT")
     then get_best_subgroup text category else sub
   else sub) = routed_subgroup text category sub.
Proof.
  unfold routed_subgroup. destruct (String.eqb_spec sub "DEFAULT") as [->|?]; [|done].
  by destruct (String.eqb_spec (get_best_subgroup text category) "DEFAULT") as [->|?].
Qed.

Lemma cli_turn_spec text st g :
  existsb (String.eqb (Py.lower text)) exit_words = false ->
  let r := cli_turn text st g in
  let redirect := detect_redirect (cli_category st) (Py.lower text) in
  let st' := r.1.2 in
  cli_clipboard st' = apply_writes (cli_writes text st) (cli_clipboard st)
  /\ cli_category st' = default (cli_category st) redirect
  /\ cli_subgroup st'
     = match redirect with
       | Some c => get_best_subgroup text c
       | None => routed_subgroup text (cli_category st) (cli_subgroup st)
       end
  /\ exists g' next_q slot,
       (next_q, slot)
       = (pick_next_question SPECIALIST_QUESTIONS (cli_category st')
            (cli_subgroup st') (cli_clipboard st') g').1
       /\ r.1.1
          = (if Py.truthy next_q then Ask (default "" next_q)
             else match redirect with
                  | Some _ => Silent
                  | None => Complete (cli_category st') (cli_subgroup st')
                              (generate_summary (cli_clipboard st') (cli_category st'))
                  end)
       /\ cli_last_asked_slot st'
          = if Py.truthy next_q then slot else cli_last_asked_slot st.
Proof.
  intros Hex. unfold cli_turn, cli_writes. rewrite Hex.
  destruct st as [category sub cb last].
  cbn [cli_category cli_subgroup cli_clipboard cli_last_asked_slot].
  rewrite loyalty_check_routed. rewrite !apply_writes_app.
  gnq_destruct_full. rewrite <- Hw. clear Hw.
  destruct (detect_redirect category (Py.lower text)) as [target|] eqn:Ed.
  - destruct Hs as [[= -> ->] Hget]. rewrite bool_decide_eq_true_2 by done.
    unfold item, get_or. rewrite Hget. simpl default. clear Hp.
    rewrite apply_writes_app.
    gnq_destruct_full. rewrite <- Hw. clear Hw Hs Hp.
    gnq_destruct_full. rewrite <- Hw. clear Hw Hs.
    specialize (Hp (detect_redirect_target _ _ _ Ed _)).
    destruct (Py.truthy _) eqn:Et; simpl; (split_and!; [done..|]);
      eexists _, _, _; (split; [exact Hp|]); by rewrite Et.
  - specialize (Hp eq_refl). simpl.
    destruct Hs as [[= -> ->]|(q & slot & [= -> ->] & H & Hne)].
    + rewrite bool_decide_eq_false_2 by done. simpl. split_and!; [done..|].
      eexists _, _, _. split; [exact Hp|]. done.
    + rewrite bool_decide_eq_false_2 by congruence.
      destruct (Py.truthy _) eqn:Et; simpl; (split_and!; [done..|]);
        eexists _, _, _; (split; [exact Hp|]); by rewrite Et.
Qed.

Lemma last_write_dup {V} k (P C R : list (string * V)) :
  last_write k (P ++ (C ++ P) ++ R) = last_write k ((C ++ P) ++ R).
Proof.
  rewrite !last_write_app.
  by destruct (last_write k R), (last_write k P), (last_write k C).
Qed.

(** The pre-fill call of the handler assigns nothing that the main call does
    not assign again. *)
Lemma last_write_prefill k text st :
  last_write k (turn_writes text (session_of st)) = last_write k (cli_writes text st).
Proof.
  unfold turn_writes, cli_writes, prefill_writes, session_of.
  cbn [sess_clipboard sess_subgroup sess_last_slot sess_category sess_status].
  destruct (String.eqb _ _); [|done]. destruct (negb _); [|done].
  rewrite (call_writes_context _ _ (cli_last_asked_slot st)). apply last_write_dup.
Qed.

(** X15. One pass of the command-line loop and one turn of the request
    handler's logic engine, started from the same category, sub-group,
    clipboard and last slot on a line that is not an exit word, end in the
    same category and sub-group and in clipboards that agree on every key.
    When a slot is left to ask, both ask for it, each with a question the
    bank lists for it, and the loop records it.  When none is left, the
    handler closes the case; the loop closes it too, except after a
    redirect, where it prints nothing, keeps its last slot and waits for the
    next line. *)
Theorem cli_agrees_with_handler text st g g0 :
  existsb (String.eqb (Py.lower text)) exit_words = false ->
  let e := run_logic_engine text (session_of st) g in
  let r := cli_turn text st g0 in
  let st' := r.1.2 in
  cli_category st' = eng_category e
  /\ cli_subgroup st' = eng_subgroup e
  /\ (forall k, dict_get k (cli_clipboard st') = dict_get k (eng_clipboard e))
  /\ match eng_slot e with
     | Some sl =>
         cli_last_asked_slot st' = Some sl
         /\ exists qs q q',
              (sl, qs) ∈ required_slots SPECIALIST_QUESTIONS
                           (eng_category e) (eng_subgroup e)
              /\ eng_next_q e = Some q /\ q ∈ qs
              /\ r.1.1 = Ask q' /\ q' ∈ qs
     | None =>
         eng_next_q e = None
         /\ cli_last_asked_slot st' = cli_last_asked_slot st
         /\ r.1.1 = match detect_redirect (cli_category st) (Py.lower text) with
                    | Some _ => Silent
                    | None =>
                        Complete (eng_category e) (eng_subgroup e)
                          (generate_summary (cli_clipboard st') (eng_category e))
                    end
     end.
Proof.
  intros Hex. cbv zeta.
  destruct (cli_turn_spec text st g0 Hex)
    as (Hcb & Hc & Hs & g1 & next_q & slot & Hq & Hev & Hlast).
  destruct (engine_spec_full text (session_of st) g) as (Ecb & Ec & Es & _).
  pose proof (engine_question text (session_of st) g) as Eq.
  cbv zeta in Eq.
  set (r := cli_turn text st g0) in *. set (st' := r.1.2) in *.
  set (e := run_logic_engine text (session_of st) g) in *.
  change (sess_category (session_of st)) with (cli_category st) in *.
  change (sess_subgroup (session_of st)) with (cli_subgroup st) in *.
  change (sess_clipboard (session_of st)) with (cli_clipboard st) in *.
  assert (cli_category st' = eng_category e) as Hcat
    by (etrans; [exact Hc|symmetry; exact Ec]).
  assert (cli_subgroup st' = eng_subgroup e) as Hsub
    by (etrans; [exact Hs|symmetry; exact Es]).
  assert (forall k, dict_get k (cli_clipboard st') = dict_get k (eng_clipboard e))
    as Hget.
  { intros k. by rewrite Hcb, Ecb, !dict_get_apply_writes, last_write_prefill. }
  split; [done|]. split; [done|]. split; [done|].
  rewrite pick_spec, Hcat, Hsub, (first_missing_ext _ _ _ Hget) in Hq.
  destruct (first_missing _ _) as [[sl qs]|] eqn:Ef.
  - destruct Eq as (-> & q & Hnq & Hin). injection Hq as -> ->.
    apply first_missing_elem in Ef as [Hreq _].
    assert ((random_choice qs g1).1 ∈ qs) as Hin'.
    { apply random_choice_elem. by eapply required_slots_nonempty_lists. }
    rewrite (question_truthy _ _ _ _ _ Hreq Hin') in Hev, Hlast.
    split; [done|]. exists qs, q, (random_choice qs g1).1. by split_and!.
  - destruct Eq as [Hnq ->]. injection Hq as -> ->. simpl in Hev, Hlast.
    split_and!; try done. by rewrite Hev, Hcat, Hsub.
Qed.

Lemma cli_agrees_with_handler_witness :
  let text := "I have poop problems" in
  let e := run_logic_engine text (session_of cli_start) [] in
  let r := cli_turn text cli_start [] in
  let st' := r.1.2 in
  existsb (String.eqb (Py.lower text)) exit_words = false
  /\ cli_category st' = eng_category e
  /\ cli_subgroup st' = eng_subgroup e
  /\ (forall k, dict_get k (cli_clipboard st') = dict_get k (eng_clipboard e))
  /\ match eng_slot e with
     | Some sl =>
         cli_last_asked_slot st' = Some sl
         /\ exists qs q q',
              (sl, qs) ∈ required_slots SPECIALIST_QUESTIONS
                           (eng_category e) (eng_subgroup e)
              /\ eng_next_q e = Some q /\ q ∈ qs
              /\ r.1.1 = Ask q' /\ q' ∈ qs
     | None =>
         eng_next_q e = None
         /\ cli_last_asked_slot st' = cli_last_asked_slot cli_start
         /\ r.1.1 = match detect_redirect (cli_category cli_start) (Py.lower text) with
                    | Some _ => Silent
                    | None =>
                        Complete (eng_category e) (eng_subgroup e)
                          (generate_summary (cli_clipboard st') (eng_category e))
                    end
     end.
Proof.
  intros text e r st'. split; [reflexivity|].
  apply (cli_agrees_with_handler text cli_start [] []). reflexivity.
Defined.

Lemma redirect_not_exit text target :
  detect_redirect "GENERAL_SYSTEMIC" (Py.lower text) = Some target ->
  existsb (String.eqb (Py.lower text)) exit_words = false.
Proof.
  intros Hd. destruct (existsb _ _) eqn:E; [|done].
  apply existsb_exists in E as (w & Hw & Heq). apply String.eqb_eq in Heq.
  rewrite Heq in Hd. unfold exit_words in Hw. simpl in Hw.
  destruct Hw as [<-|[<-|[<-|[]]]]; vm_compute in Hd; discriminate.
Qed.

Lemma required_slots_gastro sub_group :
  required_slots SPECIALIST_QUESTIONS "GASTROINTESTINAL" sub_group = [].
Proof. reflexivity. Qed.

Lemma cli_turn_gastro text st g :
  existsb (String.eqb (Py.lower text)) exit_words = false ->
  default (cli_category st) (detect_redirect (cli_category st) (Py.lower text))
  = "GASTROINTESTINAL" ->
  let r := cli_turn text st g in
  cli_category r.1.2 = "GASTROINTESTINAL"
  /\ r.1.1 = match detect_redirect (cli_category st) (Py.lower text) with
             | Some _ => Silent
             | None =>
                 Complete "GASTROINTESTINAL" (cli_subgroup r.1.2)
                   (generate_summary (cli_clipboard r.1.2) "GASTROINTESTINAL")
             end.
Proof.
  intros Hex Hcat. cbv zeta.
  destruct (cli_turn_spec text st g Hex)
    as (_ & Hc & _ & g1 & next_q & slot & Hq & Hev & _).
  rewrite Hcat in Hc. rewrite Hc in Hq, Hev. split; [done|].
  rewrite pick_spec, required_slots_gastro in Hq. simpl in Hq.
  injection Hq as -> ->. exact Hev.
Qed.

Lemma main_loop_app pre rest st g st' g' :
  cli_run pre st g = Some (st', g') ->
  main_loop (pre ++ rest) st g = main_loop pre st g ++ main_loop rest st' g'.
Proof.
  revert st g. induction pre as [|x pre IH]; intros st g; simpl.
  - by intros [= -> ->].
  - destruct (cli_turn x st g) as [[ev st1] g1].
    destruct ev; try done; intros H; by rewrite (IH _ _ H).
Qed.

Lemma main_loop_gastro_redirect text1 text2 rest st g :
  detect_redirect (cli_category st) (Py.lower text1) = Some "GASTROINTESTINAL" ->
  existsb (String.eqb (Py.lower text2)) exit_words = false ->
  main_loop [text1] st g = [Silent]
  /\ exists sub_group final_report,
       main_loop (text1 :: text2 :: rest) st g
       = [Silent; Complete "GASTROINTESTINAL" sub_group final_report].
Proof.
  intros Hd Hex2.
  assert (existsb (String.eqb (Py.lower text1)) exit_words = false) as Hex1.
  { pose proof (detect_redirect_general _ _ _ Hd) as Hg. rewrite Hg in Hd.
    by eapply redirect_not_exit. }
  pose proof (cli_turn_gastro text1 st g Hex1) as H1. rewrite Hd in H1.
  destruct (H1 eq_refl) as [Hc1 Hev1]. clear H1.
  cbn [main_loop].
  destruct (cli_turn text1 st g) as [[ev1 st1] g1]. simpl in Hc1, Hev1.
  subst ev1. split; [done|].
  pose proof (cli_turn_gastro text2 st1 g1 Hex2) as H2.
  rewrite Hc1 in H2. change (detect_redirect "GASTROINTESTINAL" (Py.lower text2))
    with (@None string) in H2.
  destruct (H2 eq_refl) as [_ Hev2]. clear H2.
  destruct (cli_turn text2 st1 g1) as [[ev2 st2] g2]. simpl in Hev2.
  subst ev2. eauto.
Qed.

(** X16. In the command-line program a redirect to GASTROINTESTINAL never
    ends the conversation on its own line, wherever in the conversation it
    comes: if the loop is still running after the lines [pre] and the next
    line redirects to GASTROINTESTINAL, the loop prints nothing for it and
    stops there if the input ends; whatever line comes next, other than an
    exit word, then closes the case in GASTROINTESTINAL, and the loop reads
    no further. *)
Theorem cli_gastro_redirect_waits pre text1 text2 rest g st g1 :
  cli_run pre cli_start g = Some (st, g1) ->
  detect_redirect (cli_category st) (Py.lower text1) = Some "GASTROINTESTINAL" ->
  existsb (String.eqb (Py.lower text2)) exit_words = false ->
  main (pre ++ [text1]) g = main pre g ++ [Silent]
  /\ exists sub_group final_report,
       main (pre ++ text1 :: text2 :: rest) g
       = main pre g ++ [Silent; Complete "GASTROINTESTINAL" sub_group final_report].
Proof.
  intros Hrun Hd Hex2. unfold main. rewrite !(main_loop_app _ _ _ _ _ _ Hrun).
  destruct (main_loop_gastro_redirect text1 text2 rest st g1 Hd Hex2)
    as (-> & sub_group & final_report & ->).
  eauto.
Qed.

Lemma cli_gastro_redirect_waits_witness :
  let pre := ["I feel weird"] in
  let text1 := "maybe it is my poop" in
  let text2 := "since monday" in
  let st := Cli "GENERAL_SYSTEMIC" "DEFAULT" [] (Some "assessment") in
  cli_run pre cli_start [] = Some (st, [])
  /\ detect_redirect (cli_category st) (Py.lower text1) = Some "GASTROINTESTINAL"
  /\ existsb (String.eqb (Py.lower text2)) exit_words = false
  /\ main (pre ++ [text1]) [] = main pre [] ++ [Silent]
  /\ exists sub_group final_report,
       main (pre ++ text1 :: text2 :: ["and more"]) []
       = main pre [] ++ [Silent; Complete "GASTROINTESTINAL" sub_group final_report].
Proof.
  intros pre text1 text2 st.
  split; [reflexivity|]. split; [reflexivity|]. split; [reflexivity|].
  apply (cli_gastro_redirect_waits pre text1 text2 ["and more"] [] st []);
    reflexivity.
Defined.

(** ** The prescription text *)

Lemma or_empty_id x : Rx.or_empty x = x.
Proof. by destruct x. Qed.

Lemma rstrip_snoc s c :
  Py.is_space c = false ->
  Rx.rstrip (s +:+ String c EmptyString) = s +:+ String c EmptyString.
Proof.
  intros Hc. induction s as [|a s IH].
  - rewrite append_nil. simpl. by rewrite Hc.
  - rewrite append_cons. cbn [Rx.rstrip]. rewrite IH.
    destruct s; by rewrite ?append_nil, ?append_cons.
Qed.

Lemma strip_take_dot y : Rx.strip ("Take " +:+ y +:+ ".") = "Take " +:+ y +:+ ".".
Proof.
  unfold Rx.strip. rewrite !append_cons, append_nil.
  cbn [Rx.lstrip]. change (Py.is_space "T") with false. cbv iota.
  rewrite <- (append_nil (y +:+ ".")) at 1.
  rewrite <- !append_cons, <- append_assoc.
  rewrite rstrip_snoc by reflexivity.
  by rewrite append_assoc.
Qed.

(** X17. The text sent to the patient for a prescription has one line per
    item, each exactly of the form Take, name, frequency, instruction,
    for, duration, full stop, with the frequency looked up in the table and
    an unknown timing passed through: since every line starts with Take and
    ends with a full stop, the final strip removes nothing, and an empty
    instruction or duration leaves its place empty (two spaces in a row, or
    a space before the full stop). *)
Theorem patient_sentence_lines meds :
  Rx.generate_patient_sentence meds
  = String.concat Rx.newline
      (map (fun m =>
              "Take " +:+ Rx.name m +:+ " "
              +:+ get_or (Rx.timing m) (Rx.timing m) Rx.freq_map +:+ " "
              +:+ Rx.instruction m +:+ " for " +:+ Rx.duration m +:+ ".")
           meds).
Proof.
  unfold Rx.generate_patient_sentence. f_equal. apply map_ext. intros m.
  unfold Rx.line, cat. rewrite !or_empty_id. cbn [String.concat].
  rewrite !append_nil.
  assert (forall a b c d e : string,
    a +:+ " " +:+ b +:+ " " +:+ c +:+ " for " +:+ d +:+ e
    = (a +:+ " " +:+ b +:+ " " +:+ c +:+ " for " +:+ d) +:+ e) as Hassoc
    by (intros; by rewrite !append_assoc).
  rewrite Hassoc. apply strip_take_dot.
Qed.

(** ** The GASTROINTESTINAL scenario *)

(** C1, as the code has it.  In a fresh session the utterance is classified
    GASTROINTESTINAL and routed to STOMACH; afterwards the clipboard has a
    duration, the severity "severe" and a vomiting value.  These are the
    three slots of STOMACH in the bank literal of line 152, so no STOMACH
    slot is left to ask: question selection over that literal signals
    completion whatever the draw, the engine returns [None, None], and the
    request ends with the completion message. *)
Theorem gastro_scenario :
  let text := "I have severe stomach pain and vomiting for 2 days" in
  let s := new_session (classify text) in
  let e := run_logic_engine text s [] in
  classify text = "GASTROINTESTINAL"
  /\ get_best_subgroup text "GASTROINTESTINAL" = "STOMACH"
  /\ eng_subgroup e = "STOMACH"
  /\ (required_slots SPECIALIST_QUESTIONS_1 "GASTROINTESTINAL" "STOMACH").*1
     = ["duration"; "vomiting"; "severity"]
  /\ is_Some (dict_get "duration" (eng_clipboard e))
  /\ dict_get "severity" (eng_clipboard e) = Some "severe"
  /\ dict_get "vomiting" (eng_clipboard e) = Some "vomit"
  /\ (forall g,
        pick_next_question SPECIALIST_QUESTIONS_1 "GASTROINTESTINAL" "STOMACH"
          (eng_clipboard e) g = ((None, None), g))
  /\ (eng_next_q e, eng_slot e) = (None, None)
  /\ out_response (predict_disease no_faults 7 text ∅ [])
     = Reply "Diagnosis Complete. I have sent your report to the Gastroenterologist." true.
Proof.
  intros text s e.
  assert (eng_clipboard e
          = [("duration", "2 day"); ("severity", "severe"); ("vomiting", "vomit")])
    as Hcb by (vm_compute; reflexivity).
  rewrite Hcb.
  split_and!;
    first [ vm_compute; reflexivity | by eexists | intros g; reflexivity ].
Qed.

(** C1, as stated, fails: no question is selected for the utterance, neither
    by the engine nor by question selection over the bank literal that has
    the STOMACH list, whatever the draw. *)
Lemma gastro_scenario_as_stated_fails :
  let text := "I have severe stomach pain and vomiting for 2 days" in
  let e := run_logic_engine text (new_session (classify text)) [] in
  ~ (exists q slot,
       eng_next_q e = Some q /\ eng_slot e = Some slot
       /\ slot ∉ ["duration"; "severity"; "vomiting"])
  /\ forall g,
       ~ exists q slot,
           (pick_next_question SPECIALIST_QUESTIONS_1 "GASTROINTESTINAL" "STOMACH"
              (eng_clipboard e) g).1 = (Some q, Some slot).
Proof.
  intros text e. split.
  - intros (q & slot & H & _). vm_compute in H. discriminate.
  - intros g (q & slot & H).
    assert (eng_clipboard e
            = [("duration", "2 day"); ("severity", "severe"); ("vomiting", "vomit")])
      as Hcb by (vm_compute; reflexivity).
    rewrite Hcb in H. discriminate.
Qed.

(** The duration pattern's unit alternative is the stem: for "for 2 days"
    the value stored is "2 day", where the comments of lines 868 and 873
    speak of "2 days" and "3 days". *)
Example duration_capture_keeps_stem :
  dict_get "duration"
    (gnq_clipboard
       (get_next_question "GASTROINTESTINAL" "STOMACH"
          "I have severe stomach pain and vomiting for 2 days" [] None []))
  = Some "2 day".
Proof. vm_compute. reflexivity. Qed.

(** ** Urgency within a turn, redirects included *)

Lemma cascade_silent_on_empty category :
  omap (fires "") (category_rules category) = [].
Proof. unfold category_rules. repeat case_eqb; vm_compute; reflexivity. Qed.

Lemma last_write_capture p sl t :
  sl <> "URGENCY_OVERRIDE" ->
  last_write "URGENCY_OVERRIDE" (capture_writes p sl t) = None.
Proof.
  intros Hne. unfold capture_writes. destruct (search p t); [|done].
  simpl. by destruct (String.eqb_spec sl "URGENCY_OVERRIDE").
Qed.

(** The level a call that follows no question leaves in URGENCY_OVERRIDE is
    that of the last rule of the cascade that raised its flag. *)
Lemma last_write_call_none category text :
  last_write "URGENCY_OVERRIDE" (call_writes category text None)
  = last (omap (fires (Py.lower text)) (category_rules category)).
Proof.
  unfold call_writes, slot_writes. rewrite !last_write_app.
  assert (last_write "URGENCY_OVERRIDE" (redirect_writes category text) = None) as ->.
  { unfold redirect_writes. by destruct (detect_redirect _ _). }
  rewrite last_write_cascade by apply category_rules_slots.
  destruct (last _); [done|].
  by rewrite !last_write_capture by discriminate.
Qed.

Lemma last_fires_split t rules pre mid post r1 r2 l1 l2 :
  rules = pre ++ r1 :: mid ++ r2 :: post ->
  fires t r1 = Some l1 ->
  fires t r2 = Some l2 ->
  Forall (fun r => fires t r = None) post ->
  last (omap (fires t) rules) = Some l2.
Proof.
  intros -> H1 H2 Hpost.
  assert (omap (fires t) post = []) as Hnone.
  { clear -Hpost. induction Hpost as [|r post Hr _ IH]; [done|].
    by rewrite (omap_cons_None _ _ _ Hr). }
  rewrite omap_app, (omap_cons_Some _ _ _ _ H1), omap_app,
    (omap_cons_Some _ _ _ _ H2), Hnone.
  rewrite app_comm_cons, app_assoc. apply last_snoc.
Qed.

(** The level a turn leaves in URGENCY_OVERRIDE is that of the last rule
    that raised its flag, among the rules of the session's category and,
    after a redirect, those of the new category. *)
Lemma turn_last_urgency text s l :
  last (omap (fires (Py.lower text)) (turn_rules text s)) = Some l ->
  last_write "URGENCY_OVERRIDE" (turn_writes text s) = Some l.
Proof.
  unfold turn_rules, turn_writes.
  destruct (detect_redirect _ _) as [c|].
  - rewrite omap_app, last_app. intros H. rewrite !last_write_app.
    rewrite (last_write_call_none c ""). change (Py.lower "") with "".
    rewrite cascade_silent_on_empty. simpl last.
    rewrite last_write_call_none.
    destruct (last (omap (fires (Py.lower text)) (category_rules c))); [done|].
    by rewrite (last_write_call _ _ _ _ H).
  - rewrite app_nil_r. intros H. rewrite app_nil_r, last_write_app.
    by rewrite (last_write_call _ _ _ _ H).
Qed.

(** C4. When two rules that a turn runs on the utterance both raise their
    urgency flag and no rule after the second one does, the URGENCY_OVERRIDE
    stored at the end of the turn is the level of the second: the last
    write wins, whatever the two levels are.  The rules of the turn are
    those of the session category's cascade, followed after a redirect by
    those of the new category's cascade; so for two rules of the same
    cascade the level is that of the later one unless the turn redirects
    and a rule of the new category raises its flag afterwards.  The same
    holds for every single call of [get_next_question] on the utterance in
    a category with that cascade.  In the DERMATOLOGICAL cascade the
    bleeding rule (CRITICAL) comes before the infection-signs rule (HIGH),
    which comes before the systemic rule. *)
Theorem last_urgency_rule_wins text s g pre mid post r1 r2 l1 l2 :
  turn_rules text s = pre ++ r1 :: mid ++ r2 :: post ->
  fires (Py.lower text) r1 = Some l1 ->
  fires (Py.lower text) r2 = Some l2 ->
  Forall (fun r => fires (Py.lower text) r = None) post ->
  dict_get "URGENCY_OVERRIDE" (eng_clipboard (run_logic_engine text s g)) = Some l2
  /\ forall category sub_group cb asked g',
       category_rules category = pre ++ r1 :: mid ++ r2 :: post ->
       dict_get "URGENCY_OVERRIDE"
         (gnq_clipboard (get_next_question category sub_group text cb asked g'))
       = Some l2.
Proof.
  intros Hrules H1 H2 Hpost. split.
  - destruct (engine_spec text s g) as (-> & _ & _).
    rewrite dict_get_apply_writes.
    by rewrite (turn_last_urgency text s l2)
      by (eapply last_fires_split; eauto).
  - intros category sub_group cb asked g' Hcat. apply urgency_after_call.
    eapply last_fires_split; eauto.
Qed.

Lemma last_urgency_rule_wins_witness :
  let text := "the cut is gushing and has a red streak" in
  let s := Session [] "TRAUMA_BURN" (Some "depth") "DERMATOLOGICAL" "ACTIVE" in
  (turn_rules text s
   = take 4 DERMATOLOGICAL_rules ++ derma_bleeding
       :: [] ++ derma_infection_signs :: drop 6 DERMATOLOGICAL_rules
   /\ fires (Py.lower text) derma_bleeding = Some "CRITICAL"
   /\ fires (Py.lower text) derma_infection_signs = Some "HIGH"
   /\ Forall (fun r => fires (Py.lower text) r = None) (drop 6 DERMATOLOGICAL_rules))
  /\ dict_get "URGENCY_OVERRIDE" (eng_clipboard (run_logic_engine text s [])) = Some "HIGH"
  /\ forall category sub_group cb asked g',
       category_rules category
       = take 4 DERMATOLOGICAL_rules ++ derma_bleeding
           :: [] ++ derma_infection_signs :: drop 6 DERMATOLOGICAL_rules ->
       dict_get "URGENCY_OVERRIDE"
         (gnq_clipboard (get_next_question category sub_group text cb asked g'))
       = Some "HIGH".
Proof.
  intros text s.
  assert (Forall (fun r => fires (Py.lower text) r = None)
            (drop 6 DERMATOLOGICAL_rules)) as Hpost.
  { repeat constructor; vm_compute; reflexivity. }
  split.
  - split_and!; [reflexivity | vm_compute; reflexivity | vm_compute; reflexivity
                 | exact Hpost].
  - apply (last_urgency_rule_wins text s []
             (take 4 DERMATOLOGICAL_rules) [] (drop 6 DERMATOLOGICAL_rules)
             derma_bleeding derma_infection_signs "CRITICAL" "HIGH");
      [reflexivity | vm_compute; reflexivity | vm_compute; reflexivity
       | exact Hpost].
Defined.

(** Two GENERAL_SYSTEMIC turns that redirect.  On both the urine rule
    raises CRITICAL and the bleeding rule raises HIGH; the first goes on to
    GASTROINTESTINAL, where no rule raises a flag, and ends at HIGH; the
    second goes on to DERMATOLOGICAL, where the systemic rule raises
    CRITICAL afterwards, and ends at CRITICAL. *)
Example redirecting_turns_last_rule :
  let s := Session [] "DEFAULT" None "GENERAL_SYSTEMIC" "ACTIVE" in
  let t4 := "dark urine, i am confused, my gums bleed and my stomach hurts" in
  let t5 := "dark urine, i am confused, my gums bleed and the rash makes my throat swell" in
  (omap (fires (Py.lower t4)) (turn_rules t4 s) = ["CRITICAL"; "HIGH"]
   /\ dict_get "URGENCY_OVERRIDE" (eng_clipboard (run_logic_engine t4 s []))
      = Some "HIGH")
  /\ (omap (fires (Py.lower t5)) (turn_rules t5 s) = ["CRITICAL"; "HIGH"; "CRITICAL"]
      /\ dict_get "URGENCY_OVERRIDE" (eng_clipboard (run_logic_engine t5 s []))
         = Some "CRITICAL").
Proof. vm_compute. repeat split; reflexivity. Qed.

(** ** Urgency across turns, for every session the handler holds *)





(** ** What a redirect does to the duration *)







